(** * MitIT Markdown Editor: document persistence, search and auto-save

    A shallow embedding of the document stores of the editor
    ([src/stores/documentStore.ts], [src/stores/editorStore.ts]), of the two
    Dexie database services they call, of the content search of
    [sMarkdownService] and of the auto-save timers of [OMarkdownEditor],
    followed by the properties of the specification that concern them.

    Beyond the specification, the file embeds the text and document
    utilities of [lib/utils], the search on the legacy properties, the file
    manager, the import button and the formatting of the selection, and
    proves further properties that the code shows.

    Conventions of the embedding:
    - a JavaScript string is a [string]; the model of [toLowerCase] and
      [trim] covers the ASCII range (other code units are left alone);
    - a [Date] is its [getTime] value in milliseconds, a [Z];
    - an optional property ([id?: string]) is an [option];
    - an [async] function is a computation in the monad [M], which threads
      the whole world (clock, databases, store states) and keeps the
      mutations made before an exception is thrown, as JavaScript does;
    - a Dexie table is the list of its records in primary-key order. *)

From Stdlib Require Import String Ascii List ZArith NArith Arith Lia Bool.
From Stdlib Require Import Sorted Permutation.
Import ListNotations.

Local Open Scope string_scope.
Local Open Scope list_scope.

(* ===================================================================== *)
(** ** JavaScript string and array primitives used by the stores *)
(* ===================================================================== *)

Module JS.

Definition LF : ascii := ascii_of_nat 10.

(** Code units that [String.prototype.trim] strips (ASCII range). *)
Definition is_ws (c : ascii) : bool :=
    let n := nat_of_ascii c in
    ((9 <=? n)%nat && (n <=? 13)%nat) || (n =? 32)%nat.

Definition lower_ascii (c : ascii) : ascii :=
    let n := nat_of_ascii c in
    if ((65 <=? n)%nat && (n <=? 90)%nat) then ascii_of_nat (n + 32) else c.

(** [s.toLowerCase()] *)
Fixpoint toLowerCase (s : string) : string :=
    match s with
    | EmptyString => EmptyString
    | String c s' => String (lower_ascii c) (toLowerCase s')
    end.

(** [s.includes(q)] *)
Fixpoint includes (s q : string) : bool :=
    String.prefix q s ||
    match s with
    | EmptyString => false
    | String _ s' => includes s' q
    end.

Fixpoint trimStart (s : string) : string :=
    match s with
    | EmptyString => EmptyString
    | String c s' => if is_ws c then trimStart s' else s
    end.

Fixpoint trimEnd (s : string) : string :=
    match s with
    | EmptyString => EmptyString
    | String c s' =>
        match trimEnd s' with
        | EmptyString => if is_ws c then EmptyString else String c EmptyString
        | t => String c t
        end
    end.

(** [s.trim()] *)
Definition trim (s : string) : string := trimEnd (trimStart s).

(** Truthiness of a string: the empty string is falsy. *)
Definition truthy (s : string) : bool := negb (s =? "").

(** [s.split('\n')] *)
Fixpoint split_lines (s : string) : list string :=
    match s with
    | EmptyString => [EmptyString]
    | String c s' =>
        if Ascii.eqb c LF then EmptyString :: split_lines s'
        else match split_lines s' with
             | l :: ls => String c l :: ls
             | [] => [String c EmptyString]
             end
    end.

(** [a.join('\n')] *)
Definition join_lines (a : list string) : string :=
    String.concat (String LF EmptyString) a.

(** [a.slice(i, j)] for in-range, non-negative bounds *)
Definition slice {A} (i j : nat) (a : list A) : list A :=
    firstn (j - i) (skipn i a).

(** [a.some(p)] *)
Definition some {A} (p : A -> bool) (a : list A) : bool := existsb p a.

(** [Array.prototype.sort(cmp)]: a stable sort; [x] stays before [y]
    unless [cmp x y > 0]. *)
Section Sort.
Context {A : Type} (cmp : A -> A -> Z).

Fixpoint sort_insert (x : A) (l : list A) : list A :=
  match l with
  | [] => [x]
  | y :: l' => if (cmp x y >? 0)%Z then y :: sort_insert x l' else x :: l
  end.

Definition sort (l : list A) : list A := fold_right sort_insert [] l.
End Sort.

End JS.

(* ===================================================================== *)
(** ** Data model ([types], [database/db]) *)
(* ===================================================================== *)

(** [interface MarkdownDocument] ([TMDDocument] is an alias of it). *)
Record MarkdownDocument := mkDoc {
  FNMdcId : option N;
  FTMdcTitle : string;
  FTMdcContent : string;
  FDMdcModified : Z;
  FDMdcCreated : Z;
  FNMdcSize : nat;
  FTMdcTags : option (list string);
  FBMdcFavorite : bool;
  (* legacy properties *)
  id : option string;
  title : option string;
  content : option string;
  createdAt : option Z;
  updatedAt : option Z;
  tags : option (list string);
  isStarred : option bool;
  folderId : option string
}.

(** [Partial<MarkdownDocument>]: every property may be absent. *)
Record Partial := mkPartial {
  pFNMdcId : option N;
  pFTMdcTitle : option string;
  pFTMdcContent : option string;
  pFDMdcModified : option Z;
  pFDMdcCreated : option Z;
  pFNMdcSize : option nat;
  pFTMdcTags : option (list string);
  pFBMdcFavorite : option bool;
  pid : option string;
  ptitle : option string;
  pcontent : option string;
  pcreatedAt : option Z;
  pupdatedAt : option Z;
  ptags : option (list string);
  pisStarred : option bool;
  pfolderId : option string
}.

Definition or_else {A} (o : option A) (d : A) : A :=
  match o with Some a => a | None => d end.

Definition or_keep {A} (o d : option A) : option A :=
  match o with Some a => Some a | None => d end.

(** Object spread [{ ...doc, ...updates }], which is also what Dexie's
    [Table.update] does to the stored record. *)
Definition spread (doc : MarkdownDocument) (u : Partial) : MarkdownDocument :=
  {| FNMdcId := or_keep (pFNMdcId u) (FNMdcId doc);
     FTMdcTitle := or_else (pFTMdcTitle u) (FTMdcTitle doc);
     FTMdcContent := or_else (pFTMdcContent u) (FTMdcContent doc);
     FDMdcModified := or_else (pFDMdcModified u) (FDMdcModified doc);
     FDMdcCreated := or_else (pFDMdcCreated u) (FDMdcCreated doc);
     FNMdcSize := or_else (pFNMdcSize u) (FNMdcSize doc);
     FTMdcTags := or_keep (pFTMdcTags u) (FTMdcTags doc);
     FBMdcFavorite := or_else (pFBMdcFavorite u) (FBMdcFavorite doc);
     id := or_keep (pid u) (id doc);
     title := or_keep (ptitle u) (title doc);
     content := or_keep (pcontent u) (content doc);
     createdAt := or_keep (pcreatedAt u) (createdAt doc);
     updatedAt := or_keep (pupdatedAt u) (updatedAt doc);
     tags := or_keep (ptags u) (tags doc);
     isStarred := or_keep (pisStarred u) (isStarred doc);
     folderId := or_keep (pfolderId u) (folderId doc) |}.

(** [interface SearchResult] *)
Module SearchResult.
Record t := mk {
  documentId : option N;
  title : string;
  content : string;
  matchCount : nat;
  highlights : list string
}.
End SearchResult.

(** The part of [AppSettings] the modelled operations read. *)
Module AppSettings.
Record t := mk {
  autoSave : bool;
  autoSaveInterval : Z
}.
End AppSettings.

(** State of [useEditorStore]. [content] is [None] when a record without
    the legacy [content] property was loaded into it. *)
Module EditorStore.
Record state := mk {
    currentDocument : option MarkdownDocument;
    content : option string;
    isAutoSaving : bool;
    lastSaved : option Z;
    documents : list MarkdownDocument;
    settings : AppSettings.t;
    isPreviewMode : bool;
    isMobileView : bool
  }.

(** The initial state of the store. *)
Definition init : state :=
    {| currentDocument := None;
       content := Some "";
       isAutoSaving := false;
       lastSaved := None;
       documents := [];
       settings := AppSettings.mk true 5000;
       isPreviewMode := false;
       isMobileView := false |}.

Definition with_currentDocument (x : option MarkdownDocument) (s : state) : state :=
  mk x (content s) (isAutoSaving s) (lastSaved s) (documents s) (settings s)
     (isPreviewMode s) (isMobileView s).

Definition with_content (x : option string) (s : state) : state :=
  mk (currentDocument s) x (isAutoSaving s) (lastSaved s) (documents s) (settings s)
     (isPreviewMode s) (isMobileView s).

Definition with_isAutoSaving (x : bool) (s : state) : state :=
  mk (currentDocument s) (content s) x (lastSaved s) (documents s) (settings s)
     (isPreviewMode s) (isMobileView s).

Definition with_lastSaved (x : option Z) (s : state) : state :=
  mk (currentDocument s) (content s) (isAutoSaving s) x (documents s) (settings s)
     (isPreviewMode s) (isMobileView s).

Definition with_documents (x : list MarkdownDocument) (s : state) : state :=
  mk (currentDocument s) (content s) (isAutoSaving s) (lastSaved s) x (settings s)
     (isPreviewMode s) (isMobileView s).
End EditorStore.

(** State of [useDocumentStore]. *)
Module DocumentStore.
Record state := mk {
    documents : list MarkdownDocument;
    currentDocument : option MarkdownDocument;
    isLoading : bool;
    searchQuery : string;
    searchResults : list SearchResult.t
  }.

Definition init : state :=
    {| documents := [];
       currentDocument := None;
       isLoading := false;
       searchQuery := "";
       searchResults := [] |}.

Definition with_documents (x : list MarkdownDocument) (s : state) : state :=
  mk x (currentDocument s) (isLoading s) (searchQuery s) (searchResults s).

Definition with_currentDocument (x : option MarkdownDocument) (s : state) : state :=
  mk (documents s) x (isLoading s) (searchQuery s) (searchResults s).

Definition with_isLoading (x : bool) (s : state) : state :=
  mk (documents s) (currentDocument s) x (searchQuery s) (searchResults s).

Definition with_searchQuery (x : string) (s : state) : state :=
  mk (documents s) (currentDocument s) (isLoading s) x (searchResults s).

Definition with_searchResults (x : list SearchResult.t) (s : state) : state :=
  mk (documents s) (currentDocument s) (isLoading s) (searchQuery s) x.
End DocumentStore.

(* ===================================================================== *)
(** ** The world the stores run in, and the monad of [async] code *)
(* ===================================================================== *)

(** Requests sent to the Dexie tables. *)
Inductive DbCall :=
| DocsToArray
| DocsGet (k : string)
| DocsAdd (k : string)
| DocsUpdate (k : string) (u : Partial)
| DocsDelete (k : string)
| MdcToArray
| MdcGet (k : N)
| MdcAdd
| MdcUpdate (k : N) (u : Partial)
| MdcDelete (k : N).

(** Callbacks handed to [setTimeout], and the continuation of an [autoSave]
    suspended at its [await]. *)
Inductive Task :=
| AutoSaveCallback
| SaveCurrentDocumentCallback
| AutoSaveSettle (doc : MarkdownDocument) (draft : option string).

Record Timer := mkTimer {
  handle : nat;
  due : Z;
  task : Task
}.

(** The browser's timer queue: the current time, the pending timers and
    the last handle given out. *)
Record EventLoop := mkLoop {
  time : Z;
  timers : list Timer;
  timer_seq : nat
}.

(** The environment is explicit: [clock] lists the successive readings of
    [new Date()], [uuids] the successive results of [crypto.randomUUID()],
    and [faults] tells, for each successive table request, whether the
    database rejects it.  An exhausted [faults] means no further fault.
    [console] and [alerts] collect what [console.error] and [alert]
    print, [calls] records the table requests, and [autoSaveTimeoutRef] is
    the ref of the editor component. *)
Record World := mkWorld {
  clock : list Z;
  uuids : list string;
  faults : list bool;
  console : list string;
  alerts : list string;
  calls : list DbCall;
  db_documents : list MarkdownDocument;
  db_tMDDocument : list MarkdownDocument;
  db_tMDDocument_seq : N;
  editor : EditorStore.state;
  docstore : DocumentStore.state;
  loop : EventLoop;
  autoSaveTimeoutRef : option nat
}.

Definition with_clock (x : list Z) (w : World) : World :=
  mkWorld x (uuids w) (faults w) (console w) (alerts w) (calls w)
          (db_documents w) (db_tMDDocument w) (db_tMDDocument_seq w) (editor w)
          (docstore w) (loop w) (autoSaveTimeoutRef w).

Definition with_uuids (x : list string) (w : World) : World :=
  mkWorld (clock w) x (faults w) (console w) (alerts w) (calls w)
          (db_documents w) (db_tMDDocument w) (db_tMDDocument_seq w) (editor w)
          (docstore w) (loop w) (autoSaveTimeoutRef w).

Definition with_faults (x : list bool) (w : World) : World :=
  mkWorld (clock w) (uuids w) x (console w) (alerts w) (calls w)
          (db_documents w) (db_tMDDocument w) (db_tMDDocument_seq w) (editor w)
          (docstore w) (loop w) (autoSaveTimeoutRef w).

Definition with_console (x : list string) (w : World) : World :=
  mkWorld (clock w) (uuids w) (faults w) x (alerts w) (calls w) (db_documents w)
          (db_tMDDocument w) (db_tMDDocument_seq w) (editor w) (docstore w)
          (loop w) (autoSaveTimeoutRef w).

Definition with_alerts (x : list string) (w : World) : World :=
  mkWorld (clock w) (uuids w) (faults w) (console w) x (calls w)
          (db_documents w) (db_tMDDocument w) (db_tMDDocument_seq w) (editor w)
          (docstore w) (loop w) (autoSaveTimeoutRef w).

Definition with_calls (x : list DbCall) (w : World) : World :=
  mkWorld (clock w) (uuids w) (faults w) (console w) (alerts w) x
          (db_documents w) (db_tMDDocument w) (db_tMDDocument_seq w) (editor w)
          (docstore w) (loop w) (autoSaveTimeoutRef w).

Definition with_db_documents (x : list MarkdownDocument) (w : World) : World :=
  mkWorld (clock w) (uuids w) (faults w) (console w) (alerts w) (calls w) x
          (db_tMDDocument w) (db_tMDDocument_seq w) (editor w) (docstore w)
          (loop w) (autoSaveTimeoutRef w).

Definition with_db_tMDDocument (x : list MarkdownDocument) (w : World) : World :=
  mkWorld (clock w) (uuids w) (faults w) (console w) (alerts w) (calls w)
          (db_documents w) x (db_tMDDocument_seq w) (editor w) (docstore w)
          (loop w) (autoSaveTimeoutRef w).

Definition with_db_tMDDocument_seq (x : N) (w : World) : World :=
  mkWorld (clock w) (uuids w) (faults w) (console w) (alerts w) (calls w)
          (db_documents w) (db_tMDDocument w) x (editor w) (docstore w) (loop w)
          (autoSaveTimeoutRef w).

Definition with_editor (x : EditorStore.state) (w : World) : World :=
  mkWorld (clock w) (uuids w) (faults w) (console w) (alerts w) (calls w)
          (db_documents w) (db_tMDDocument w) (db_tMDDocument_seq w) x
          (docstore w) (loop w) (autoSaveTimeoutRef w).

Definition with_docstore (x : DocumentStore.state) (w : World) : World :=
  mkWorld (clock w) (uuids w) (faults w) (console w) (alerts w) (calls w)
          (db_documents w) (db_tMDDocument w) (db_tMDDocument_seq w) (editor w)
          x (loop w) (autoSaveTimeoutRef w).

Definition with_loop (x : EventLoop) (w : World) : World :=
  mkWorld (clock w) (uuids w) (faults w) (console w) (alerts w) (calls w)
          (db_documents w) (db_tMDDocument w) (db_tMDDocument_seq w) (editor w)
          (docstore w) x (autoSaveTimeoutRef w).

Definition with_autoSaveTimeoutRef (x : option nat) (w : World) : World :=
  mkWorld (clock w) (uuids w) (faults w) (console w) (alerts w) (calls w)
          (db_documents w) (db_tMDDocument w) (db_tMDDocument_seq w) (editor w)
          (docstore w) (loop w) x.

(** Outcome of a call: a value, or a thrown exception (a rejected promise). *)
Inductive Res (A : Type) :=
| Ok (a : A)
| Throw (e : string).
Arguments Ok {A} a.
Arguments Throw {A} e.

Definition M (A : Type) : Type := World -> Res A * World.

Definition ret {A} (a : A) : M A := fun w => (Ok a, w).

Definition bind {A B} (m : M A) (k : A -> M B) : M B :=
  fun w => match m w with
           | (Ok a, w') => k a w'
           | (Throw e, w') => (Throw e, w')
           end.

Definition throw {A} (e : string) : M A := fun w => (Throw e, w).

(** [try { m } catch (error) { h error }] *)
Definition try_catch {A} (m : M A) (h : string -> M A) : M A :=
  fun w => match m w with
           | (Ok a, w') => (Ok a, w')
           | (Throw e, w') => h e w'
           end.

Declare Scope js_scope.
Delimit Scope js_scope with js.
Notation "x <- m ;; k" := (bind m (fun x => k))
  (at level 61, m at next level, right associativity) : js_scope.
Notation "m ;; k" := (bind m (fun _ => k))
  (at level 61, right associativity) : js_scope.
Local Open Scope js_scope.

Definition get_world : M World := fun w => (Ok w, w).

(** [new Date()] *)
Definition newDate : M Z :=
  fun w => match clock w with
           | [] => (Ok 0%Z, w)
           | t :: ts => (Ok t, with_clock ts w)
           end.

(** [crypto.randomUUID()] *)
Definition randomUUID : M string :=
  fun w => match uuids w with
           | [] => (Ok "", w)
           | u :: us => (Ok u, with_uuids us w)
           end.

(** [console.error(msg, error)] *)
Definition console_error (msg : string) : M unit :=
  fun w => (Ok tt, with_console (console w ++ [msg]) w).

(** [alert(msg)] *)
Definition alert (msg : string) : M unit :=
  fun w => (Ok tt, with_alerts (alerts w ++ [msg]) w).

(** [setTimeout(callback, delay)]: returns the handle of the new timer. *)
Definition setTimeout (callback : Task) (delay : Z) : M nat :=
  fun w =>
    let l := loop w in
    let h := S (timer_seq l) in
    (Ok h, with_loop (mkLoop (time l)
                             (timers l ++ [mkTimer h (time l + delay)%Z callback])
                             h) w).

(** [clearTimeout(h)] *)
Definition clearTimeout (h : nat) : M unit :=
  fun w =>
    let l := loop w in
    (Ok tt, with_loop (mkLoop (time l)
                              (filter (fun t => negb (Nat.eqb (handle t) h)) (timers l))
                              (timer_seq l)) w).

(** A request to a Dexie table: recorded, then rejected or run. *)
Definition request {A} (c : DbCall) (run : M A) : M A :=
  fun w =>
    let w1 := with_calls (calls w ++ [c]) w in
    match faults w1 with
    | true :: fs => (Throw "DexieError", with_faults fs w1)
    | false :: fs => run (with_faults fs w1)
    | [] => run w1
    end.

(* ===================================================================== *)
(** ** Dexie tables *)
(* ===================================================================== *)

Module Table.
Section Keyed.
Context {K : Type} (keq klt : K -> K -> bool).
Context (key : MarkdownDocument -> option K).

Definition has_key (k : K) (d : MarkdownDocument) : bool :=
  match key d with
  | Some k' => keq k' k
  | None => false
  end.

(** [table.get(k)] *)
Definition get (k : K) (tbl : list MarkdownDocument) : option MarkdownDocument :=
  find (has_key k) tbl.

(** [table.update(k, changes)]: a missing key changes nothing and is no error. *)
Definition update (k : K) (u : Partial) (tbl : list MarkdownDocument)
  : list MarkdownDocument :=
  map (fun d => if has_key k d then spread d u else d) tbl.

(** [table.delete(k)]: a missing key is no error. *)
Definition delete (k : K) (tbl : list MarkdownDocument) : list MarkdownDocument :=
  filter (fun d => negb (has_key k d)) tbl.

(** Position of a new record in primary-key order. *)
Fixpoint insert (k : K) (d : MarkdownDocument) (tbl : list MarkdownDocument)
  : list MarkdownDocument :=
  match tbl with
  | [] => [d]
  | e :: tbl' =>
      match key e with
      | Some ke => if klt k ke then d :: tbl else e :: insert k d tbl'
      | None => e :: insert k d tbl'
      end
  end.

(** [table.add(d)] under key [k]: a ConstraintError when the key exists. *)
Definition add (k : K) (d : MarkdownDocument) (tbl : list MarkdownDocument)
  : option (list MarkdownDocument) :=
  match get k tbl with
  | Some _ => None
  | None => Some (insert k d tbl)
  end.
End Keyed.

Definition has_index (index : MarkdownDocument -> option Z) (d : MarkdownDocument) : bool :=
  match index d with Some _ => true | None => false end.

Definition by_index (index : MarkdownDocument -> option Z) (a b : MarkdownDocument) : Z :=
  (or_else (index a) 0 - or_else (index b) 0)%Z.

(** [table.orderBy(index).reverse().toArray()]: the records that have the
    indexed property, by ascending index key (equal keys in primary-key
    order), the whole enumeration then reversed. *)
Definition orderBy_reverse (index : MarkdownDocument -> option Z)
  (tbl : list MarkdownDocument) : list MarkdownDocument :=
  rev (JS.sort (by_index index) (filter (has_index index) tbl)).
End Table.

Arguments Table.get : simpl never.
Arguments Table.update : simpl never.
Arguments Table.delete : simpl never.
Arguments Table.insert : simpl never.
Arguments Table.orderBy_reverse : simpl never.

(* ===================================================================== *)
(** ** [database/db]: the service of the document store *)
(* ===================================================================== *)

Module mMarkdownDB.

Definition modified_index (d : MarkdownDocument) : option Z := Some (FDMdcModified d).

(** [db.tMDDocument.orderBy('FDMdcModified').reverse().toArray()] *)
Definition FSaMDCGetAllDocuments : M (list MarkdownDocument) :=
  request MdcToArray
    (fun w => (Ok (Table.orderBy_reverse modified_index (db_tMDDocument w)), w)).

(** [db.tMDDocument.get(pnDocId)] *)
Definition FSoMDCGetDocumentById (pnDocId : N) : M (option MarkdownDocument) :=
  request (MdcGet pnDocId)
    (fun w => (Ok (Table.get N.eqb FNMdcId pnDocId (db_tMDDocument w)), w)).

(** [db.tMDDocument.add(poDocument)]: the table is declared [++FNMdcId] and
    the argument has no [FNMdcId], so the key is the next value of the
    auto-increment counter and is written into the stored record. *)
Definition FSxMDCCreateDocument (poDocument : MarkdownDocument) : M N :=
  request MdcAdd
    (fun w =>
       let k := (db_tMDDocument_seq w + 1)%N in
       let stored :=
         mkDoc (Some k) (FTMdcTitle poDocument) (FTMdcContent poDocument)
               (FDMdcModified poDocument) (FDMdcCreated poDocument)
               (FNMdcSize poDocument) (FTMdcTags poDocument)
               (FBMdcFavorite poDocument) (id poDocument) (title poDocument)
               (content poDocument) (createdAt poDocument) (updatedAt poDocument)
               (tags poDocument) (isStarred poDocument) (folderId poDocument) in
       match Table.add N.eqb N.ltb FNMdcId k stored (db_tMDDocument w) with
       | Some tbl => (Ok k, with_db_tMDDocument_seq k (with_db_tMDDocument tbl w))
       | None => (Throw "ConstraintError", w)
       end).

Definition set_FDMdcModified (x : Z) (u : Partial) : Partial :=
  mkPartial (pFNMdcId u) (pFTMdcTitle u) (pFTMdcContent u) (Some x)
            (pFDMdcCreated u) (pFNMdcSize u) (pFTMdcTags u) (pFBMdcFavorite u)
            (pid u) (ptitle u) (pcontent u) (pcreatedAt u) (pupdatedAt u)
            (ptags u) (pisStarred u) (pfolderId u).

(** [db.tMDDocument.update(pnDocId, { ...poUpdates, FDMdcModified: new Date() })] *)
Definition FSxMDCUpdateDocument (pnDocId : N) (poUpdates : Partial) : M unit :=
  now <- newDate ;;
  let changes := set_FDMdcModified now poUpdates in
  request (MdcUpdate pnDocId changes)
    (fun w => (Ok tt, with_db_tMDDocument
                        (Table.update N.eqb FNMdcId pnDocId changes (db_tMDDocument w)) w)).

(** [db.tMDDocument.delete(pnDocId)] *)
Definition FSxMDCDeleteDocument (pnDocId : N) : M unit :=
  request (MdcDelete pnDocId)
    (fun w => (Ok tt, with_db_tMDDocument
                        (Table.delete N.eqb FNMdcId pnDocId (db_tMDDocument w)) w)).

End mMarkdownDB.

(* ===================================================================== *)
(** ** [database]: the service of the editor store *)
(* ===================================================================== *)

Module DatabaseService.

(** The table is declared with primary key [id]. *)
Definition primary_key (d : MarkdownDocument) : option string := id d.

(** [db.documents.orderBy('updatedAt').reverse().toArray()] *)
Definition getAllDocuments : M (list MarkdownDocument) :=
  request DocsToArray
    (fun w => (Ok (Table.orderBy_reverse updatedAt (db_documents w)), w)).

(** [db.documents.get(id)] *)
Definition getDocument (id : string) : M (option MarkdownDocument) :=
  request (DocsGet id)
    (fun w => (Ok (Table.get String.eqb primary_key id (db_documents w)), w)).

Definition stamp (uuid : string) (now : Z) : Partial :=
  mkPartial None None None None None None None None
            (Some uuid) None None (Some now) (Some now) None None None.

(** [saveDocument(document)]: one reading of the clock fills both
    [createdAt] and [updatedAt]. *)
Definition saveDocument (document : MarkdownDocument) : M string :=
  now <- newDate ;;
  uuid <- randomUUID ;;
  let newDoc := spread document (stamp uuid now) in
  request (DocsAdd uuid)
    (fun w =>
       match Table.add String.eqb String.ltb primary_key uuid newDoc
                       (db_documents w) with
       | Some tbl => (Ok uuid, with_db_documents tbl w)
       | None => (Throw "ConstraintError", w)
       end).

Definition set_updatedAt (x : Z) (u : Partial) : Partial :=
  mkPartial (pFNMdcId u) (pFTMdcTitle u) (pFTMdcContent u) (pFDMdcModified u)
            (pFDMdcCreated u) (pFNMdcSize u) (pFTMdcTags u) (pFBMdcFavorite u)
            (pid u) (ptitle u) (pcontent u) (pcreatedAt u) (Some x)
            (ptags u) (pisStarred u) (pfolderId u).

(** [db.documents.update(id, { ...updates, updatedAt: new Date() })] *)
Definition updateDocument (id : string) (updates : Partial) : M unit :=
  now <- newDate ;;
  let changes := set_updatedAt now updates in
  request (DocsUpdate id changes)
    (fun w => (Ok tt, with_db_documents
                        (Table.update String.eqb primary_key id changes
                                      (db_documents w)) w)).

(** [db.documents.delete(id)] *)
Definition deleteDocument (id : string) : M unit :=
  request (DocsDelete id)
    (fun w => (Ok tt, with_db_documents
                        (Table.delete String.eqb primary_key id
                                      (db_documents w)) w)).

End DatabaseService.

(* ===================================================================== *)
(** ** [services/markdownService]: search within a document *)
(* ===================================================================== *)

Module sMarkdownService.

(** Body of the [forEach] callback: a matching line pushes its context,
    the line before and the line after when they exist. *)
Definition push_context (aLines : list string) (tLowerQuery : string)
  (aMatches : list string) (entry : string * nat) : list string :=
  let (line, index) := entry in
  if JS.includes (JS.toLowerCase line) tLowerQuery then
    let nStart := Nat.max 0 (index - 1) in
    let nEnd := Nat.min (length aLines - 1) (index + 1) in
    let tContext := JS.join_lines (JS.slice nStart (nEnd + 1) aLines) in
    aMatches ++ [tContext]
  else aMatches.

Definition FSaMDKSearchInContent (ptContent ptQuery : string) : list string :=
  if negb (JS.truthy (JS.trim ptQuery)) then []
  else
    let aLines := JS.split_lines ptContent in
    let tLowerQuery := JS.toLowerCase ptQuery in
    fold_left (push_context aLines tLowerQuery)
              (combine aLines (seq 0 (length aLines))) [].

End sMarkdownService.

(* ===================================================================== *)
(** ** [stores/documentStore] *)
(* ===================================================================== *)

Module useDocumentStore.

Definition get : M DocumentStore.state := fun w => (Ok (docstore w), w).

(** zustand's [set(partial)], given as the update it makes to the state *)
Definition set (f : DocumentStore.state -> DocumentStore.state) : M unit :=
  fun w => (Ok tt, with_docstore (f (docstore w)) w).

Definition loadDocuments : M unit :=
  set (DocumentStore.with_isLoading true) ;;
  try_catch
    (aDocuments <- mMarkdownDB.FSaMDCGetAllDocuments ;;
     set (fun s => DocumentStore.with_isLoading false
                     (DocumentStore.with_documents aDocuments s)))
    (fun error =>
       console_error "Error loading documents:" ;;
       set (DocumentStore.with_isLoading false)).

(** [createDocument(ptTitle, ptContent = '')] *)
Definition createDocument (ptTitle ptContent : string) : M unit :=
  try_catch
    (dNow <- newDate ;;
     let oNewDocument :=
       {| FNMdcId := None;
          FTMdcTitle := ptTitle;
          FTMdcContent := ptContent;
          FDMdcCreated := dNow;
          FDMdcModified := dNow;
          FTMdcTags := Some [];
          FNMdcSize := String.length ptContent;
          FBMdcFavorite := false;
          id := None; title := None; content := None; createdAt := None;
          updatedAt := None; tags := None; isStarred := None; folderId := None |} in
     nDocId <- mMarkdownDB.FSxMDCCreateDocument oNewDocument ;;
     oCreatedDoc <- mMarkdownDB.FSoMDCGetDocumentById nDocId ;;
     match oCreatedDoc with
     | Some d =>
         st <- get ;;
         set (fun s => DocumentStore.with_currentDocument (Some d)
                         (DocumentStore.with_documents
                            (d :: DocumentStore.documents st) s))
     | None => ret tt
     end)
    (fun error => console_error "Error creating document:" ;; throw error).

Definition set_FNMdcSize (x : nat) (u : Partial) : Partial :=
  mkPartial (pFNMdcId u) (pFTMdcTitle u) (pFTMdcContent u) (pFDMdcModified u)
            (pFDMdcCreated u) (Some x) (pFTMdcTags u) (pFBMdcFavorite u)
            (pid u) (ptitle u) (pcontent u) (pcreatedAt u) (pupdatedAt u)
            (ptags u) (pisStarred u) (pfolderId u).

(** [doc.FNMdcId === pnId] *)
Definition is_doc (pnId : N) (doc : MarkdownDocument) : bool :=
  match FNMdcId doc with
  | Some k => N.eqb k pnId
  | None => false
  end.

(** [{ ...doc, ...poUpdates, FDMdcModified: new Date() }] *)
Definition refreshed (doc : MarkdownDocument) (poUpdates : Partial) : M MarkdownDocument :=
  now <- newDate ;;
  ret (spread doc (mMarkdownDB.set_FDMdcModified now poUpdates)).

(** [documents.map(doc => doc.FNMdcId === pnId ? {...} : doc)], the clock
    being read once for every matching element. *)
Fixpoint map_refreshed (pnId : N) (poUpdates : Partial)
  (docs : list MarkdownDocument) : M (list MarkdownDocument) :=
  match docs with
  | [] => ret []
  | doc :: rest =>
      doc' <- (if is_doc pnId doc then refreshed doc poUpdates else ret doc) ;;
      rest' <- map_refreshed pnId poUpdates rest ;;
      ret (doc' :: rest')
  end.

Definition updateDocument (pnId : N) (poUpdates : Partial) : M unit :=
  try_catch
    ((* Calculate content size if content is being updated *)
     let poUpdates :=
       match pFTMdcContent poUpdates with
       | Some c => set_FNMdcSize (String.length c) poUpdates
       | None => poUpdates
       end in
     mMarkdownDB.FSxMDCUpdateDocument pnId poUpdates ;;
     st <- get ;;
     aUpdatedDocuments <- map_refreshed pnId poUpdates (DocumentStore.documents st) ;;
     oUpdatedCurrentDoc <-
       match DocumentStore.currentDocument st with
       | Some cur =>
           if is_doc pnId cur
           then (d <- refreshed cur poUpdates ;; ret (Some d))
           else ret (Some cur)
       | None => ret None
       end ;;
     set (fun s => DocumentStore.with_currentDocument oUpdatedCurrentDoc
                     (DocumentStore.with_documents aUpdatedDocuments s)))
    (fun error => console_error "Error updating document:" ;; throw error).

Definition deleteDocument (pnId : N) : M unit :=
  try_catch
    (mMarkdownDB.FSxMDCDeleteDocument pnId ;;
     st <- get ;;
     let aFilteredDocuments :=
       filter (fun doc => negb (is_doc pnId doc)) (DocumentStore.documents st) in
     let oNewCurrentDoc :=
       match DocumentStore.currentDocument st with
       | Some cur => if is_doc pnId cur then None else Some cur
       | None => None
       end in
     set (fun s => DocumentStore.with_currentDocument oNewCurrentDoc
                     (DocumentStore.with_documents aFilteredDocuments s)))
    (fun error => console_error "Error deleting document:" ;; throw error).

Definition setCurrentDocument (poDocument : option MarkdownDocument) : M unit :=
  set (DocumentStore.with_currentDocument poDocument).

(** The three tests of the [forEach] callback of [searchDocuments]. *)
Definition bTitleMatch (tLowerQuery : string) (doc : MarkdownDocument) : bool :=
  JS.includes (JS.toLowerCase (FTMdcTitle doc)) tLowerQuery.

Definition bContentMatch (tLowerQuery : string) (doc : MarkdownDocument) : bool :=
  JS.includes (JS.toLowerCase (FTMdcContent doc)) tLowerQuery.

(** [doc.FTMdcTags?.some(...) || false] *)
Definition bTagsMatch (tLowerQuery : string) (doc : MarkdownDocument) : bool :=
  match FTMdcTags doc with
  | Some ts => JS.some (fun tag => JS.includes (JS.toLowerCase tag) tLowerQuery) ts
  | None => false
  end.

Definition search_result (ptQuery : string) (doc : MarkdownDocument) : SearchResult.t :=
  let aHighlights := sMarkdownService.FSaMDKSearchInContent (FTMdcContent doc) ptQuery in
  let nMatchCount := length aHighlights in
  {| SearchResult.documentId := FNMdcId doc;
     SearchResult.title := FTMdcTitle doc;
     SearchResult.content := String.substring 0 200 (FTMdcContent doc) ++ "...";
     SearchResult.matchCount := nMatchCount;
     SearchResult.highlights := JS.slice 0 3 aHighlights |}.

Definition push_result (ptQuery tLowerQuery : string)
  (aResults : list SearchResult.t) (doc : MarkdownDocument) : list SearchResult.t :=
  if bTitleMatch tLowerQuery doc || bContentMatch tLowerQuery doc
     || bTagsMatch tLowerQuery doc
  then aResults ++ [search_result ptQuery doc]
  else aResults.

(** [(a, b) => b.matchCount - a.matchCount] *)
Definition by_matchCount_desc (a b : SearchResult.t) : Z :=
  (Z.of_nat (SearchResult.matchCount b) - Z.of_nat (SearchResult.matchCount a))%Z.

Definition searchDocuments (ptQuery : string) : M unit :=
  set (DocumentStore.with_searchQuery ptQuery) ;;
  if negb (JS.truthy (JS.trim ptQuery)) then
    set (DocumentStore.with_searchResults [])
  else
    try_catch
      (st <- get ;;
       let tLowerQuery := JS.toLowerCase ptQuery in
       let aResults :=
         fold_left (push_result ptQuery tLowerQuery) (DocumentStore.documents st) [] in
       (* Sort by match count (descending) *)
       let aResults := JS.sort by_matchCount_desc aResults in
       set (DocumentStore.with_searchResults aResults))
      (fun error =>
         console_error "Error searching documents:" ;;
         set (DocumentStore.with_searchResults [])).

Definition toggleFavorite (pnId : N) : M unit :=
  try_catch
    (st <- get ;;
     match find (is_doc pnId) (DocumentStore.documents st) with
     | Some oDocument =>
         let bNewFavoriteStatus := negb (FBMdcFavorite oDocument) in
         updateDocument pnId
           (mkPartial None None None None None None None (Some bNewFavoriteStatus)
                      None None None None None None None None)
     | None => ret tt
     end)
    (fun error => console_error "Error toggling favorite:" ;; throw error).

End useDocumentStore.

(* ===================================================================== *)
(** ** [stores/editorStore] *)
(* ===================================================================== *)

Module useEditorStore.

Definition get : M EditorStore.state := fun w => (Ok (editor w), w).

Definition set (f : EditorStore.state -> EditorStore.state) : M unit :=
  fun w => (Ok tt, with_editor (f (editor w)) w).

(** A call whose first argument is the optional [id] of a document: without
    a key Dexie rejects the request. *)
Definition key_of (k : option string) : M string :=
  match k with
  | Some k => ret k
  | None => throw "DataError"
  end.

Definition loadAllDocuments : M unit :=
  try_catch
    (documents <- DatabaseService.getAllDocuments ;;
     set (EditorStore.with_documents documents))
    (fun error => console_error "Failed to load documents:").

(** [set({ currentDocument: d, content: d.content, lastSaved: new Date() })] *)
Definition show_saved (d : MarkdownDocument) : M unit :=
  now <- newDate ;;
  set (fun s => EditorStore.with_lastSaved (Some now)
                  (EditorStore.with_content (content d)
                     (EditorStore.with_currentDocument (Some d) s))).

Definition createDocument (docData : MarkdownDocument) : M string :=
  try_catch
    (id <- DatabaseService.saveDocument docData ;;
     newDocument <- DatabaseService.getDocument id ;;
     match newDocument with
     | Some d => show_saved d
     | None => ret tt
     end ;;
     loadAllDocuments ;;
     ret id)
    (fun error => console_error "Failed to create document:" ;; throw error).

(** The suspended part of [autoSave]: the awaited write and what follows. *)
Definition autoSave_settle (currentDocument : MarkdownDocument)
  (content : option string) : M unit :=
  try_catch
    (k <- key_of (id currentDocument) ;;
     DatabaseService.updateDocument k
       (mkPartial None None None None None None None None
                  None None content None None None None None) ;;
     now <- newDate ;;
     set (fun s => EditorStore.with_isAutoSaving false
                     (EditorStore.with_lastSaved (Some now) s)))
    (fun error =>
       console_error "Auto-save failed:" ;;
       set (EditorStore.with_isAutoSaving false)).

(** [autoSave] up to its [await]: the guard, and the [isAutoSaving] flag. *)
Definition autoSave_begin : M (option (MarkdownDocument * option string)) :=
  st <- get ;;
  if negb (AppSettings.autoSave (EditorStore.settings st)) || EditorStore.isAutoSaving st
  then ret None
  else
    match EditorStore.currentDocument st with
    | None => ret None
    | Some cur =>
        set (EditorStore.with_isAutoSaving true) ;;
        ret (Some (cur, EditorStore.content st))
    end.

(** [autoSave] run to completion. *)
Definition autoSave : M unit :=
  started <- autoSave_begin ;;
  match started with
  | Some (cur, content) => autoSave_settle cur content
  | None => ret tt
  end.

Definition setContent (content : string) : M unit :=
  set (EditorStore.with_content (Some content)) ;;
  (* Auto-save if enabled *)
  st <- get ;;
  if AppSettings.autoSave (EditorStore.settings st) then
    (* Debounce auto-save *)
    setTimeout AutoSaveCallback 1000 ;; ret tt
  else ret tt.

(** [document?.content || ''] *)
Definition setCurrentDocument (document : option MarkdownDocument) : M unit :=
  set (fun s =>
         EditorStore.with_content
           (match document with
            | Some d => match content d with
                        | Some c => if JS.truthy c then Some c else Some ""
                        | None => Some ""
                        end
            | None => Some ""
            end)
           (EditorStore.with_currentDocument document s)).

Definition new_document_text : string :=
  "# New Document" ++ String JS.LF (String JS.LF "Start writing here...").

(** [content || '# New Document\n\nStart writing here...'] *)
Definition content_or_default (content : option string) : string :=
  match content with
  | Some c => if JS.truthy c then c else new_document_text
  | None => new_document_text
  end.

(** [createNewDocument(title = 'Untitled Document')] *)
Definition createNewDocument (title : string) : M unit :=
  st <- get ;;
  let content := EditorStore.content st in
  try_catch
    (now <- newDate ;;
     id <- DatabaseService.saveDocument
             (mkDoc None title (content_or_default content) now now
                    (String.length (content_or_default content)) (Some []) false
                    None (Some title) (Some (content_or_default content))
                    None None (Some []) None None) ;;
     newDocument <- DatabaseService.getDocument id ;;
     match newDocument with
     | Some d => show_saved d
     | None => ret tt
     end ;;
     loadAllDocuments)
    (fun error => console_error "Failed to create document:").

(** [set({ currentDocument: updatedDoc, lastSaved: new Date() })] *)
Definition show_updated (d : MarkdownDocument) : M unit :=
  now <- newDate ;;
  set (fun s => EditorStore.with_lastSaved (Some now)
                  (EditorStore.with_currentDocument (Some d) s)).

Definition saveCurrentDocument : M unit :=
  st <- get ;;
  match EditorStore.currentDocument st with
  | None =>
      (* Create new document *)
      createNewDocument "Untitled Document"
  | Some currentDocument =>
      try_catch
        (k <- key_of (id currentDocument) ;;
         DatabaseService.updateDocument k
           (mkPartial None None None None None None None None
                      None (title currentDocument) (EditorStore.content st)
                      None None None None None) ;;
         (* Update current document with new updatedAt *)
         updatedDoc <- DatabaseService.getDocument k ;;
         match updatedDoc with
         | Some d => show_updated d
         | None => ret tt
         end ;;
         (* Reload documents list *)
         loadAllDocuments)
        (fun error => console_error "Failed to save document:")
  end.

Definition loadDocument (id : string) : M unit :=
  try_catch
    (document <- DatabaseService.getDocument id ;;
     match document with
     | Some d =>
         set (fun s => EditorStore.with_content (content d)
                         (EditorStore.with_currentDocument (Some d) s))
     | None => ret tt
     end)
    (fun error => console_error "Failed to load document:").

(** [currentDocument?.id === id] *)
Definition is_current (k : string) (st : EditorStore.state) : bool :=
  match EditorStore.currentDocument st with
  | Some d => match id d with
              | Some k' => String.eqb k' k
              | None => false
              end
  | None => false
  end.

Definition deleteDocument (id : string) : M unit :=
  try_catch
    (DatabaseService.deleteDocument id ;;
     st <- get ;;
     (if is_current id st
      then set (fun s => EditorStore.with_content (Some "")
                           (EditorStore.with_currentDocument None s))
      else ret tt) ;;
     loadAllDocuments)
    (fun error => console_error "Failed to delete document:").

Definition saveDocument : M unit := saveCurrentDocument.

Definition updateDocument (updates : Partial) : M unit :=
  st <- get ;;
  match EditorStore.currentDocument st with
  | None => ret tt
  | Some currentDocument =>
      try_catch
        (k <- key_of (id currentDocument) ;;
         DatabaseService.updateDocument k updates ;;
         updatedDoc <- DatabaseService.getDocument k ;;
         match updatedDoc with
         | Some d => show_saved d
         | None => ret tt
         end ;;
         loadAllDocuments)
        (fun error => console_error "Failed to update document:")
  end.

End useEditorStore.

(* ===================================================================== *)
(** ** Components that drive the editor store *)
(* ===================================================================== *)

(** [OMarkdownEditor.handleContentChange]: the component keeps one timer
    in [autoSaveTimeoutRef], cleared and re-armed at every change. *)
Module OMarkdownEditor.

Definition handleContentChange (newContent : string) : M unit :=
  st <- useEditorStore.get ;;
  match EditorStore.currentDocument st with
  | None => ret tt
  | Some _ =>
      (* Update content immediately in store *)
      useEditorStore.setContent newContent ;;
      (* Clear existing timeout *)
      w <- get_world ;;
      match autoSaveTimeoutRef w with
      | Some h => clearTimeout h
      | None => ret tt
      end ;;
      (* Set new auto-save timeout (2 seconds after last change) *)
      h <- setTimeout SaveCurrentDocumentCallback 2000 ;;
      (fun w => (Ok tt, with_autoSaveTimeoutRef (Some h) w))
  end.

End OMarkdownEditor.

(** [OToolbar.handleSave]: the save button. *)
Module OToolbar.

Definition handleSave : M unit :=
  st <- useEditorStore.get ;;
  match EditorStore.currentDocument st with
  | Some _ =>
      try_catch
        useEditorStore.saveDocument
        (fun error =>
           console_error "Failed to save document:" ;;
           alert "Failed to save document")
  | None => ret tt
  end.

End OToolbar.

(** [pages/Home]: the first-run welcome document. *)
Module Home.

(** The template literal given as [FTMdcContent] and [content].  Its last
    character, an emoji, is written here as its four UTF-8 bytes, where
    JavaScript counts two UTF-16 code units. *)
Definition welcome_text : string :=
"# Welcome to Markdown Editor

This is a powerful markdown editor with real-time preview capabilities.

## Features

- **Real-time Preview**: See your markdown rendered as HTML instantly
- **Auto-save**: Your work is automatically saved as you type
- **Export Options**: Export to PDF, Excel, or Markdown files
- **Import Support**: Import existing markdown files
- **Dark Mode**: Toggle between light and dark themes
- **Offline Support**: Works offline with PWA capabilities

## Getting Started

1. Start typing in the editor panel on the left
2. See the live preview on the right
3. Use the toolbar to save, import, or export your documents
4. Create new documents using the file manager

## Markdown Syntax Examples

### Headers
```
# H1 Header
## H2 Header
### H3 Header
```

### Lists
- Unordered list item 1
- Unordered list item 2
  - Nested item

1. Ordered list item 1
2. Ordered list item 2

### Code
Inline `code` and code blocks:

```javascript
function hello() {
  console.log('Hello, World!');
}
```

### Links and Images
[Link text](https://example.com)
![Alt text](https://via.placeholder.com/300x200)

### Tables
| Column 1 | Column 2 | Column 3 |
|----------|----------|----------|
| Row 1    | Data     | More     |
| Row 2    | Data     | More     |

### Blockquotes
> This is a blockquote
> It can span multiple lines

---

Happy writing! 🚀".

Definition welcome_title : string := "Welcome to MitIT Markdown Editor".

(** The object literal passed to [createDocument]. *)
Definition welcome_document (created modified : Z) : MarkdownDocument :=
  {| FNMdcId := None;
     FTMdcTitle := welcome_title;
     FTMdcContent := welcome_text;
     FTMdcTags := Some ["welcome"];
     FNMdcSize := 0;
     FBMdcFavorite := false;
     FDMdcCreated := created;
     FDMdcModified := modified;
     (* Legacy properties for compatibility *)
     id := None;
     title := Some welcome_title;
     content := Some welcome_text;
     createdAt := None;
     updatedAt := None;
     tags := Some ["welcome"];
     isStarred := None;
     folderId := None |}.

(** The [createDocument] call of [initialize], made when the rendered
    document list is empty. *)
Definition createWelcomeDocument : M string :=
  created <- newDate ;;
  modified <- newDate ;;
  useEditorStore.createDocument (welcome_document created modified).

End Home.

(* ===================================================================== *)
(** ** The browser's timer queue *)
(* ===================================================================== *)

Module Browser.

(** The timer that fires next: the least due time, and among equal due
    times the one armed first. *)
Fixpoint next_timer (ts : list Timer) : option Timer :=
  match ts with
  | [] => None
  | t :: ts' =>
      match next_timer ts' with
      | Some u => if (due u <? due t)%Z then Some u else Some t
      | None => Some t
      end
  end.

(** What a fired timer runs.  [latency] is the time the database takes to
    complete the write that [autoSave] awaits; the other store calls run to
    completion within their task. *)
Definition run_task (latency : Z) (t : Task) : M unit :=
  match t with
  | AutoSaveCallback =>
      started <- useEditorStore.autoSave_begin ;;
      match started with
      | Some (cur, draft) =>
          setTimeout (AutoSaveSettle cur draft) latency ;; ret tt
      | None => ret tt
      end
  | AutoSaveSettle cur draft => useEditorStore.autoSave_settle cur draft
  | SaveCurrentDocumentCallback => useEditorStore.saveCurrentDocument
  end.

Definition fire (latency : Z) (tm : Timer) (w : World) : World :=
  let l := loop w in
  let w1 :=
    with_loop (mkLoop (Z.max (time l) (due tm))
                      (filter (fun t => negb (Nat.eqb (handle t) (handle tm))) (timers l))
                      (timer_seq l)) w in
  snd (run_task latency (task tm) w1).

(** Let the time pass until [t], firing in order the timers due by then. *)
Fixpoint run_until (fuel : nat) (latency t : Z) (w : World) : World :=
  match fuel with
  | O => w
  | S fuel' =>
      match next_timer (timers (loop w)) with
      | Some tm =>
          if (due tm <=? t)%Z then run_until fuel' latency t (fire latency tm w)
          else with_loop (mkLoop (Z.max (time (loop w)) t) (timers (loop w))
                                 (timer_seq (loop w))) w
      | None =>
          with_loop (mkLoop (Z.max (time (loop w)) t) (timers (loop w))
                            (timer_seq (loop w))) w
      end
  end.

(** A user session: calls [act text] at the given times, in order. *)
Fixpoint play (fuel : nat) (latency : Z) (act : string -> M unit)
  (script : list (Z * string)) (w : World) : World :=
  match script with
  | [] => w
  | (t, text) :: rest =>
      play fuel latency act rest (snd (act text (run_until fuel latency t w)))
  end.

(** Number of writes of a document sent to the repository. *)
Definition is_commit (c : DbCall) : bool :=
  match c with
  | DocsUpdate _ _ => true
  | _ => false
  end.

Definition commits (w : World) : nat := length (filter is_commit (calls w)).

End Browser.

(* ===================================================================== *)
(** ** Vocabulary of the specification *)
(* ===================================================================== *)

(** [a] and [b] occur in [l] in this order. *)
Definition before {A} (l : list A) (a b : A) : Prop :=
  exists l1 l2 l3, l = l1 ++ a :: l2 ++ b :: l3.

(** [q] occurs in [s]. *)
Definition substring_of (q s : string) : Prop :=
  exists a b, s = (a ++ q ++ b)%string.

(** [q] occurs in [s] when case is ignored. *)
Definition ci_substring_of (q s : string) : Prop :=
  substring_of (JS.toLowerCase q) (JS.toLowerCase s).

(** Empty, or made of white space only. *)
Fixpoint blank (s : string) : bool :=
  match s with
  | EmptyString => true
  | String c s' => JS.is_ws c && blank s'
  end.

(** The document has the query in its title, its content or one of its
    tags, case ignored. *)
Definition doc_matches (q : string) (doc : MarkdownDocument) : Prop :=
  ci_substring_of q (FTMdcTitle doc) \/
  ci_substring_of q (FTMdcContent doc) \/
  exists ts tag, FTMdcTags doc = Some ts /\ In tag ts /\ ci_substring_of q tag.

(** The test made by [searchDocuments] on each document. *)
Definition doc_matchesb (q : string) (doc : MarkdownDocument) : bool :=
  useDocumentStore.bTitleMatch (JS.toLowerCase q) doc
  || useDocumentStore.bContentMatch (JS.toLowerCase q) doc
  || useDocumentStore.bTagsMatch (JS.toLowerCase q) doc.

(** The lines of a content that have the query, case ignored. *)
Definition matching_lines (q content : string) : list string :=
  filter (fun line => JS.includes (JS.toLowerCase line) (JS.toLowerCase q))
         (JS.split_lines content).

(** The document that is current is not the one with this id. *)
Definition not_current (k : string) (e : EditorStore.state) : Prop :=
  forall d, EditorStore.currentDocument e = Some d -> id d <> Some k.

Definition not_current_doc (pnId : N) (s : DocumentStore.state) : Prop :=
  forall d, DocumentStore.currentDocument s = Some d -> FNMdcId d <> Some pnId.

(* ===================================================================== *)
(** ** Sample worlds *)
(* ===================================================================== *)

Module Sample.

(** A document of the editor store, as [createNewDocument] makes them. *)
Definition legacy (k ttl body : string) (created updated : Z) : MarkdownDocument :=
  mkDoc None ttl body created created (String.length body) (Some []) false
        (Some k) (Some ttl) (Some body) (Some created) (Some updated) (Some [])
        None None.

Definition note : MarkdownDocument := legacy "d1" "Notes" "a" 10 10.
Definition todo : MarkdownDocument := legacy "d2" "Todo" "# Todo" 20 40.
Definition plan : MarkdownDocument := legacy "d3" "Plan" "plan" 30 30.

(** A document of the document store. *)
Definition row (n : N) (ttl body : string) (created modified : Z)
  (labels : list string) : MarkdownDocument :=
  mkDoc (Some n) ttl body modified created (String.length body) (Some labels) false
        None None None None None None None None.

Definition hello : MarkdownDocument :=
  row 1 "Greeting" ("# Hello" ++ String JS.LF "hello world") 10 50 ["misc"].
Definition spaced : MarkdownDocument := row 2 "Spaced" "a b" 20 20 [].
Definition tagged : MarkdownDocument := row 3 "Other" "nothing" 30 60 ["HELLO-tag"].

(** The editor shows [note] with the unsaved draft ["abc"]. *)
Definition editing : World :=
  {| clock := [100; 200; 300; 400; 500; 600; 700; 800]%Z;
     uuids := ["u1"; "u2"];
     faults := [];
     console := [];
     alerts := [];
     calls := [];
     db_documents := [note; todo; plan];
     db_tMDDocument := [hello; spaced; tagged];
     db_tMDDocument_seq := 3;
     editor := EditorStore.mk (Some note) (Some "abc") false None [todo; plan; note]
                              (AppSettings.mk true 5000) false false;
     docstore := DocumentStore.mk [tagged; hello; spaced] (Some hello) false "" [];
     loop := mkLoop 0 [] 0;
     autoSaveTimeoutRef := None |}.

(** The same, with a database that rejects the next request. *)
Definition failing : World := with_faults [true] editing.

(** A first run: empty database, nothing shown. *)
Definition first_run : World :=
  with_docstore DocumentStore.init
    (with_editor EditorStore.init
       (with_db_tMDDocument_seq 0
          (with_db_tMDDocument [] (with_db_documents [] editing)))).

(** Two edits, half a second apart. *)
Definition two_edits : list (Z * string) := [(0%Z, "ab"); (500%Z, "abc")].

End Sample.

(** The claim on search as the specification words it: every document that
    has a non-empty query is among the results. *)
Definition search_as_stated (q : string) (w : World) : Prop :=
  q <> "" ->
  forall doc, In doc (DocumentStore.documents (docstore w)) ->
              doc_matches q doc ->
              exists r,
                In r (DocumentStore.searchResults
                        (docstore (snd (useDocumentStore.searchDocuments q w)))) /\
                SearchResult.documentId r = FNMdcId doc.

(* ===================================================================== *)
(** ** More JavaScript string primitives *)
(* ===================================================================== *)

Module JSMore.

(** [s.substring(i, j)] for non-negative integers: a bound beyond the end
    counts as the length, and the bounds are swapped when [i > j]. *)
Definition substring (i j : nat) (s : string) : string :=
  String.substring (Nat.min i j) (Nat.max i j - Nat.min i j) s.

(** [s.substring(i)] *)
Definition substring_from (i : nat) (s : string) : string :=
  String.substring i (String.length s - i) s.

(** [s.endsWith(q)] *)
Definition endsWith (s q : string) : bool :=
  (String.length q <=? String.length s)%nat &&
  (String.substring (String.length s - String.length q) (String.length q) s =? q).

(** [s.repeat(n)] *)
Fixpoint repeat (s : string) (n : nat) : string :=
  match n with
  | O => EmptyString
  | S n' => s ++ repeat s n'
  end.

(** [a.includes(x)] on an array of strings *)
Definition array_includes (a : list string) (x : string) : bool :=
  existsb (String.eqb x) a.

End JSMore.

(* ===================================================================== *)
(** ** [lib/utils]: text and document utilities *)
(* ===================================================================== *)

Module uTextUtils.

(** [pnMaxLength] is an integer; [substring] takes a negative bound as 0,
    which is what [Z.to_nat] gives. *)
Definition FStTXTTruncateText (ptText : string) (pnMaxLength : Z) (ptSuffix : string)
  : string :=
  if (Z.of_nat (String.length ptText) <=? pnMaxLength)%Z then ptText
  else JSMore.substring 0 (Z.to_nat (pnMaxLength - Z.of_nat (String.length ptSuffix)))
                        ptText
       ++ ptSuffix.

End uTextUtils.

Module uDocumentUtils.

Module SortBy.
Inductive t := title | created | modified | size.
End SortBy.

Module Order.
Inductive t := asc | desc.
End Order.

Section Sorting.
(** [String.prototype.localeCompare] depends on the locale of the browser. *)
Variable localeCompare : string -> string -> Z.

(** The comparator handed to [sort]. *)
Definition compare (ptSortBy : SortBy.t) (ptOrder : Order.t)
  (a b : MarkdownDocument) : Z :=
  let nComparison :=
    match ptSortBy with
    | SortBy.title => localeCompare (FTMdcTitle a) (FTMdcTitle b)
    | SortBy.created => (FDMdcCreated a - FDMdcCreated b)%Z
    | SortBy.modified => (FDMdcModified a - FDMdcModified b)%Z
    | SortBy.size => (Z.of_nat (FNMdcSize a) - Z.of_nat (FNMdcSize b))%Z
    end in
  match ptOrder with
  | Order.desc => (- nComparison)%Z
  | Order.asc => nComparison
  end.

Definition FSaDocSortDocuments (paDocuments : list MarkdownDocument)
  (ptSortBy : SortBy.t) (ptOrder : Order.t) : list MarkdownDocument :=
  let aSorted := JS.sort (compare ptSortBy ptOrder) paDocuments in
  aSorted.

End Sorting.

(** The [poFilters] argument of [FSaDocFilterDocuments]. *)
Module Filters.
Record t := mk {
  search : option string;
  tags : option (list string);
  favorites : option bool;
  dateRange : option (Z * Z)
}.
End Filters.

(** The callback of [filter]: each active filter may reject the document. *)
Definition keeps (poFilters : Filters.t) (doc : MarkdownDocument) : bool :=
  if match Filters.search poFilters with
     | Some search =>
         JS.truthy search &&
         (let tSearchLower := JS.toLowerCase search in
          let bMatchesTitle := JS.includes (JS.toLowerCase (FTMdcTitle doc)) tSearchLower in
          let bMatchesContent :=
            JS.includes (JS.toLowerCase (FTMdcContent doc)) tSearchLower in
          let bMatchesTags :=
            match FTMdcTags doc with
            | Some ts => JS.some (fun tag => JS.includes (JS.toLowerCase tag) tSearchLower) ts
            | None => false
            end in
          negb bMatchesTitle && negb bMatchesContent && negb bMatchesTags)
     | None => false
     end
  then false
  else if match Filters.tags poFilters with
          | Some tags =>
              (0 <? length tags)%nat &&
              (let aDocTags := or_else (FTMdcTags doc) [] in
               let bHasMatchingTag := JS.some (fun tag => JSMore.array_includes aDocTags tag) tags in
               negb bHasMatchingTag)
          | None => false
          end
  then false
  else if match Filters.favorites poFilters with
          | Some favorites => negb (Bool.eqb (FBMdcFavorite doc) favorites)
          | None => false
          end
  then false
  else if match Filters.dateRange poFilters with
          | Some (dStart, dEnd) =>
              let dDocDate := FDMdcModified doc in
              (dDocDate <? dStart)%Z || (dDocDate >? dEnd)%Z
          | None => false
          end
  then false
  else true.

Definition FSaDocFilterDocuments (paDocuments : list MarkdownDocument)
  (poFilters : Filters.t) : list MarkdownDocument :=
  filter (keeps poFilters) paDocuments.

End uDocumentUtils.

(* ===================================================================== *)
(** ** Search on the legacy properties *)
(* ===================================================================== *)

(** The predicate that [DatabaseService.searchDocuments] and the file
    manager give to [filter].  [doc.title.toLowerCase()] throws a
    [TypeError] when the optional property is absent, and [||] evaluates
    its right operand only when the left one is false. *)
Definition legacy_match (query : string) (doc : MarkdownDocument) : Res bool :=
  match title doc with
  | None => Throw "TypeError"
  | Some t =>
      if JS.includes (JS.toLowerCase t) (JS.toLowerCase query) then Ok true
      else
        match content doc with
        | None => Throw "TypeError"
        | Some c =>
            if JS.includes (JS.toLowerCase c) (JS.toLowerCase query) then Ok true
            else
              match tags doc with
              | Some ts =>
                  Ok (JS.some (fun tag => JS.includes (JS.toLowerCase tag)
                                                      (JS.toLowerCase query)) ts)
              | None => Ok false
              end
        end
  end.

(** [a.filter(p)] with a predicate that may throw: the first exception ends
    the loop. *)
Fixpoint filter_throwing {A} (p : A -> Res bool) (a : list A) : Res (list A) :=
  match a with
  | [] => Ok []
  | x :: a' =>
      match p x with
      | Throw e => Throw e
      | Ok b =>
          match filter_throwing p a' with
          | Throw e => Throw e
          | Ok l => Ok (if b then x :: l else l)
          end
      end
  end.

Module DatabaseService_search.

(** [db.documents.filter(...).toArray()]: one scan of the table; an
    exception of the predicate rejects the promise. *)
Definition searchDocuments (query : string) : M (list MarkdownDocument) :=
  request DocsToArray
    (w <- get_world ;;
     match filter_throwing (legacy_match query) (db_documents w) with
     | Ok l => ret l
     | Throw e => throw e
     end).

End DatabaseService_search.

(* ===================================================================== *)
(** ** [components/OFileManager] *)
(* ===================================================================== *)

Module OFileManager.

(** The [useState] cells of the component. *)
Record state := mk {
  searchTerm : string;
  selectedDocId : option string;
  isCreating : bool;
  newDocTitle : string;
  isDragOver : bool
}.

Definition init : state := mk "" None false "" false.

Definition with_selectedDocId (x : option string) (s : state) : state :=
  mk (searchTerm s) x (isCreating s) (newDocTitle s) (isDragOver s).

Definition with_isCreating (x : bool) (s : state) : state :=
  mk (searchTerm s) (selectedDocId s) x (newDocTitle s) (isDragOver s).

Definition with_newDocTitle (x : string) (s : state) : state :=
  mk (searchTerm s) (selectedDocId s) (isCreating s) x (isDragOver s).

(** [filteredDocuments], computed at each render. *)
Definition filteredDocuments (documents : list MarkdownDocument) (s : state)
  : Res (list MarkdownDocument) :=
  filter_throwing (legacy_match (searchTerm s)) documents.

Definition handleDocumentSelect (doc : MarkdownDocument) (s : state) : M state :=
  useEditorStore.setCurrentDocument (Some doc) ;;
  ret (with_selectedDocId None s).

Definition handleCreateDocument (s : state) : M state :=
  if negb (JS.truthy (JS.trim (newDocTitle s))) then ret s
  else
    try_catch
      (dCreated <- newDate ;;
       dModified <- newDate ;;
       useEditorStore.createDocument
         {| FNMdcId := None;
            FTMdcTitle := JS.trim (newDocTitle s);
            FTMdcContent := "";
            FTMdcTags := Some [];
            FNMdcSize := 0;
            FBMdcFavorite := false;
            FDMdcCreated := dCreated;
            FDMdcModified := dModified;
            id := None;
            title := Some (JS.trim (newDocTitle s));
            content := Some "";
            createdAt := None;
            updatedAt := None;
            tags := Some [];
            isStarred := None;
            folderId := None |} ;;
       ret (with_isCreating false (with_newDocTitle "" s)))
      (fun error =>
         console_error "Failed to create document:" ;;
         alert "Failed to create document" ;;
         ret s).

(** [confirmed] is the answer of the user to [confirm]. *)
Definition handleDeleteDocument (confirmed : bool) (docId : string) (s : state)
  : M state :=
  if confirmed then
    try_catch
      (useEditorStore.deleteDocument docId ;;
       ret (with_selectedDocId None s))
      (fun error =>
         console_error "Failed to delete document:" ;;
         alert "Failed to delete document" ;;
         ret s)
  else ret s.

Definition getDocumentPreview (content : string) : string :=
  if (100 <? String.length content)%nat
  then JSMore.substring 0 100 content ++ "..."
  else content.

(** A [File]: its name, its MIME type, and the text that a [FileReader]
    reads from it. *)
Record File := mkFile {
  name : string;
  type : string;
  text : string
}.

(** The test of [handleFileUpload] on each file. *)
Definition is_markdown (file : File) : bool :=
  (type file =? "text/markdown") || JSMore.endsWith (name file) ".md".

(** [file.name.replace(/\.md$/, '')] *)
Definition fileName (file : File) : string :=
  if JSMore.endsWith (name file) ".md"
  then JSMore.substring 0 (String.length (name file) - 3) (name file)
  else name file.

(** The [onload] callback of the reader of one file. *)
Definition onload (file : File) : M unit :=
  let content := text file in
  let fileName := fileName file in
  try_catch
    (dCreated <- newDate ;;
     dModified <- newDate ;;
     useEditorStore.createDocument
       {| FNMdcId := None;
          FTMdcTitle := fileName;
          FTMdcContent := content;
          FTMdcTags := Some [];
          FNMdcSize := String.length content;
          FBMdcFavorite := false;
          FDMdcCreated := dCreated;
          FDMdcModified := dModified;
          id := None;
          title := Some fileName;
          content := Some content;
          createdAt := None;
          updatedAt := None;
          tags := Some [];
          isStarred := None;
          folderId := None |} ;;
     ret tt)
    (fun error =>
       console_error "Failed to upload document:" ;;
       alert ("Failed to upload " ++ name file)).

(** The synchronous part of [handleFileUpload]: a reader is started for each
    markdown file, the others are refused at once.  The result lists the
    files being read; [onload] runs later for each of them. *)
Fixpoint handleFileUpload_each (files : list File) : M (list File) :=
  match files with
  | [] => ret []
  | file :: rest =>
      if is_markdown file then
        reading <- handleFileUpload_each rest ;;
        ret (file :: reading)
      else
        alert (name file ++ " is not a markdown file. Please upload .md files only.") ;;
        handleFileUpload_each rest
  end.

Definition handleFileUpload (files : option (list File)) : M (list File) :=
  match files with
  | None => ret []
  | Some files => handleFileUpload_each files
  end.

End OFileManager.

(* ===================================================================== *)
(** ** [components/OToolbar]: import *)
(* ===================================================================== *)

Module OToolbar_import.

(** [picked] is the outcome of [ExportService.importMarkdownFile]: the
    content and the name of the chosen file, or the message of the [Error]
    it rejects with.  Every exception of the model is an [Error] with a
    message; the [isExporting] flag of the toolbar is left out. *)
Definition handleImport (picked : Res (string * string)) : M unit :=
  try_catch
    (match picked with
     | Throw message => throw message
     | Ok (content, filename) =>
         let ttl := if JS.truthy filename then filename else "Imported Document" in
         dCreated <- newDate ;;
         dModified <- newDate ;;
         useEditorStore.createDocument
           {| FNMdcId := None;
              FTMdcTitle := ttl;
              FTMdcContent := content;
              FTMdcTags := Some ["imported"];
              FNMdcSize := String.length content;
              FBMdcFavorite := false;
              FDMdcCreated := dCreated;
              FDMdcModified := dModified;
              id := None;
              title := Some ttl;
              content := Some content;
              createdAt := None;
              updatedAt := None;
              tags := Some ["imported"];
              isStarred := None;
              folderId := None |} ;;
         ret tt
     end)
    (fun message =>
       console_error "Failed to import file:" ;;
       if negb (message =? "No file selected") then alert "Failed to import file"
       else ret tt).

End OToolbar_import.

(* ===================================================================== *)
(** ** [pages/Home] and [components/OToolbar]: formatting the selection *)
(* ===================================================================== *)

(** What the handlers read of the [textarea] element.  The browser keeps
    [selectionStart <= selectionEnd <= value.length]. *)
Module Textarea.
Record t := mk {
  value : string;
  selectionStart : nat;
  selectionEnd : nat
}.
End Textarea.

Module Home_format.

(** The optional [value] argument of [handleFormatText]: absent, a number,
    or the decimal string of a number, which [repeat] converts back. *)
Inductive Value :=
| undefined
| number (n : nat)
| numeral (n : nat).

(** [value as number], as [repeat] takes it. *)
Definition level_of (value : Value) : nat :=
  match value with
  | undefined => 0
  | number n => n
  | numeral n => n
  end.

Definition NL : string := String JS.LF EmptyString.

(** The [switch]: the text that replaces the selection and the new
    position of the cursor, or nothing for an unknown format. *)
Definition formatted (format : string) (value : Value) (start : nat)
  (selectedText : string) : option (string * nat) :=
  if format =? "bold" then
    let newText := ("**" ++ selectedText ++ "**")%string in
    Some (newText,
          if JS.truthy selectedText then start + String.length newText else start + 2)
  else if format =? "italic" then
    let newText := ("*" ++ selectedText ++ "*")%string in
    Some (newText,
          if JS.truthy selectedText then start + String.length newText else start + 1)
  else if format =? "underline" then
    let newText := ("<u>" ++ selectedText ++ "</u>")%string in
    Some (newText,
          if JS.truthy selectedText then start + String.length newText else start + 3)
  else if format =? "strikethrough" then
    let newText := ("~~" ++ selectedText ++ "~~")%string in
    Some (newText,
          if JS.truthy selectedText then start + String.length newText else start + 2)
  else if format =? "heading" then
    let level := level_of value in
    let headingPrefix := (JSMore.repeat "#" level ++ " ")%string in
    let newText := (headingPrefix ++ selectedText)%string in
    Some (newText, start + String.length headingPrefix + String.length selectedText)
  else if format =? "list" then
    (* [typeof value === 'boolean'] never holds for a string or a number *)
    let isOrdered := false in
    let listPrefix := if isOrdered then "1. " else "- " in
    let newText := (listPrefix ++ selectedText)%string in
    Some (newText, start + String.length listPrefix + String.length selectedText)
  else if format =? "code" then
    let newText := ("`" ++ selectedText ++ "`")%string in
    Some (newText,
          if JS.truthy selectedText then start + String.length newText else start + 1)
  else if format =? "codeblock" then
    let newText := ("```" ++ NL ++ selectedText ++ NL ++ "```")%string in
    Some (newText,
          if JS.truthy selectedText then start + String.length newText else start + 4)
  else None.

(** [textarea] is what [document.querySelector('textarea')] finds.  The
    result is the position that the deferred callback gives the cursor, when
    the content was changed. *)
Definition handleFormatText (format : string) (value : Value)
  (textarea : option Textarea.t) : M (option nat) :=
  st <- useEditorStore.get ;;
  match EditorStore.currentDocument st with
  | None => ret None
  | Some _ =>
      match textarea with
      | None => ret None
      | Some textarea =>
          let start := Textarea.selectionStart textarea in
          let end_ := Textarea.selectionEnd textarea in
          let selectedText := JSMore.substring start end_ (Textarea.value textarea) in
          let beforeText := JSMore.substring 0 start (Textarea.value textarea) in
          let afterText := JSMore.substring_from end_ (Textarea.value textarea) in
          match formatted format value start selectedText with
          | None => ret None
          | Some (newText, newCursorPos) =>
              let updatedContent := (beforeText ++ newText ++ afterText)%string in
              useEditorStore.setContent updatedContent ;;
              ret (Some newCursorPos)
          end
      end
  end.

End Home_format.

(** The format buttons of the toolbar; [Home] passes [handleFormatText] as
    [onFormatText]. *)
Module OToolbar_format.

Section Buttons.
Context {R : Type}.
Variable onFormatText : string -> Home_format.Value -> M R.

Definition handleBold : M R := onFormatText "bold" Home_format.undefined.
Definition handleItalic : M R := onFormatText "italic" Home_format.undefined.
Definition handleUnderline : M R := onFormatText "underline" Home_format.undefined.
Definition handleStrikethrough : M R :=
  onFormatText "strikethrough" Home_format.undefined.
Definition handleHeading (level : nat) : M R :=
  onFormatText "heading" (Home_format.numeral level).
Definition handleList (ordered : bool) : M R :=
  onFormatText (if ordered then "orderedList" else "unorderedList")
               Home_format.undefined.
Definition handleCode : M R := onFormatText "code" Home_format.undefined.
Definition handleCodeBlock : M R := onFormatText "codeBlock" Home_format.undefined.
End Buttons.

End OToolbar_format.

(* ===================================================================== *)
(** ** Further vocabulary of the properties *)
(* ===================================================================== *)

(** The guard of [autoSave]: auto-save is off, a save is in flight, or
    there is no current document. *)
Definition autoSave_blocked (e : EditorStore.state) : Prop :=
  AppSettings.autoSave (EditorStore.settings e) = false \/
  EditorStore.isAutoSaving e = true \/
  EditorStore.currentDocument e = None.

(** Every key of the table of the document store was given out by its
    auto-increment counter. *)
Definition keys_issued (w : World) : Prop :=
  forall d k, In d (db_tMDDocument w) -> FNMdcId d = Some k ->
              (k <= db_tMDDocument_seq w)%N.

(** What [updateDocument] of the document store makes of a document of its
    list: the updates and a reading of the clock when it has the identifier,
    the document itself otherwise. *)
Definition refreshed_as (pnId : N) (poUpdates : Partial)
  (doc doc' : MarkdownDocument) : Prop :=
  if useDocumentStore.is_doc pnId doc
  then exists now, doc' = spread doc (mMarkdownDB.set_FDMdcModified now poUpdates)
  else doc' = doc.


(** The pending timers of the save that the editor component debounces. *)
Definition is_save_timer (t : Timer) : bool :=
  match task t with
  | SaveCurrentDocumentCallback => true
  | _ => false
  end.

Definition pending_saves (w : World) : list Timer :=
  filter is_save_timer (timers (loop w)).

(** The component's ref holds the handle of every pending save timer. *)
Definition save_timer_tracked (w : World) : Prop :=
  forall t, In t (pending_saves w) -> autoSaveTimeoutRef w = Some (handle t).

(** The key that [FSaDocSortDocuments] sorts by, for the three numeric
    criteria (titles are compared by [localeCompare], not by a number). *)
Definition sort_key (ptSortBy : uDocumentUtils.SortBy.t) (d : MarkdownDocument) : Z :=
  match ptSortBy with
  | uDocumentUtils.SortBy.title => 0%Z
  | uDocumentUtils.SortBy.created => FDMdcCreated d
  | uDocumentUtils.SortBy.modified => FDMdcModified d
  | uDocumentUtils.SortBy.size => Z.of_nat (FNMdcSize d)
  end.

(** [x] and [y] are in the order asked for. *)
Definition in_order (ptOrder : uDocumentUtils.Order.t) (x y : Z) : Prop :=
  match ptOrder with
  | uDocumentUtils.Order.asc => (x <= y)%Z
  | uDocumentUtils.Order.desc => (x >= y)%Z
  end.

(** What the filters ask of a document, in the words of the
    specification. *)
Definition passes (f : uDocumentUtils.Filters.t) (doc : MarkdownDocument) : Prop :=
  (forall q, uDocumentUtils.Filters.search f = Some q -> q <> "" -> doc_matches q doc) /\
  (forall ts, uDocumentUtils.Filters.tags f = Some ts -> ts <> [] ->
              exists tag dts, In tag ts /\ FTMdcTags doc = Some dts /\ In tag dts) /\
  (forall b, uDocumentUtils.Filters.favorites f = Some b -> FBMdcFavorite doc = b) /\
  (forall s e, uDocumentUtils.Filters.dateRange f = Some (s, e) ->
               (s <= FDMdcModified doc <= e)%Z).

(** The record has the legacy [title] and [content]. *)
Definition has_text (doc : MarkdownDocument) : Prop :=
  title doc <> None /\ content doc <> None.

(** The record has the query in its legacy title, content or tags, case
    ignored. *)
Definition legacy_matches (q : string) (doc : MarkdownDocument) : Prop :=
  (exists t, title doc = Some t /\ ci_substring_of q t) \/
  (exists c, content doc = Some c /\ ci_substring_of q c) \/
  (exists ts tag, tags doc = Some ts /\ In tag ts /\ ci_substring_of q tag).

(** The test of [legacy_match] on a record that has both texts. *)
Definition legacy_matchb (q : string) (doc : MarkdownDocument) : bool :=
  match legacy_match q doc with
  | Ok b => b
  | Throw _ => false
  end.

(* ===================================================================== *)
(** ** Further sample data *)
(* ===================================================================== *)

Module Scenario.

(** Updates: a new title, and a new content for the document store. *)
Definition retitle : Partial :=
  mkPartial None None None None None None None None
            None (Some "Renamed") None None None None None None.

Definition rewrite_content : Partial :=
  mkPartial None None (Some "new text") None None None None None
            None None None None None None None None.

(** A document as the file manager hands it to [createDocument]. *)
Definition upload : MarkdownDocument :=
  mkDoc None "Draft" "body" 5 5 4 (Some []) false
        None (Some "Draft") (Some "body") None None (Some []) None None.

(** The form of the file manager, filled in. *)
Definition form : OFileManager.state :=
  OFileManager.mk "" (Some "d1") true " Plan B " false.

(** The file manager with a search term. *)
Definition searching : OFileManager.state :=
  OFileManager.mk "todo" None false "" false.

Definition notes_md : OFileManager.File :=
  OFileManager.mkFile "notes.md" "" "# Notes".

(** A table in which one record has no legacy title. *)
Definition mixed : World :=
  with_db_documents [Sample.note; Sample.hello] Sample.editing.

(** The textarea with [hello] selected. *)
Definition selection : Textarea.t := Textarea.mk "hello world" 0 5.

(** A collation that compares lengths. *)
Definition by_length (a b : string) : Z :=
  (Z.of_nat (String.length a) - Z.of_nat (String.length b))%Z.

End Scenario.

(* ===================================================================== *)
(** * Properties *)
(* ===================================================================== *)

(** ** Proof tools *)

(** Unfolding of the store actions down to the monad. *)
Ltac run_store :=
  unfold useEditorStore.saveCurrentDocument, useEditorStore.createNewDocument,
    useEditorStore.createDocument, useEditorStore.deleteDocument,
    useEditorStore.autoSave, useEditorStore.autoSave_begin,
    useEditorStore.autoSave_settle, useEditorStore.show_updated,
    useEditorStore.show_saved, useEditorStore.loadAllDocuments,
    useEditorStore.key_of,
    useDocumentStore.createDocument, useDocumentStore.updateDocument,
    useDocumentStore.deleteDocument, useDocumentStore.refreshed,
    DatabaseService.deleteDocument, DatabaseService.getAllDocuments,
    DatabaseService.updateDocument, DatabaseService.getDocument,
    DatabaseService.saveDocument,
    mMarkdownDB.FSxMDCDeleteDocument, mMarkdownDB.FSxMDCCreateDocument,
    mMarkdownDB.FSoMDCGetDocumentById, mMarkdownDB.FSxMDCUpdateDocument,
    useEditorStore.get, useEditorStore.set, useDocumentStore.get,
    useDocumentStore.set, console_error, newDate, randomUUID,
    try_catch, bind, ret, throw, request.

(** Case analysis on what the environment answers next: the readings of
    the clock, the identifiers, the faults of the database. *)
Ltac recall :=
  repeat match goal with
         | H : ?x = _ |- context [?x] => rewrite H
         end.

Ltac ask_env :=
  match goal with
  | |- context [match clock ?w with _ => _ end] =>
      destruct (clock w) as [|? ?] eqn:?
  | |- context [match uuids ?w with _ => _ end] =>
      destruct (uuids w) as [|? ?] eqn:?
  | |- context [match faults ?w with _ => _ end] =>
      destruct (faults w) as [|[|] ?] eqn:?
  | |- context [match ?l with [] => _ | _ :: _ => _ end] =>
      is_var l; destruct l as [|[|] ?]
  | |- context [match ?l with [] => _ | _ :: _ => _ end] =>
      is_var l; destruct l as [|? ?]
  end.

Ltac settle := repeat (progress (cbn; recall)).

Ltac run_env := settle; repeat (ask_env; settle).

(** ** Lists: order, and the stable sort *)

Lemma StronglySorted_before {A} (R : A -> A -> Prop) (l : list A) :
  StronglySorted R l -> forall a b, before l a b -> R a b.
Proof.
  intros Hs a b (l1 & l2 & l3 & ->).
  induction l1 as [|x l1 IH]; simpl in Hs.
  - apply StronglySorted_inv in Hs as [_ Hall].
    rewrite Forall_forall in Hall. apply Hall.
    apply in_or_app. right. left. reflexivity.
  - apply StronglySorted_inv in Hs as [Hs _]. exact (IH Hs).
Qed.

Lemma StronglySorted_weaken {A} (R R' : A -> A -> Prop) (l : list A) :
  (forall a b, R a b -> R' a b) -> StronglySorted R l -> StronglySorted R' l.
Proof.
  intros Himp. induction 1 as [|x l Hs IH Hx]; constructor; [exact IH|].
  eapply Forall_impl; [|exact Hx]. intros y. apply Himp.
Qed.

Lemma StronglySorted_snoc {A} (R : A -> A -> Prop) (l : list A) (x : A) :
  StronglySorted R l -> Forall (fun y => R y x) l -> StronglySorted R (l ++ [x]).
Proof.
  induction 1 as [|y l Hs IH Hy]; intros Hall; simpl.
  - constructor; constructor.
  - inversion Hall as [|? ? Hyx Hall']; subst.
    constructor; [apply IH; assumption|].
    apply Forall_app. split; [assumption | constructor; [assumption | constructor]].
Qed.

Lemma StronglySorted_rev {A} (R : A -> A -> Prop) (l : list A) :
  StronglySorted R l -> StronglySorted (fun a b => R b a) (rev l).
Proof.
  induction 1 as [|x l Hs IH Hx]; simpl; [constructor|].
  apply StronglySorted_snoc; [exact IH|].
  apply Forall_rev. exact Hx.
Qed.

Section SortFacts.
Context {A : Type} (cmp : A -> A -> Z) (k : A -> Z).
Hypothesis cmp_key : forall x y, (cmp x y >? 0)%Z = (k y <? k x)%Z.

Let ascending := StronglySorted (fun a b => (k a <= k b)%Z).

Lemma sort_insert_perm (x : A) (l : list A) :
  Permutation (JS.sort_insert cmp x l) (x :: l).
Proof.
  induction l as [|y l IH]; simpl; [reflexivity|].
  destruct (cmp x y >? 0)%Z; [|reflexivity].
  rewrite IH. apply perm_swap.
Qed.

Lemma sort_perm (l : list A) : Permutation (JS.sort cmp l) l.
Proof.
  induction l as [|x l IH]; simpl; [reflexivity|].
  rewrite sort_insert_perm. apply perm_skip, IH.
Qed.

Lemma sort_insert_sorted (x : A) (l : list A) :
  ascending l -> ascending (JS.sort_insert cmp x l).
Proof.
  unfold ascending.
  induction 1 as [|y l Hs IH Hy]; simpl.
  - constructor; constructor.
  - rewrite cmp_key. destruct (Z.ltb_spec (k y) (k x)) as [Hlt|Hge].
    + constructor; [exact IH|].
      rewrite (sort_insert_perm x l). constructor; [lia | exact Hy].
    + constructor; [constructor; assumption|].
      constructor; [exact Hge|].
      eapply Forall_impl; [|exact Hy]. simpl. intros z Hz. lia.
Qed.

Lemma sort_sorted (l : list A) : ascending (JS.sort cmp l).
Proof.
  induction l as [|x l IH]; simpl; [constructor|].
  apply sort_insert_sorted, IH.
Qed.

Lemma sort_insert_least (x : A) (l : list A) :
  Forall (fun z => (k x <= k z)%Z) l -> JS.sort_insert cmp x l = x :: l.
Proof.
  destruct l as [|y l]; simpl; [reflexivity|].
  intros Hall. inversion Hall as [|? ? Hxy _]; subst.
  rewrite cmp_key. destruct (Z.ltb_spec (k y) (k x)); [lia | reflexivity].
Qed.

Lemma filter_sort_insert (p : A -> bool) (x : A) (l : list A) :
  ascending l ->
  filter p (JS.sort_insert cmp x l) =
  if p x then JS.sort_insert cmp x (filter p l) else filter p l.
Proof.
  unfold ascending.
  induction 1 as [|y l Hs IH Hy]; simpl.
  - destruct (p x); reflexivity.
  - rewrite cmp_key. destruct (Z.ltb_spec (k y) (k x)) as [Hlt|Hge]; simpl.
    + rewrite IH. destruct (p x), (p y); simpl; try reflexivity.
      rewrite cmp_key. destruct (Z.ltb_spec (k y) (k x)); [reflexivity | lia].
    + destruct (p x) eqn:Hpx; [|reflexivity].
      destruct (p y) eqn:Hpy; simpl.
      * rewrite cmp_key. destruct (Z.ltb_spec (k y) (k x)); [lia | reflexivity].
      * symmetry. apply sort_insert_least.
        apply Forall_forall. intros z Hz. apply filter_In in Hz as [Hz _].
        rewrite Forall_forall in Hy. specialize (Hy z Hz). simpl in Hy. lia.
Qed.

(** Sorting and filtering commute, because the sort is stable. *)
Lemma filter_sort (p : A -> bool) (l : list A) :
  filter p (JS.sort cmp l) = JS.sort cmp (filter p l).
Proof.
  induction l as [|x l IH]; simpl; [reflexivity|].
  rewrite filter_sort_insert by apply sort_sorted.
  rewrite IH. destruct (p x); reflexivity.
Qed.

End SortFacts.

(** ** Strings: substrings and blank strings *)

Lemma prefix_spec (q s : string) :
  String.prefix q s = true <-> exists b, s = (q ++ b)%string.
Proof.
  revert s. induction q as [|c q IH]; intros s.
  - split; [intros _; exists s; reflexivity | intros _; destruct s; reflexivity].
  - destruct s as [|d s]; simpl.
    + split; [discriminate | intros [b Hb]; discriminate].
    + destruct (ascii_dec c d) as [->|Hne].
      * rewrite IH. split; intros [b Hb]; exists b; congruence.
      * split; [discriminate | intros [b Hb]; congruence].
Qed.

Lemma includes_spec (s q : string) :
  JS.includes s q = true <-> substring_of q s.
Proof.
  unfold substring_of. induction s as [|c s IH]; cbn [JS.includes].
  - rewrite orb_false_r, prefix_spec. split.
    + intros [b Hb]. exists "", b. exact Hb.
    + intros (a & b & H). destruct a; [exists b; exact H | discriminate].
  - rewrite orb_true_iff, prefix_spec, IH. split.
    + intros [[b Hb] | (a & b & H)].
      * exists "", b. exact Hb.
      * exists (String c a), b. simpl. congruence.
    + intros (a & b & H). destruct a as [|d a]; simpl in H.
      * left. exists b. exact H.
      * right. exists a, b. congruence.
Qed.

Lemma trimStart_blank (s : string) : blank s = true -> JS.trimStart s = "".
Proof.
  induction s as [|c s IH]; simpl; [reflexivity|].
  destruct (JS.is_ws c); simpl; [exact IH | discriminate].
Qed.

Lemma trimEnd_empty (s : string) : JS.trimEnd s = "" <-> blank s = true.
Proof.
  induction s as [|c s IH]; simpl; [tauto|].
  destruct (JS.trimEnd s) eqn:Ht.
  - destruct (JS.is_ws c); simpl.
    + split; [intros _; apply IH; reflexivity | reflexivity].
    + split; discriminate.
  - split; [discriminate|].
    intros H. apply andb_true_iff in H as [_ H]. apply IH in H. discriminate.
Qed.

Lemma trimStart_not_blank (s : string) :
  blank s = false -> blank (JS.trimStart s) = false.
Proof.
  induction s as [|c s IH]; simpl; [trivial|].
  destruct (JS.is_ws c) eqn:Hc; simpl; [exact IH | rewrite Hc; reflexivity].
Qed.

(** [!q.trim()] holds exactly for the blank strings. *)
Lemma trim_falsy (q : string) : negb (JS.truthy (JS.trim q)) = blank q.
Proof.
  unfold JS.truthy, JS.trim. rewrite negb_involutive.
  destruct (blank q) eqn:Hb.
  - rewrite (trimStart_blank q Hb). reflexivity.
  - apply trimStart_not_blank in Hb.
    destruct (String.eqb_spec (JS.trimEnd (JS.trimStart q)) "") as [He|]; [|reflexivity].
    apply trimEnd_empty in He. congruence.
Qed.

(** ** Search *)

Lemma doc_matchesb_spec (q : string) (doc : MarkdownDocument) :
  doc_matchesb q doc = true <-> doc_matches q doc.
Proof.
  unfold doc_matchesb, doc_matches, useDocumentStore.bTitleMatch,
    useDocumentStore.bContentMatch, useDocumentStore.bTagsMatch, ci_substring_of.
  rewrite !orb_true_iff, !includes_spec, <- or_assoc.
  apply or_iff_compat_l.
  destruct (FTMdcTags doc) as [ts|].
  - unfold JS.some. rewrite existsb_exists. split.
    + intros (tag & Hin & Hinc). apply includes_spec in Hinc.
      exists ts, tag. auto.
    + intros (ts' & tag & Heq & Hin & Hsub). injection Heq as <-.
      exists tag. split; [exact Hin | apply includes_spec; exact Hsub].
  - split; [discriminate | intros (ts & tag & Heq & _); discriminate].
Qed.

Lemma fold_push_result (q : string) (docs : list MarkdownDocument)
  (acc : list SearchResult.t) :
  fold_left (useDocumentStore.push_result q (JS.toLowerCase q)) docs acc =
  acc ++ map (useDocumentStore.search_result q) (filter (doc_matchesb q) docs).
Proof.
  revert acc. induction docs as [|d docs IH]; intros acc; simpl.
  - symmetry. apply app_nil_r.
  - rewrite IH. unfold useDocumentStore.push_result. fold (doc_matchesb q d).
    destruct (doc_matchesb q d); simpl; [|reflexivity].
    rewrite <- app_assoc. reflexivity.
Qed.

Lemma fold_push_context_length (aLines : list string) (lq : string)
  (entries : list (string * nat)) (acc : list string) :
  length (fold_left (sMarkdownService.push_context aLines lq) entries acc) =
  length acc +
  length (filter (fun line => JS.includes (JS.toLowerCase line) lq) (map fst entries)).
Proof.
  revert acc. induction entries as [|[line index] entries IH]; intros acc; simpl.
  - lia.
  - rewrite IH. destruct (JS.includes (JS.toLowerCase line) lq); simpl.
    + rewrite length_app. simpl. lia.
    + reflexivity.
Qed.

Lemma map_fst_combine_seq {A} (l : list A) (start : nat) :
  map fst (combine l (seq start (length l))) = l.
Proof.
  revert start. induction l as [|x l IH]; intros start; simpl; [reflexivity|].
  rewrite IH. reflexivity.
Qed.

(** The match count of a result is the number of matching lines. *)
Lemma search_in_content_length (content q : string) :
  blank q = false ->
  length (sMarkdownService.FSaMDKSearchInContent content q) =
  length (matching_lines q content).
Proof.
  intros Hq. unfold sMarkdownService.FSaMDKSearchInContent.
  rewrite trim_falsy, Hq.
  rewrite fold_push_context_length, map_fst_combine_seq. reflexivity.
Qed.

Lemma searchDocuments_blank (q : string) (w : World) :
  blank q = true ->
  useDocumentStore.searchDocuments q w =
  (Ok tt,
   with_docstore
     (DocumentStore.with_searchResults []
        (DocumentStore.with_searchQuery q (docstore w))) w).
Proof.
  intros Hq. unfold useDocumentStore.searchDocuments.
  rewrite trim_falsy, Hq. reflexivity.
Qed.

Lemma searchDocuments_nonblank (q : string) (w : World) :
  blank q = false ->
  useDocumentStore.searchDocuments q w =
  (Ok tt,
   with_docstore
     (DocumentStore.with_searchResults
        (JS.sort useDocumentStore.by_matchCount_desc
           (map (useDocumentStore.search_result q)
                (filter (doc_matchesb q) (DocumentStore.documents (docstore w)))))
        (DocumentStore.with_searchQuery q (docstore w))) w).
Proof.
  intros Hq. unfold useDocumentStore.searchDocuments.
  rewrite trim_falsy, Hq.
  unfold bind, try_catch, useDocumentStore.set, useDocumentStore.get. cbn.
  rewrite fold_push_result. reflexivity.
Qed.

Lemma by_matchCount_desc_key (a b : SearchResult.t) :
  (useDocumentStore.by_matchCount_desc a b >? 0)%Z =
  (- Z.of_nat (SearchResult.matchCount b) <? - Z.of_nat (SearchResult.matchCount a))%Z.
Proof.
  unfold useDocumentStore.by_matchCount_desc.
  destruct (Z.gtb_spec (Z.of_nat (SearchResult.matchCount b)
                        - Z.of_nat (SearchResult.matchCount a)) 0),
           (Z.ltb_spec (- Z.of_nat (SearchResult.matchCount b))
                       (- Z.of_nat (SearchResult.matchCount a))); lia || reflexivity.
Qed.

(** C10. A query that is empty or made of white space only empties the
    search results and finds nothing in any content, whatever the
    documents are. *)
Theorem blank_query_matches_nothing (ptQuery : string) (w : World) :
  blank ptQuery = true ->
  fst (useDocumentStore.searchDocuments ptQuery w) = Ok tt /\
  DocumentStore.searchResults
    (docstore (snd (useDocumentStore.searchDocuments ptQuery w))) = [] /\
  forall ptContent, sMarkdownService.FSaMDKSearchInContent ptContent ptQuery = [].
Proof.
  intros Hq. rewrite (searchDocuments_blank ptQuery w Hq). repeat split.
  intros ptContent. unfold sMarkdownService.FSaMDKSearchInContent.
  rewrite trim_falsy, Hq. reflexivity.
Qed.

(** C7, as amended. For a query with at least one character that is not
    white space, the results are the results of exactly the documents whose
    title, content or some tag has the query as a substring, case ignored;
    they come by descending match count, and the match count of a document
    is the number of distinct lines of its content that have the query: a
    line counts once, however often the query occurs in it. *)
Theorem search_finds_matching_documents (ptQuery : string) (w : World) :
  blank ptQuery = false ->
  let rs := DocumentStore.searchResults
              (docstore (snd (useDocumentStore.searchDocuments ptQuery w))) in
  Permutation rs
    (map (useDocumentStore.search_result ptQuery)
         (filter (doc_matchesb ptQuery) (DocumentStore.documents (docstore w)))) /\
  (forall doc, doc_matchesb ptQuery doc = true <-> doc_matches ptQuery doc) /\
  StronglySorted
    (fun a b => SearchResult.matchCount a >= SearchResult.matchCount b) rs /\
  (forall doc,
     SearchResult.matchCount (useDocumentStore.search_result ptQuery doc) =
     length (matching_lines ptQuery (FTMdcContent doc))).
Proof.
  intros Hq rs. subst rs. rewrite (searchDocuments_nonblank ptQuery w Hq). cbn.
  split; [|split; [|split]].
  - apply (sort_perm useDocumentStore.by_matchCount_desc).
  - intros doc. apply doc_matchesb_spec.
  - eapply StronglySorted_weaken.
    2: { apply (sort_sorted useDocumentStore.by_matchCount_desc
                  (fun r => (- Z.of_nat (SearchResult.matchCount r))%Z)).
         apply by_matchCount_desc_key. }
    intros a b Hab. simpl in Hab. lia.
  - intros doc. apply search_in_content_length. exact Hq.
Qed.

(** ** Tables *)

Lemma table_delete_idempotent {K} (keq : K -> K -> bool)
  (key : MarkdownDocument -> option K) (k : K) (tbl : list MarkdownDocument) :
  Table.delete keq key k (Table.delete keq key k tbl) = Table.delete keq key k tbl.
Proof.
  unfold Table.delete. induction tbl as [|d tbl IH]; simpl; [reflexivity|].
  destruct (negb (Table.has_key keq key k d)) eqn:Hd; simpl; [|exact IH].
  rewrite Hd, IH. reflexivity.
Qed.

Lemma filter_comm {A} (p q : A -> bool) (l : list A) :
  filter p (filter q l) = filter q (filter p l).
Proof.
  induction l as [|x l IH]; simpl; [reflexivity|].
  destruct (p x) eqn:Hp, (q x) eqn:Hq; simpl; rewrite ?Hp, ?Hq, IH; reflexivity.
Qed.

Lemma by_index_key (index : MarkdownDocument -> option Z) (a b : MarkdownDocument) :
  (Table.by_index index a b >? 0)%Z =
  (or_else (index b) 0%Z <? or_else (index a) 0%Z)%Z.
Proof.
  unfold Table.by_index.
  destruct (Z.gtb_spec (or_else (index a) 0 - or_else (index b) 0) 0)%Z,
           (Z.ltb_spec (or_else (index b) 0%Z) (or_else (index a) 0%Z));
    lia || reflexivity.
Qed.

(** Enumerating a table without some records is enumerating it and leaving
    them out. *)
Lemma orderBy_reverse_filter (index : MarkdownDocument -> option Z)
  (p : MarkdownDocument -> bool) (tbl : list MarkdownDocument) :
  Table.orderBy_reverse index (filter p tbl) =
  filter p (Table.orderBy_reverse index tbl).
Proof.
  unfold Table.orderBy_reverse.
  rewrite filter_rev, (filter_comm (Table.has_index index) p).
  rewrite (filter_sort (Table.by_index index) (fun d => or_else (index d) 0%Z)
             (by_index_key index)).
  reflexivity.
Qed.

(** An enumeration [orderBy(index).reverse()] is by descending index key,
    and every record in it has the key. *)
Lemma orderBy_reverse_descending (index : MarkdownDocument -> option Z)
  (tbl : list MarkdownDocument) (a b : MarkdownDocument) :
  before (Table.orderBy_reverse index tbl) a b ->
  exists ta tb, index a = Some ta /\ index b = Some tb /\ (ta >= tb)%Z.
Proof.
  intros Hab.
  assert (Hin : forall d, In d (Table.orderBy_reverse index tbl) ->
                          exists t, index d = Some t).
  { intros d Hd. unfold Table.orderBy_reverse in Hd.
    apply in_rev in Hd.
    apply (Permutation_in _ (sort_perm (Table.by_index index) _)) in Hd.
    apply filter_In in Hd as [_ Hd]. unfold Table.has_index in Hd.
    destruct (index d) as [t|]; [exists t; reflexivity | discriminate]. }
  assert (Hord : (or_else (index b) 0 <= or_else (index a) 0)%Z).
  { revert Hab. apply (StronglySorted_before
                         (fun x y => (or_else (index y) 0 <= or_else (index x) 0)%Z)).
    unfold Table.orderBy_reverse.
    apply (StronglySorted_rev (fun x y => (or_else (index x) 0 <= or_else (index y) 0)%Z)).
    apply (sort_sorted (Table.by_index index) (fun d => or_else (index d) 0%Z)).
    apply by_index_key. }
  destruct Hab as (l1 & l2 & l3 & Heq).
  destruct (Hin a) as [ta Ha].
  { rewrite Heq. apply in_or_app. right. left. reflexivity. }
  destruct (Hin b) as [tb Hb].
  { rewrite Heq. apply in_or_app. right. right. apply in_or_app. right. left. reflexivity. }
  exists ta, tb. rewrite Ha, Hb in Hord. simpl in Hord.
  repeat split; [assumption | assumption | lia].
Qed.

Lemma request_result {A} (c : DbCall) (run : M A) (w : World) (a : A) :
  fst (request c run w) = Ok a ->
  exists w1, fst (run w1) = Ok a /\
             db_documents w1 = db_documents w /\
             db_tMDDocument w1 = db_tMDDocument w.
Proof.
  unfold request. cbn.
  destruct (faults w) as [|[|] fs]; cbn.
  - intros H. eexists. split; [exact H | split; reflexivity].
  - discriminate.
  - intros H. eexists. split; [exact H | split; reflexivity].
Qed.

(** C5. The list of all documents comes newest first: when it returns a
    list in which [A] stands before [B], then [Modified(A) >= Modified(B)].
    This holds for the service of the editor store, ordered by [updatedAt],
    and for the service of the document store, ordered by [FDMdcModified]. *)
Theorem list_is_newest_first (w : World) (l1 l2 : list MarkdownDocument) :
  fst (DatabaseService.getAllDocuments w) = Ok l1 ->
  fst (mMarkdownDB.FSaMDCGetAllDocuments w) = Ok l2 ->
  (forall A B, before l1 A B ->
     exists ta tb, updatedAt A = Some ta /\ updatedAt B = Some tb /\ (ta >= tb)%Z) /\
  (forall A B, before l2 A B -> (FDMdcModified A >= FDMdcModified B)%Z).
Proof.
  intros H1 H2. split; intros A B Hab.
  - apply request_result in H1 as (w1 & H1 & _). cbn in H1.
    injection H1 as <-. eapply orderBy_reverse_descending. exact Hab.
  - apply request_result in H2 as (w1 & H2 & _). cbn in H2.
    injection H2 as <-.
    apply orderBy_reverse_descending in Hab as (ta & tb & Ha & Hb & Hle).
    unfold mMarkdownDB.modified_index in Ha, Hb. congruence.
Qed.

(** ** Deleting a document *)

(** What [deleteDocument] of the editor store does when the database
    answers its requests. *)
Lemma editor_delete_run (k : string) (w : World) :
  faults w = [] ->
  let r := useEditorStore.deleteDocument k w in
  let tbl := Table.delete String.eqb DatabaseService.primary_key k (db_documents w) in
  fst r = Ok tt /\
  faults (snd r) = [] /\
  console (snd r) = console w /\
  db_documents (snd r) = tbl /\
  editor (snd r) =
    EditorStore.with_documents (Table.orderBy_reverse updatedAt tbl)
      (if useEditorStore.is_current k (editor w)
       then EditorStore.with_content (Some "")
              (EditorStore.with_currentDocument None (editor w))
       else editor w).
Proof.
  intros Hf. run_store. cbn. rewrite Hf. cbn.
  destruct (useEditorStore.is_current k (editor w)); cbn; rewrite Hf; cbn;
    repeat split; first [reflexivity | exact Hf].
Qed.

(** The same for the document store. *)
Lemma docstore_delete_run (pnId : N) (w : World) :
  faults w = [] ->
  let r := useDocumentStore.deleteDocument pnId w in
  fst r = Ok tt /\
  faults (snd r) = [] /\
  console (snd r) = console w /\
  db_tMDDocument (snd r) = Table.delete N.eqb FNMdcId pnId (db_tMDDocument w) /\
  docstore (snd r) =
    DocumentStore.with_currentDocument
      (match DocumentStore.currentDocument (docstore w) with
       | Some cur => if useDocumentStore.is_doc pnId cur then None else Some cur
       | None => None
       end)
      (DocumentStore.with_documents
         (filter (fun doc => negb (useDocumentStore.is_doc pnId doc))
                 (DocumentStore.documents (docstore w)))
         (docstore w)).
Proof.
  intros Hf. run_store. cbn. rewrite Hf. cbn.
  repeat split; first [reflexivity | exact Hf].
Qed.

Lemma filter_idempotent {A} (p : A -> bool) (l : list A) :
  filter p (filter p l) = filter p l.
Proof.
  induction l as [|x l IH]; simpl; [reflexivity|].
  destruct (p x) eqn:Hp; simpl; rewrite ?Hp, IH; reflexivity.
Qed.

Lemma is_current_with_documents (k : string) (l : list MarkdownDocument)
  (e : EditorStore.state) :
  useEditorStore.is_current k (EditorStore.with_documents l e) =
  useEditorStore.is_current k e.
Proof. reflexivity. Qed.

(** C8. Deleting the same id a second time changes nothing and raises no
    error: the stored documents, the document list, the current document and
    the draft are what the first deletion left, and nothing is reported.
    This holds for the editor store and for the document store, whether or
    not the id exists, as long as the database answers. *)
Theorem delete_twice_is_delete_once (k : string) (pnId : N) (w : World) :
  faults w = [] ->
  let w1 := snd (useEditorStore.deleteDocument k w) in
  let r2 := useEditorStore.deleteDocument k w1 in
  let v1 := snd (useDocumentStore.deleteDocument pnId w) in
  let q2 := useDocumentStore.deleteDocument pnId v1 in
  (fst r2 = Ok tt /\ console (snd r2) = console w1 /\
   db_documents (snd r2) = db_documents w1 /\ editor (snd r2) = editor w1) /\
  (fst q2 = Ok tt /\ console (snd q2) = console v1 /\
   db_tMDDocument (snd q2) = db_tMDDocument v1 /\ docstore (snd q2) = docstore v1).
Proof.
  intros Hf w1 r2 v1 q2. split.
  - destruct (editor_delete_run k w Hf) as (_ & Hf1 & _ & Hdb1 & Hed1).
    fold w1 in Hf1, Hdb1, Hed1.
    destruct (editor_delete_run k w1 Hf1) as (Hok & _ & Hc2 & Hdb2 & Hed2).
    fold r2 in Hok, Hc2, Hdb2, Hed2.
    repeat split; [exact Hok | exact Hc2 | |].
    + rewrite Hdb2, Hdb1. apply table_delete_idempotent.
    + rewrite Hed2, Hdb1, table_delete_idempotent.
      rewrite Hed1 at 1. rewrite is_current_with_documents.
      rewrite Hed1.
      destruct (useEditorStore.is_current k (editor w)) eqn:Hcur; cbn.
      * reflexivity.
      * rewrite Hcur. reflexivity.
  - destruct (docstore_delete_run pnId w Hf) as (_ & Hf1 & _ & Hdb1 & Hds1).
    fold v1 in Hf1, Hdb1, Hds1.
    destruct (docstore_delete_run pnId v1 Hf1) as (Hok & _ & Hc2 & Hdb2 & Hds2).
    fold q2 in Hok, Hc2, Hdb2, Hds2.
    repeat split; [exact Hok | exact Hc2 | |].
    + rewrite Hdb2, Hdb1. apply table_delete_idempotent.
    + rewrite Hds2, Hds1. cbn. rewrite filter_idempotent.
      destruct (DocumentStore.currentDocument (docstore w)) as [cur|]; [|reflexivity].
      destruct (useDocumentStore.is_doc pnId cur) eqn:Hcur; [reflexivity|].
      rewrite Hcur. reflexivity.
Qed.

Lemma is_current_false (k : string) (e : EditorStore.state) :
  not_current k e -> useEditorStore.is_current k e = false.
Proof.
  unfold not_current, useEditorStore.is_current. intros H.
  destruct (EditorStore.currentDocument e) as [d|]; [|reflexivity].
  specialize (H d eq_refl). destruct (id d) as [k'|]; [|reflexivity].
  destruct (String.eqb_spec k' k); [congruence | reflexivity].
Qed.

Lemma is_doc_false (pnId : N) (d : MarkdownDocument) :
  FNMdcId d <> Some pnId -> useDocumentStore.is_doc pnId d = false.
Proof.
  unfold useDocumentStore.is_doc. intros H.
  destruct (FNMdcId d) as [k|]; [|reflexivity].
  destruct (N.eqb_spec k pnId); [congruence | reflexivity].
Qed.

(** C9. Deleting a document that is not the current one leaves the current
    document and the draft as they were, whatever the database answers: of
    the state of the store only the document list may change.  When the
    database answers, the record is gone from the table and the document
    list is the stored documents without it: the previous list less that
    entry, when that list was up to date.  The same holds for the document
    store, whose list is filtered in place. *)
Theorem delete_other_keeps_current (k : string) (pnId : N) (w : World) :
  not_current k (editor w) ->
  not_current_doc pnId (docstore w) ->
  let w' := snd (useEditorStore.deleteDocument k w) in
  let v' := snd (useDocumentStore.deleteDocument pnId w) in
  let gone := fun d => negb (Table.has_key String.eqb DatabaseService.primary_key k d) in
  (EditorStore.currentDocument (editor w') = EditorStore.currentDocument (editor w) /\
   EditorStore.content (editor w') = EditorStore.content (editor w) /\
   EditorStore.with_documents (EditorStore.documents (editor w)) (editor w') = editor w /\
   DocumentStore.currentDocument (docstore v') =
     DocumentStore.currentDocument (docstore w) /\
   DocumentStore.with_documents (DocumentStore.documents (docstore w)) (docstore v') =
     docstore w) /\
  (faults w = [] ->
   db_documents w' = filter gone (db_documents w) /\
   EditorStore.documents (editor w') = Table.orderBy_reverse updatedAt (db_documents w') /\
   (EditorStore.documents (editor w) = Table.orderBy_reverse updatedAt (db_documents w) ->
    EditorStore.documents (editor w') = filter gone (EditorStore.documents (editor w))) /\
   db_tMDDocument v' = Table.delete N.eqb FNMdcId pnId (db_tMDDocument w) /\
   DocumentStore.documents (docstore v') =
     filter (fun doc => negb (useDocumentStore.is_doc pnId doc))
            (DocumentStore.documents (docstore w))).
Proof.
  intros Hcur Hdoc w' v' gone.
  pose proof (is_current_false k (editor w) Hcur) as Hc.
  assert (Hd : match DocumentStore.currentDocument (docstore w) with
               | Some cur => if useDocumentStore.is_doc pnId cur then None else Some cur
               | None => None
               end = DocumentStore.currentDocument (docstore w)).
  { destruct (DocumentStore.currentDocument (docstore w)) as [cur|] eqn:Hd;
      [rewrite (is_doc_false pnId cur (Hdoc cur Hd)) |]; reflexivity. }
  split; [split; [|split; [|split; [|split]]]|].
  - subst w'. run_store. run_env; reflexivity.
  - subst w'. run_store. run_env; reflexivity.
  - subst w'. run_store. run_env; destruct (editor w); reflexivity.
  - subst v'. run_store. run_env; reflexivity.
  - subst v'. run_store. run_env; try rewrite Hd; destruct (docstore w); reflexivity.
  - intros Hf.
    destruct (editor_delete_run k w Hf) as (_ & _ & _ & Hdb & Hed).
    destruct (docstore_delete_run pnId w Hf) as (_ & _ & _ & Hdb' & Hds).
    fold w' in Hdb, Hed. fold v' in Hdb', Hds.
    rewrite Hc in Hed.
    repeat split.
    + exact Hdb.
    + rewrite Hed, Hdb. reflexivity.
    + intros Hsync. rewrite Hed. cbn. rewrite Hsync.
      apply orderBy_reverse_filter.
    + exact Hdb'.
    + rewrite Hds. reflexivity.
Qed.

(** ** Committing the draft *)

(** [autoSave] never touches the draft nor the current document. *)
Lemma autoSave_keeps_draft (w : World) :
  EditorStore.content (editor (snd (useEditorStore.autoSave w))) =
    EditorStore.content (editor w) /\
  EditorStore.currentDocument (editor (snd (useEditorStore.autoSave w))) =
    EditorStore.currentDocument (editor w).
Proof.
  run_store. cbn.
  destruct (negb (AppSettings.autoSave (EditorStore.settings (editor w)))
            || EditorStore.isAutoSaving (editor w)); cbn; [split; reflexivity|].
  destruct (EditorStore.currentDocument (editor w)) as [cur|] eqn:Hcur; cbn;
    recall; [|split; reflexivity].
  destruct (id cur) as [k|]; run_env; split; reflexivity.
Qed.

(** C4. When the write of a commit is rejected by the database, the draft
    is what it was, neither reverted nor cleared, and so is the current
    document: the same commit can be tried again.  This holds for
    [saveCurrentDocument] and for [autoSave]. *)
Theorem failed_commit_keeps_draft (w : World) (fs : list bool) :
  faults w = true :: fs ->
  let w1 := snd (useEditorStore.saveCurrentDocument w) in
  let w2 := snd (useEditorStore.autoSave w) in
  (EditorStore.content (editor w1) = EditorStore.content (editor w) /\
   EditorStore.currentDocument (editor w1) = EditorStore.currentDocument (editor w)) /\
  (EditorStore.content (editor w2) = EditorStore.content (editor w) /\
   EditorStore.currentDocument (editor w2) = EditorStore.currentDocument (editor w)).
Proof.
  intros Hf w1 w2. split; [|apply autoSave_keeps_draft].
  subst w1. run_store. cbn.
  destruct (EditorStore.currentDocument (editor w)) as [cur|] eqn:Hcur; cbn.
  - destruct (id cur) as [k|]; run_env; split; reflexivity.
  - run_env; split; reflexivity.
Qed.

(** C3, what the code does. When the database rejects the write of
    [saveCurrentDocument], the rejection is caught inside the store: the call
    returns normally, the only trace is a line on the console, and the save
    button, which would [alert] on a rejected promise, alerts nothing. *)
Theorem failed_save_is_only_logged (w : World) (cur : MarkdownDocument)
  (fs : list bool) :
  EditorStore.currentDocument (editor w) = Some cur ->
  faults w = true :: fs ->
  fst (useEditorStore.saveCurrentDocument w) = Ok tt /\
  console (snd (useEditorStore.saveCurrentDocument w)) =
    console w ++ ["Failed to save document:"] /\
  fst (OToolbar.handleSave w) = Ok tt /\
  alerts (snd (OToolbar.handleSave w)) = alerts w.
Proof.
  intros Hcur Hf.
  unfold OToolbar.handleSave, useEditorStore.saveDocument, alert.
  run_store. settle.
  destruct (id cur) as [k|] eqn:Hid; run_env; repeat split; reflexivity.
Qed.

(** ** Reading a record back *)

Section TableFacts.
Context {K : Type} (keq klt : K -> K -> bool).
Context (key : MarkdownDocument -> option K).
Hypothesis keq_refl : forall k, keq k k = true.

Lemma get_insert (k : K) (d : MarkdownDocument) (tbl : list MarkdownDocument) :
  key d = Some k ->
  Table.get keq key k tbl = None ->
  Table.get keq key k (Table.insert klt key k d tbl) = Some d.
Proof.
  intros Hd. unfold Table.get.
  assert (Hk : Table.has_key keq key k d = true).
  { unfold Table.has_key. rewrite Hd. apply keq_refl. }
  induction tbl as [|e tbl IH]; intros Hnone.
  - unfold Table.insert. simpl. rewrite Hk. reflexivity.
  - simpl in Hnone.
    destruct (Table.has_key keq key k e) eqn:He; [discriminate|].
    specialize (IH Hnone). unfold Table.insert in *. simpl.
    destruct (key e) as [ke|]; [destruct (klt k ke)|]; simpl;
      rewrite ?Hk, ?He; auto.
Qed.

Lemma get_update (k : K) (u : Partial) (tbl : list MarkdownDocument) :
  (forall d, key (spread d u) = key d) ->
  Table.get keq key k (Table.update keq key k u tbl) =
  option_map (fun d => spread d u) (Table.get keq key k tbl).
Proof.
  intros Hkey. unfold Table.get, Table.update.
  induction tbl as [|e tbl IH]; simpl; [reflexivity|].
  destruct (Table.has_key keq key k e) eqn:He.
  - unfold Table.has_key at 1. rewrite Hkey.
    unfold Table.has_key in He. rewrite He. reflexivity.
  - rewrite He. exact IH.
Qed.

End TableFacts.

Lemma string_eqb_refl (k : string) : String.eqb k k = true.
Proof. apply String.eqb_refl. Qed.

(** ** Size and content of a stored document *)

(** C1, what the code does. A commit of the editor store writes the draft
    into the [content] of the stored record and leaves its [FNMdcSize] as it
    was: after [autoSave], and after [saveCurrentDocument], the stored size
    is the old one whatever the length of the new content. *)
Theorem commit_leaves_size_stale (w : World) (cur stored : MarkdownDocument)
  (k draft : string) :
  faults w = [] ->
  EditorStore.currentDocument (editor w) = Some cur ->
  id cur = Some k ->
  EditorStore.content (editor w) = Some draft ->
  AppSettings.autoSave (EditorStore.settings (editor w)) = true ->
  EditorStore.isAutoSaving (editor w) = false ->
  Table.get String.eqb DatabaseService.primary_key k (db_documents w) = Some stored ->
  (exists d,
     Table.get String.eqb DatabaseService.primary_key k
               (db_documents (snd (useEditorStore.autoSave w))) = Some d /\
     content d = Some draft /\ FNMdcSize d = FNMdcSize stored) /\
  (exists d,
     Table.get String.eqb DatabaseService.primary_key k
               (db_documents (snd (useEditorStore.saveCurrentDocument w))) = Some d /\
     content d = Some draft /\ FNMdcSize d = FNMdcSize stored).
Proof.
  intros Hf Hcur Hid Hdraft Hon Hidle Hget. split.
  - run_store. run_env.
    all: rewrite get_update by (intros; reflexivity).
    all: rewrite Hget; eexists; split; [reflexivity | split; reflexivity].
  - run_store. run_env.
    all: repeat (rewrite get_update by (intros; reflexivity); rewrite Hget; run_env).
    all: eexists; split; [reflexivity | split; reflexivity].
Qed.

Lemma welcome_text_length : String.length Home.welcome_text = 1364.
Proof. vm_compute. reflexivity. Qed.

(** What [createDocument] of the editor store stores and shows, when the
    database answers and the identifier is new: the argument, stamped with
    the identifier and one reading of the clock. *)
Lemma editor_createDocument_run (docData : MarkdownDocument) (w : World)
  (u : string) (us : list string) :
  faults w = [] ->
  uuids w = u :: us ->
  Table.get String.eqb DatabaseService.primary_key u (db_documents w) = None ->
  let r := useEditorStore.createDocument docData w in
  exists now,
    let d := spread docData (DatabaseService.stamp u now) in
    fst r = Ok u /\
    Table.get String.eqb DatabaseService.primary_key u (db_documents (snd r)) = Some d /\
    EditorStore.currentDocument (editor (snd r)) = Some d.
Proof.
  intros Hf Hu Hnone r. subst r.
  run_store. unfold Table.add. run_env.
  all: rewrite (get_insert String.eqb String.ltb DatabaseService.primary_key
                  string_eqb_refl) by (reflexivity || assumption).
  all: run_env.
  all: eexists; split; [reflexivity|]; split; [|reflexivity].
  all: rewrite (get_insert String.eqb String.ltb DatabaseService.primary_key
                  string_eqb_refl) by (reflexivity || assumption); reflexivity.
Qed.

(** Reading the clock always succeeds and changes nothing else. *)
Lemma newDate_frame (w : World) :
  exists t w', newDate w = (Ok t, w') /\
               faults w' = faults w /\ uuids w' = uuids w /\
               db_documents w' = db_documents w.
Proof.
  unfold newDate. destruct (clock w) as [|t ts]; eexists; eexists;
    repeat split; reflexivity.
Qed.

(** C6, what the code does. The welcome document is stored with
    [createdAt = updatedAt], its text as content, and the size [0] that the
    caller wrote in the object literal; the text has 1364 characters. *)
Theorem welcome_document_has_size_zero (w : World) (u : string) (us : list string) :
  faults w = [] ->
  uuids w = u :: us ->
  Table.get String.eqb DatabaseService.primary_key u (db_documents w) = None ->
  let r := Home.createWelcomeDocument w in
  fst r = Ok u /\
  exists d,
    Table.get String.eqb DatabaseService.primary_key u (db_documents (snd r)) = Some d /\
    EditorStore.currentDocument (editor (snd r)) = Some d /\
    content d = Some Home.welcome_text /\
    FNMdcSize d = 0 /\
    String.length Home.welcome_text = 1364 /\
    createdAt d = updatedAt d.
Proof.
  intros Hf Hu Hnone r. subst r.
  unfold Home.createWelcomeDocument, bind.
  destruct (newDate_frame w) as (t1 & wa & E1 & Hfa & Hua & Hda). rewrite E1.
  destruct (newDate_frame wa) as (t2 & wb & E2 & Hfb & Hub & Hdb). rewrite E2.
  rewrite <- Hfa, <- Hfb in Hf. rewrite <- Hua, <- Hub in Hu.
  rewrite <- Hda, <- Hdb in Hnone.
  destruct (editor_createDocument_run (Home.welcome_document t1 t2) wb u us Hf Hu Hnone)
    as (now & Hok & Hget & Hcur).
  split; [exact Hok|]. eexists. split; [exact Hget|]. split; [exact Hcur|].
  split; [reflexivity|]. split; [reflexivity|].
  split; [exact welcome_text_length | reflexivity].
Qed.

(** The document store computes the size itself: the document it creates
    has [FDMdcModified = FDMdcCreated] and the length of its content as
    size. *)
Lemma docstore_createDocument_consistent (ptTitle ptContent : string) (w : World) :
  faults w = [] ->
  Table.get N.eqb FNMdcId (db_tMDDocument_seq w + 1)%N (db_tMDDocument w) = None ->
  let r := useDocumentStore.createDocument ptTitle ptContent w in
  fst r = Ok tt /\
  exists d,
    DocumentStore.currentDocument (docstore (snd r)) = Some d /\
    Table.get N.eqb FNMdcId (db_tMDDocument_seq w + 1)%N (db_tMDDocument (snd r)) = Some d /\
    FTMdcTitle d = ptTitle /\ FTMdcContent d = ptContent /\
    FDMdcModified d = FDMdcCreated d /\
    FNMdcSize d = String.length (FTMdcContent d).
Proof.
  intros Hf Hnone r. subst r.
  run_store. unfold Table.add. run_env.
  all: rewrite (get_insert N.eqb N.ltb FNMdcId N.eqb_refl) by (reflexivity || assumption).
  all: run_env.
  all: split; [reflexivity|]; eexists; split; [reflexivity|]; split;
    [apply (get_insert N.eqb N.ltb FNMdcId N.eqb_refl); reflexivity || assumption|].
  all: repeat split; reflexivity.
Qed.

(** The document store recomputes the size when it updates the content. *)
Lemma docstore_updateDocument_recomputes_size (pnId : N) (poUpdates : Partial)
  (c : string) (stored : MarkdownDocument) (w : World) :
  faults w = [] ->
  pFTMdcContent poUpdates = Some c ->
  pFNMdcId poUpdates = None ->
  Table.get N.eqb FNMdcId pnId (db_tMDDocument w) = Some stored ->
  exists d,
    Table.get N.eqb FNMdcId pnId
      (db_tMDDocument (snd (useDocumentStore.updateDocument pnId poUpdates w))) = Some d /\
    FTMdcContent d = c /\ FNMdcSize d = String.length c.
Proof.
  intros Hf Hc Hk Hget.
  unfold useDocumentStore.updateDocument, try_catch, bind at 1.
  rewrite Hc.
  set (u := useDocumentStore.set_FNMdcSize (String.length c) poUpdates).
  assert (Hdb : forall now,
             exists d,
               Table.get N.eqb FNMdcId pnId
                 (Table.update N.eqb FNMdcId pnId (mMarkdownDB.set_FDMdcModified now u)
                               (db_tMDDocument w)) = Some d /\
               FTMdcContent d = c /\ FNMdcSize d = String.length c).
  { intros now. rewrite get_update.
    - rewrite Hget. eexists. split; [reflexivity|]. subst u. cbn. rewrite Hc.
      split; reflexivity.
    - intros d. subst u. cbn. rewrite Hk. reflexivity. }
  (* the write, then only reads of the clock and updates of the store state *)
  assert (Hrest : forall w1 (docs : list MarkdownDocument),
             db_tMDDocument
               (snd (useDocumentStore.map_refreshed pnId u docs w1)) =
             db_tMDDocument w1).
  { intros w1 docs. revert w1.
    induction docs as [|doc docs IH]; intros w1; [reflexivity|].
    cbn [useDocumentStore.map_refreshed]. unfold bind at 1.
    destruct (useDocumentStore.is_doc pnId doc).
    - unfold useDocumentStore.refreshed, bind at 1.
      destruct (newDate_frame w1) as (t & w1' & E & _ & _ & _).
      assert (Hd : db_tMDDocument w1' = db_tMDDocument w1).
      { unfold newDate in E. destruct (clock w1); injection E as _ <-; reflexivity. }
      rewrite E. cbn [ret]. unfold bind.
      specialize (IH w1').
      destruct (useDocumentStore.map_refreshed pnId u docs w1') as [[l|e] w2];
        cbn in *; congruence.
    - unfold ret at 1. unfold bind.
      specialize (IH w1).
      destruct (useDocumentStore.map_refreshed pnId u docs w1) as [[l|e] w2];
        cbn in *; congruence. }
  unfold mMarkdownDB.FSxMDCUpdateDocument, bind at 1.
  destruct (newDate_frame w) as (now & wa & E & Hfa & _ & _).
  assert (Hda : db_tMDDocument wa = db_tMDDocument w).
  { unfold newDate in E. destruct (clock w); injection E as _ <-; reflexivity. }
  rewrite E. unfold request. cbn [calls faults with_calls]. rewrite Hfa, Hf.
  cbn [fst snd]. unfold bind at 1. unfold useDocumentStore.get at 1.
  unfold bind at 1.
  match goal with
  | |- context [useDocumentStore.map_refreshed pnId u ?docs ?w1] =>
      specialize (Hrest w1 docs);
      destruct (useDocumentStore.map_refreshed pnId u docs w1) as [[l|e] w2]
  end.
  - cbn [snd] in Hrest. unfold bind at 1.
    destruct (DocumentStore.currentDocument (docstore _)) as [cur|].
    + destruct (useDocumentStore.is_doc pnId cur).
      * unfold useDocumentStore.refreshed, bind.
        destruct (newDate_frame w2) as (t & w3 & E3 & _ & _ & _).
        assert (Hd3 : db_tMDDocument w3 = db_tMDDocument w2).
        { unfold newDate in E3. destruct (clock w2); injection E3 as _ <-; reflexivity. }
        rewrite E3. cbn. rewrite Hd3, Hrest. cbn. rewrite Hda. apply Hdb.
      * cbn. rewrite Hrest. cbn. rewrite Hda. apply Hdb.
    + cbn. rewrite Hrest. cbn. rewrite Hda. apply Hdb.
  - cbn [snd] in Hrest. cbn. rewrite Hrest. cbn. rewrite Hda. apply Hdb.
Qed.

(** ** Auto-save *)

(** [setContent] arms a timer and clears none: the timers that were pending
    are still pending. *)
Lemma setContent_clears_no_timer (text : string) (w : World) :
  AppSettings.autoSave (EditorStore.settings (editor w)) = true ->
  timers (loop (snd (useEditorStore.setContent text w))) =
  timers (loop w) ++
  [mkTimer (S (timer_seq (loop w))) (time (loop w) + 1000)%Z AutoSaveCallback].
Proof.
  intros Hon. unfold useEditorStore.setContent, bind, useEditorStore.set,
    useEditorStore.get, setTimeout, ret. cbn.
  rewrite Hon. reflexivity.
Qed.

Lemma setContent_keeps_settings (text : string) (w : World) :
  EditorStore.settings (editor (snd (useEditorStore.setContent text w))) =
  EditorStore.settings (editor w).
Proof.
  unfold useEditorStore.setContent, bind, useEditorStore.set,
    useEditorStore.get, setTimeout, ret. cbn.
  destruct (AppSettings.autoSave (EditorStore.settings (editor w))); reflexivity.
Qed.

(** Any number of calls in a row, none of them letting a timer fire, leave
    as many more timers pending. *)
Lemma setContent_arms_one_timer_per_call (texts : list string) (w : World) :
  AppSettings.autoSave (EditorStore.settings (editor w)) = true ->
  length (timers (loop (fold_left (fun w text => snd (useEditorStore.setContent text w))
                                  texts w))) =
  length (timers (loop w)) + length texts.
Proof.
  revert w. induction texts as [|text texts IH]; intros w Hon; simpl.
  - lia.
  - rewrite IH.
    + rewrite (setContent_clears_no_timer text w Hon), length_app. simpl. lia.
    + rewrite setContent_keeps_settings. exact Hon.
Qed.

(** C2, what the code does. Two calls of [setContent] half a second apart,
    with a database that takes 5 ms to write: after the second call two
    auto-save timers are pending, and once the quiet period has passed the
    repository has been written twice; through the editor component, which
    adds its own debounced save, three times.  With a database that takes
    two seconds, the second auto-save finds the first in flight and is
    skipped.  Every run ends with no timer left. *)
Theorem rapid_edits_commit_each_time :
  let armed := Browser.play 10 5 useEditorStore.setContent Sample.two_edits
                 Sample.editing in
  let done := Browser.run_until 10 5 5000 armed in
  let typed := Browser.run_until 10 5 5000
                 (Browser.play 10 5 OMarkdownEditor.handleContentChange
                    Sample.two_edits Sample.editing) in
  let slow := Browser.run_until 10 2000 5000
                (Browser.play 10 2000 useEditorStore.setContent Sample.two_edits
                   Sample.editing) in
  map due (timers (loop armed)) = [1000; 1500]%Z /\
  Browser.commits Sample.editing = 0 /\
  Browser.commits done = 2 /\ timers (loop done) = [] /\
  Browser.commits typed = 3 /\ timers (loop typed) = [] /\
  Browser.commits slow = 1 /\ timers (loop slow) = [].
Proof. vm_compute. repeat split; reflexivity. Qed.

(** ** The theorems at the sample worlds *)

(** Each lemma below applies the theorem of a claim to a sample world. *)

(** C7 as stated fails: a query of one space is not empty and occurs in the
    content ["a b"], yet the search returns nothing. *)
Lemma space_query_finds_nothing : ~ search_as_stated " " Sample.editing.
Proof.
  intros H.
  destruct (H ltac:(discriminate) Sample.spaced) as (r & Hin & _).
  - right. right. left. reflexivity.
  - right. left. exists "a", "b". reflexivity.
  - vm_compute in Hin. exact Hin.
Qed.

Lemma commit_leaves_size_stale_witness :
  exists d,
    Table.get String.eqb DatabaseService.primary_key "d1"
      (db_documents (snd (useEditorStore.autoSave Sample.editing))) = Some d /\
    content d = Some "abc" /\ FNMdcSize d = 1.
Proof.
  exact (proj1 (commit_leaves_size_stale Sample.editing Sample.note Sample.note
                  "d1" "abc" eq_refl eq_refl eq_refl eq_refl eq_refl eq_refl eq_refl)).
Defined.

Lemma failed_save_is_only_logged_witness :
  faults Sample.failing = [true] /\
  fst (useEditorStore.saveCurrentDocument Sample.failing) = Ok tt /\
  alerts (snd (OToolbar.handleSave Sample.failing)) = [].
Proof.
  split; [reflexivity|].
  pose proof (failed_save_is_only_logged Sample.failing Sample.note []
                eq_refl eq_refl) as (Hok & _ & _ & Halert).
  split; [exact Hok | exact Halert].
Defined.

Lemma failed_commit_keeps_draft_witness :
  faults Sample.failing = [true] /\
  EditorStore.content
    (editor (snd (useEditorStore.saveCurrentDocument Sample.failing))) = Some "abc" /\
  EditorStore.content (editor (snd (useEditorStore.autoSave Sample.failing))) =
    Some "abc".
Proof.
  split; [reflexivity|].
  pose proof (failed_commit_keeps_draft Sample.failing [] eq_refl)
    as ((Hsave & _) & (Hauto & _)).
  split; [exact Hsave | exact Hauto].
Defined.

Lemma list_is_newest_first_witness :
  fst (DatabaseService.getAllDocuments Sample.editing) =
    Ok [Sample.todo; Sample.plan; Sample.note] /\
  fst (mMarkdownDB.FSaMDCGetAllDocuments Sample.editing) =
    Ok [Sample.tagged; Sample.hello; Sample.spaced] /\
  (FDMdcModified Sample.tagged >= FDMdcModified Sample.spaced)%Z.
Proof.
  split; [reflexivity|]. split; [reflexivity|].
  apply (proj2 (list_is_newest_first Sample.editing
                  [Sample.todo; Sample.plan; Sample.note]
                  [Sample.tagged; Sample.hello; Sample.spaced] eq_refl eq_refl)).
  exists [], [Sample.hello], []. reflexivity.
Defined.

Lemma welcome_document_has_size_zero_witness :
  faults Sample.first_run = [] /\
  uuids Sample.first_run = ["u1"; "u2"] /\
  fst (Home.createWelcomeDocument Sample.first_run) = Ok "u1".
Proof.
  split; [reflexivity|]. split; [reflexivity|].
  exact (proj1 (welcome_document_has_size_zero Sample.first_run "u1" ["u2"]
                  eq_refl eq_refl eq_refl)).
Defined.

Lemma search_finds_matching_documents_witness :
  blank "hello" = false /\
  StronglySorted
    (fun a b => SearchResult.matchCount a >= SearchResult.matchCount b)
    (DocumentStore.searchResults
       (docstore (snd (useDocumentStore.searchDocuments "hello" Sample.editing)))).
Proof.
  split; [reflexivity|].
  exact (proj1 (proj2 (proj2 (search_finds_matching_documents "hello" Sample.editing
                                eq_refl)))).
Defined.

Lemma delete_twice_is_delete_once_witness :
  faults Sample.editing = [] /\
  editor (snd (useEditorStore.deleteDocument "d1"
                 (snd (useEditorStore.deleteDocument "d1" Sample.editing)))) =
  editor (snd (useEditorStore.deleteDocument "d1" Sample.editing)).
Proof.
  split; [reflexivity|].
  pose proof (delete_twice_is_delete_once "d1" 1 Sample.editing eq_refl)
    as ((_ & _ & _ & Hed) & _).
  exact Hed.
Defined.

Lemma delete_other_keeps_current_witness :
  not_current "d2" (editor Sample.editing) /\
  not_current_doc 2 (docstore Sample.editing) /\
  EditorStore.content
    (editor (snd (useEditorStore.deleteDocument "d2" Sample.editing))) = Some "abc".
Proof.
  assert (H1 : not_current "d2" (editor Sample.editing)).
  { intros d Hd. injection Hd as <-. discriminate. }
  assert (H2 : not_current_doc 2 (docstore Sample.editing)).
  { intros d Hd. injection Hd as <-. discriminate. }
  split; [exact H1|]. split; [exact H2|].
  pose proof (delete_other_keeps_current "d2" 2 Sample.editing H1 H2)
    as ((_ & Hdraft & _ & _ & _) & _).
  exact Hdraft.
Defined.

Lemma blank_query_matches_nothing_witness :
  blank "  " = true /\
  DocumentStore.searchResults
    (docstore (snd (useDocumentStore.searchDocuments "  " Sample.editing))) = [].
Proof.
  split; [reflexivity|].
  exact (proj1 (proj2 (blank_query_matches_nothing "  " Sample.editing eq_refl))).
Defined.

(* ===================================================================== *)
(** * Further properties of the code *)
(* ===================================================================== *)


(** ** Running the stores step by step *)

Lemma newDate_eq (w : World) :
  newDate w = (Ok (hd 0%Z (clock w)), with_clock (tl (clock w)) w).
Proof.
  unfold newDate. destruct w as [c ? ? ? ? ? ? ? ? ? ? ? ?]. destruct c; reflexivity.
Qed.

Lemma randomUUID_eq (w : World) (u : string) (us : list string) :
  uuids w = u :: us -> randomUUID w = (Ok u, with_uuids us w).
Proof. intros H. unfold randomUUID. rewrite H. reflexivity. Qed.

Lemma request_answered {A} (c : DbCall) (run : M A) (w : World) :
  faults w = [] -> request c run w = run (with_calls (calls w ++ [c]) w).
Proof. intros H. unfold request. cbn. rewrite H. reflexivity. Qed.

Lemma request_rejected {A} (c : DbCall) (run : M A) (w : World) (fs : list bool) :
  faults w = true :: fs ->
  request c run w =
  (Throw "DexieError", with_faults fs (with_calls (calls w ++ [c]) w)).
Proof. intros H. unfold request. cbn. rewrite H. reflexivity. Qed.

Lemma request_passed {A} (c : DbCall) (run : M A) (w : World) (fs : list bool) :
  faults w = false :: fs ->
  request c run w = run (with_faults fs (with_calls (calls w ++ [c]) w)).
Proof. intros H. unfold request. cbn. rewrite H. reflexivity. Qed.

Arguments newDate : simpl never.
Arguments randomUUID : simpl never.
Arguments request : simpl never.

(** Unfolding of the store actions down to the services. *)
Ltac open_store :=
  unfold OToolbar.handleSave, useEditorStore.saveDocument,
    useEditorStore.saveCurrentDocument, useEditorStore.createNewDocument,
    useEditorStore.createDocument, useEditorStore.deleteDocument,
    useEditorStore.updateDocument, useEditorStore.loadDocument,
    useEditorStore.autoSave, useEditorStore.autoSave_begin,
    useEditorStore.autoSave_settle, useEditorStore.show_updated,
    useEditorStore.show_saved, useEditorStore.loadAllDocuments,
    useEditorStore.key_of,
    useDocumentStore.loadDocuments,
    useDocumentStore.createDocument, useDocumentStore.updateDocument,
    useDocumentStore.deleteDocument, useDocumentStore.refreshed,
    DatabaseService.deleteDocument, DatabaseService.getAllDocuments,
    DatabaseService.updateDocument, DatabaseService.getDocument,
    DatabaseService.saveDocument,
    mMarkdownDB.FSaMDCGetAllDocuments,
    mMarkdownDB.FSxMDCDeleteDocument, mMarkdownDB.FSxMDCCreateDocument,
    mMarkdownDB.FSoMDCGetDocumentById, mMarkdownDB.FSxMDCUpdateDocument,
    useEditorStore.get, useEditorStore.set, useDocumentStore.get,
    useDocumentStore.set, console_error, alert,
    try_catch, bind, ret, throw.

(** The answer of the database to the next request: known from the
    context, or else each of the three cases. *)
Ltac known H := cbn; exact H.

Ltac answer_request :=
  match goal with
  | |- context [request ?c ?run ?w'] =>
      let f := eval cbn in (faults w') in
      lazymatch f with
      | [] => rewrite (request_answered c run w') by reflexivity
      | true :: ?fs => rewrite (request_rejected c run w' fs) by reflexivity
      | false :: ?fs => rewrite (request_passed c run w' fs) by reflexivity
      | _ =>
          first
            [ match goal with
              | H : f = [] |- _ => rewrite (request_answered c run w') by known H
              | H : f = true :: ?fs |- _ =>
                  rewrite (request_rejected c run w' fs) by known H
              | H : f = false :: ?fs |- _ =>
                  rewrite (request_passed c run w' fs) by known H
              end
            | destruct f as [|[|] ?] eqn:? ]
      end
  end.

(** One step: simplify, read the clock, use what is known of the world. *)
Ltac step_world :=
  first
    [ progress cbn
    | rewrite newDate_eq
    | match goal with
      | H : uuids ?w = ?u :: ?us |- context [randomUUID ?w'] =>
          rewrite (randomUUID_eq w' u us) by known H
      end
    | answer_request
    | match goal with
      | H : ?x = _ |- context [?x] => rewrite H
      end ].

Ltac exec := repeat step_world.

(** ** More on tables *)

Section TableMore.
Context {K : Type} (keq klt : K -> K -> bool).
Context (key : MarkdownDocument -> option K).
Hypothesis keq_spec : forall a b, keq a b = true <-> a = b.

Lemma insert_perm (k : K) (d : MarkdownDocument) (tbl : list MarkdownDocument) :
  Permutation (Table.insert klt key k d tbl) (d :: tbl).
Proof.
  induction tbl as [|e tbl IH]; unfold Table.insert in *; simpl; [reflexivity|].
  destruct (key e) as [ke|]; [destruct (klt k ke); [reflexivity|]|];
    rewrite IH; apply perm_swap.
Qed.

Lemma get_none_has_key (k : K) (tbl : list MarkdownDocument) :
  Table.get keq key k tbl = None ->
  forall d, In d tbl -> Table.has_key keq key k d = false.
Proof.
  unfold Table.get. intros H d Hd. exact (find_none _ _ H d Hd).
Qed.

Lemma get_some_key (k : K) (tbl : list MarkdownDocument) (d : MarkdownDocument) :
  Table.get keq key k tbl = Some d -> In d tbl /\ key d = Some k.
Proof.
  unfold Table.get. intros H. apply find_some in H as [Hin Hk]. split; [exact Hin|].
  unfold Table.has_key in Hk. destruct (key d) as [k'|]; [|discriminate].
  apply keq_spec in Hk. congruence.
Qed.

Lemma update_absent (k : K) (u : Partial) (tbl : list MarkdownDocument) :
  Table.get keq key k tbl = None -> Table.update keq key k u tbl = tbl.
Proof.
  intros H. pose proof (get_none_has_key k tbl H) as Hall. clear H.
  unfold Table.update. induction tbl as [|e tbl IH]; simpl; [reflexivity|].
  rewrite (Hall e (or_introl eq_refl)). f_equal. apply IH.
  intros d Hd. apply Hall. right. exact Hd.
Qed.

Lemma get_delete_same (k : K) (tbl : list MarkdownDocument) :
  Table.get keq key k (Table.delete keq key k tbl) = None.
Proof.
  unfold Table.get, Table.delete. induction tbl as [|e tbl IH]; simpl; [reflexivity|].
  destruct (Table.has_key keq key k e) eqn:He; simpl; [exact IH|].
  rewrite He. exact IH.
Qed.

Lemma has_key_other (k k' : K) (d : MarkdownDocument) :
  k' <> k -> Table.has_key keq key k d = true -> Table.has_key keq key k' d = false.
Proof.
  unfold Table.has_key. intros Hne H. destruct (key d) as [kd|]; [|reflexivity].
  apply keq_spec in H. subst kd.
  destruct (keq k k') eqn:E; [|reflexivity]. apply keq_spec in E. congruence.
Qed.

Lemma get_delete_other (k k' : K) (tbl : list MarkdownDocument) :
  k' <> k ->
  Table.get keq key k' (Table.delete keq key k tbl) = Table.get keq key k' tbl.
Proof.
  intros Hne. unfold Table.get, Table.delete.
  induction tbl as [|e tbl IH]; simpl; [reflexivity|].
  destruct (Table.has_key keq key k e) eqn:He; simpl.
  - rewrite (has_key_other k k' e Hne He). exact IH.
  - destruct (Table.has_key keq key k' e); [reflexivity | exact IH].
Qed.

Lemma get_update_other (k k' : K) (u : Partial) (tbl : list MarkdownDocument) :
  k' <> k ->
  (forall d, key (spread d u) = key d) ->
  Table.get keq key k' (Table.update keq key k u tbl) = Table.get keq key k' tbl.
Proof.
  intros Hne Hkey. unfold Table.get, Table.update.
  induction tbl as [|e tbl IH]; simpl; [reflexivity|].
  destruct (Table.has_key keq key k e) eqn:He.
  - unfold Table.has_key at 1. rewrite Hkey. fold (Table.has_key keq key k' e).
    rewrite (has_key_other k k' e Hne He). exact IH.
  - destruct (Table.has_key keq key k' e); [reflexivity | exact IH].
Qed.

Lemma get_insert_other (k k' : K) (d : MarkdownDocument) (tbl : list MarkdownDocument) :
  k' <> k -> key d = Some k ->
  Table.get keq key k' (Table.insert klt key k d tbl) = Table.get keq key k' tbl.
Proof.
  intros Hne Hd.
  assert (Hk : Table.has_key keq key k' d = false).
  { apply (has_key_other k k' d Hne). unfold Table.has_key. rewrite Hd.
    apply keq_spec. reflexivity. }
  unfold Table.get.
  induction tbl as [|e tbl IH]; unfold Table.insert in *; simpl.
  - rewrite Hk. reflexivity.
  - destruct (key e) as [ke|]; [destruct (klt k ke)|]; simpl; rewrite ?Hk;
      try reflexivity; destruct (Table.has_key keq key k' e); auto.
Qed.

End TableMore.

Lemma string_eqb_iff (a b : string) : String.eqb a b = true <-> a = b.
Proof. apply String.eqb_eq. Qed.

Lemma N_eqb_iff (a b : N) : N.eqb a b = true <-> a = b.
Proof. apply N.eqb_eq. Qed.

Lemma orderBy_reverse_perm (index : MarkdownDocument -> option Z)
  (tbl : list MarkdownDocument) :
  Permutation (Table.orderBy_reverse index tbl) (filter (Table.has_index index) tbl).
Proof.
  unfold Table.orderBy_reverse. rewrite <- Permutation_rev.
  apply sort_perm.
Qed.


(** ** Creating, saving and reading back in the editor store *)

(** When the database answers, [getDocument] is the lookup in the table. *)
Lemma getDocument_answer (k : string) (w : World) :
  faults w = [] ->
  fst (DatabaseService.getDocument k w) =
  Ok (Table.get String.eqb DatabaseService.primary_key k (db_documents w)).
Proof.
  intros Hf. unfold DatabaseService.getDocument. exec. reflexivity.
Qed.

(** The whole effect of [createDocument] of the editor store. *)
Lemma editor_createDocument_effect (docData : MarkdownDocument) (w : World)
  (u : string) (us : list string) :
  faults w = [] ->
  uuids w = u :: us ->
  Table.get String.eqb DatabaseService.primary_key u (db_documents w) = None ->
  let r := useEditorStore.createDocument docData w in
  exists now,
    let d := spread docData (DatabaseService.stamp u now) in
    let tbl := Table.insert String.ltb DatabaseService.primary_key u d (db_documents w) in
    fst (newDate w) = Ok now /\
    fst r = Ok u /\
    faults (snd r) = [] /\
    console (snd r) = console w /\
    db_documents (snd r) = tbl /\
    EditorStore.currentDocument (editor (snd r)) = Some d /\
    EditorStore.content (editor (snd r)) = content d /\
    EditorStore.documents (editor (snd r)) = Table.orderBy_reverse updatedAt tbl.
Proof.
  intros Hf Hu Hnone r. subst r.
  open_store. unfold Table.add. exec.
  rewrite (get_insert String.eqb String.ltb DatabaseService.primary_key
             string_eqb_refl) by (reflexivity || assumption).
  exec. exists (hd 0%Z (clock w)). rewrite ?newDate_eq. repeat split; reflexivity.
Qed.

(** X1. A document created through the editor store reads back: the call
    returns the new identifier, [getDocument] of it then returns the
    argument with that identifier and, as both [createdAt] and [updatedAt],
    what [new Date()] reads when the call starts; that record is the
    current document, its content the draft, and it is in the document
    list. *)
Theorem created_document_reads_back (docData : MarkdownDocument) (w : World)
  (u : string) (us : list string) :
  faults w = [] ->
  uuids w = u :: us ->
  Table.get String.eqb DatabaseService.primary_key u (db_documents w) = None ->
  let r := useEditorStore.createDocument docData w in
  fst r = Ok u /\
  exists now d,
    fst (newDate w) = Ok now /\
    fst (DatabaseService.getDocument u (snd r)) = Ok (Some d) /\
    d = spread docData (DatabaseService.stamp u now) /\
    id d = Some u /\ title d = title docData /\ content d = content docData /\
    FTMdcTitle d = FTMdcTitle docData /\ FTMdcContent d = FTMdcContent docData /\
    createdAt d = Some now /\ updatedAt d = Some now /\
    EditorStore.currentDocument (editor (snd r)) = Some d /\
    EditorStore.content (editor (snd r)) = content docData /\
    In d (EditorStore.documents (editor (snd r))).
Proof.
  intros Hf Hu Hnone r.
  destruct (editor_createDocument_effect docData w u us Hf Hu Hnone)
    as (now & Hnow & Hok & Hf' & _ & Hdb & Hcur & Hdraft & Hdocs).
  fold r in Hok, Hf', Hdb, Hcur, Hdraft, Hdocs.
  split; [exact Hok|].
  exists now, (spread docData (DatabaseService.stamp u now)).
  split; [exact Hnow|].
  rewrite (getDocument_answer u (snd r) Hf'), Hdb.
  rewrite (get_insert String.eqb String.ltb DatabaseService.primary_key
             string_eqb_refl) by (reflexivity || assumption).
  repeat (split; [reflexivity || assumption|]).
  rewrite Hdocs.
  apply (Permutation_in _ (Permutation_sym (orderBy_reverse_perm _ _))).
  apply filter_In. split; [|reflexivity].
  apply (Permutation_in _ (Permutation_sym (insert_perm _ _ _ _ _))).
  left. reflexivity.
Qed.

(** X2. Updating an identifier that is not stored is no error and changes
    no record, in either service. *)
Theorem update_of_missing_id_is_silent (k : string) (pnDocId : N)
  (updates : Partial) (w : World) :
  faults w = [] ->
  Table.get String.eqb DatabaseService.primary_key k (db_documents w) = None ->
  Table.get N.eqb FNMdcId pnDocId (db_tMDDocument w) = None ->
  (fst (DatabaseService.updateDocument k updates w) = Ok tt /\
   db_documents (snd (DatabaseService.updateDocument k updates w)) = db_documents w) /\
  (fst (mMarkdownDB.FSxMDCUpdateDocument pnDocId updates w) = Ok tt /\
   db_tMDDocument (snd (mMarkdownDB.FSxMDCUpdateDocument pnDocId updates w)) =
     db_tMDDocument w).
Proof.
  intros Hf H1 H2. split.
  - open_store. exec.
    rewrite (update_absent String.eqb DatabaseService.primary_key) by assumption.
    split; reflexivity.
  - open_store. exec.
    rewrite (update_absent N.eqb FNMdcId) by assumption.
    split; reflexivity.
Qed.

(** X3. After a deletion the identifier reads as missing and every other
    identifier reads as before. *)
Theorem deleted_document_is_gone (k : string) (w : World) :
  faults w = [] ->
  let w' := snd (DatabaseService.deleteDocument k w) in
  fst (DatabaseService.deleteDocument k w) = Ok tt /\
  fst (DatabaseService.getDocument k w') = Ok None /\
  forall k', k' <> k ->
    fst (DatabaseService.getDocument k' w') = fst (DatabaseService.getDocument k' w).
Proof.
  intros Hf w'.
  assert (Hrun : fst (DatabaseService.deleteDocument k w) = Ok tt /\
                 faults w' = [] /\
                 db_documents w' =
                   Table.delete String.eqb DatabaseService.primary_key k (db_documents w)).
  { subst w'. open_store. exec. repeat split; assumption || reflexivity. }
  destruct Hrun as (Hok & Hf' & Hdb).
  split; [exact Hok|]. split.
  - rewrite (getDocument_answer k w' Hf'), Hdb.
    rewrite (get_delete_same String.eqb DatabaseService.primary_key). reflexivity.
  - intros k' Hne.
    rewrite (getDocument_answer k' w' Hf'), (getDocument_answer k' w Hf), Hdb.
    rewrite (get_delete_other String.eqb DatabaseService.primary_key string_eqb_iff)
      by exact Hne.
    reflexivity.
Qed.


(** X4. A save that the database accepts brings the store and the editor in
    step: the stored record has the draft as content and, as [updatedAt],
    what [new Date()] reads when the save starts; its identifier and
    [createdAt] are untouched, it is the current document, the draft is
    still the draft, nothing is logged and the list is the stored
    documents, newest first. *)
Theorem save_brings_editor_in_step (w : World) (cur stored : MarkdownDocument)
  (k draft : string) :
  faults w = [] ->
  EditorStore.currentDocument (editor w) = Some cur ->
  id cur = Some k ->
  EditorStore.content (editor w) = Some draft ->
  Table.get String.eqb DatabaseService.primary_key k (db_documents w) = Some stored ->
  let r := useEditorStore.saveCurrentDocument w in
  fst r = Ok tt /\
  console (snd r) = console w /\
  EditorStore.content (editor (snd r)) = Some draft /\
  EditorStore.documents (editor (snd r)) =
    Table.orderBy_reverse updatedAt (db_documents (snd r)) /\
  exists now d,
    fst (newDate w) = Ok now /\
    Table.get String.eqb DatabaseService.primary_key k (db_documents (snd r)) = Some d /\
    EditorStore.currentDocument (editor (snd r)) = Some d /\
    content d = Some draft /\
    updatedAt d = Some now /\
    id d = id stored /\ createdAt d = createdAt stored /\
    FTMdcContent d = FTMdcContent stored /\ FNMdcSize d = FNMdcSize stored.
Proof.
  intros Hf Hcur Hid Hdraft Hget r. subst r.
  open_store. exec.
  repeat (rewrite get_update by (intros; reflexivity); exec).
  repeat (split; [reflexivity|]).
  exists (hd 0%Z (clock w)). eexists.
  split; [rewrite ?newDate_eq; reflexivity|].
  try (rewrite get_update by (intros; reflexivity); rewrite Hget).
  repeat split; reflexivity.
Qed.

(** X5. A save with no current document creates one, titled
    "Untitled Document", whose content is the draft, or the placeholder text
    when the draft is empty; its size is the length of that content, and it
    becomes the current document and the draft. *)
Theorem save_without_document_creates_one (w : World) (u : string) (us : list string) :
  faults w = [] ->
  EditorStore.currentDocument (editor w) = None ->
  uuids w = u :: us ->
  Table.get String.eqb DatabaseService.primary_key u (db_documents w) = None ->
  let r := useEditorStore.saveCurrentDocument w in
  let text := useEditorStore.content_or_default (EditorStore.content (editor w)) in
  fst r = Ok tt /\
  text <> "" /\
  (forall draft, EditorStore.content (editor w) = Some draft -> draft <> "" ->
                 text = draft) /\
  EditorStore.content (editor (snd r)) = Some text /\
  exists d,
    Table.get String.eqb DatabaseService.primary_key u (db_documents (snd r)) = Some d /\
    EditorStore.currentDocument (editor (snd r)) = Some d /\
    id d = Some u /\
    title d = Some "Untitled Document" /\ FTMdcTitle d = "Untitled Document" /\
    content d = Some text /\ FTMdcContent d = text /\
    FNMdcSize d = String.length text /\
    createdAt d = updatedAt d /\ FDMdcCreated d = FDMdcModified d.
Proof.
  intros Hf Hcur Hu Hnone r text.
  split; [|split; [|split]].
  - subst r text. open_store. unfold Table.add. exec.
    rewrite (get_insert String.eqb String.ltb DatabaseService.primary_key
               string_eqb_refl) by (reflexivity || assumption).
    exec. reflexivity.
  - subst text. unfold useEditorStore.content_or_default.
    destruct (EditorStore.content (editor w)) as [c|]; [|discriminate].
    unfold JS.truthy. destruct (String.eqb_spec c ""); simpl; [discriminate | assumption].
  - intros draft Hd Hne. subst text. rewrite Hd.
    unfold useEditorStore.content_or_default, JS.truthy.
    destruct (String.eqb_spec draft ""); [contradiction | reflexivity].
  - subst r text. open_store. unfold Table.add. exec.
    rewrite (get_insert String.eqb String.ltb DatabaseService.primary_key
               string_eqb_refl) by (reflexivity || assumption).
    exec. split; [reflexivity|]. eexists.
    rewrite (get_insert String.eqb String.ltb DatabaseService.primary_key
               string_eqb_refl) by (reflexivity || assumption).
    repeat split; reflexivity.
Qed.

(** X6. A commit writes the record of the current document only: whatever
    the database answers, every other identifier reads the same record after
    [saveCurrentDocument] and after [autoSave]. *)
Theorem commit_touches_one_record (w : World) (cur : MarkdownDocument) (k k' : string) :
  EditorStore.currentDocument (editor w) = Some cur ->
  id cur = Some k ->
  k' <> k ->
  Table.get String.eqb DatabaseService.primary_key k'
            (db_documents (snd (useEditorStore.saveCurrentDocument w))) =
    Table.get String.eqb DatabaseService.primary_key k' (db_documents w) /\
  Table.get String.eqb DatabaseService.primary_key k'
            (db_documents (snd (useEditorStore.autoSave w))) =
    Table.get String.eqb DatabaseService.primary_key k' (db_documents w).
Proof.
  intros Hcur Hid Hne.
  assert (Hother : forall u,
             pid u = None ->
             Table.get String.eqb DatabaseService.primary_key k'
               (Table.update String.eqb DatabaseService.primary_key k u (db_documents w)) =
             Table.get String.eqb DatabaseService.primary_key k' (db_documents w)).
  { intros u Hu. apply (get_update_other String.eqb DatabaseService.primary_key
                          string_eqb_iff); [exact Hne|].
    intros d. unfold DatabaseService.primary_key. cbn. rewrite Hu. reflexivity. }
  split.
  - open_store. exec; try reflexivity.
    all: repeat match goal with
           | |- context [match Table.get ?e ?p ?x ?t with _ => _ end] =>
               destruct (Table.get e p x t); exec
           end.
    all: try reflexivity; apply Hother; reflexivity.
  - open_store. exec.
    destruct (negb (AppSettings.autoSave (EditorStore.settings (editor w)))
              || EditorStore.isAutoSaving (editor w)); exec; try reflexivity.
    all: apply Hother; reflexivity.
Qed.


(** ** Errors: what the stores swallow and what they rethrow *)

(** X7. [autoSave] never throws and leaves the [isAutoSaving] flag as it
    found it, whatever the database answers; when its guard blocks it, it
    sends no request and changes nothing at all. *)
Theorem autoSave_is_safe (w : World) :
  fst (useEditorStore.autoSave w) = Ok tt /\
  EditorStore.isAutoSaving (editor (snd (useEditorStore.autoSave w))) =
    EditorStore.isAutoSaving (editor w) /\
  (autoSave_blocked (editor w) -> snd (useEditorStore.autoSave w) = w).
Proof.
  assert (Hcases : forall (P : World -> Prop),
             (autoSave_blocked (editor w) -> P w) ->
             (forall w', ~ autoSave_blocked (editor w) ->
                         EditorStore.isAutoSaving (editor w') = false -> P w') ->
             fst (useEditorStore.autoSave w) = Ok tt /\
             P (snd (useEditorStore.autoSave w))).
  { intros P Hblocked Hran. unfold autoSave_blocked in *. open_store. exec.
    destruct (AppSettings.autoSave (EditorStore.settings (editor w))) eqn:Hon;
      destruct (EditorStore.isAutoSaving (editor w)) eqn:Hbusy;
      destruct (EditorStore.currentDocument (editor w)) as [cur|] eqn:Hcur; exec;
      try (split; [reflexivity | apply Hblocked; tauto]).
    assert (Hfree : ~ (true = false \/ false = true \/ Some cur = None)).
    { intros [H | [H | H]]; discriminate. }
    destruct (id cur) as [k|] eqn:Hid; exec;
      (split; [reflexivity | apply Hran; [exact Hfree | reflexivity]]). }
  destruct (Hcases (fun w' => EditorStore.isAutoSaving (editor w') =
                              EditorStore.isAutoSaving (editor w) /\
                              (autoSave_blocked (editor w) -> w' = w)))
    as [Hok Hrest].
  - intros _. split; reflexivity.
  - intros w' Hfree Hidle. split; [|intros H; contradiction].
    rewrite Hidle. unfold autoSave_blocked in Hfree.
    destruct (EditorStore.isAutoSaving (editor w)); [exfalso; apply Hfree; tauto|].
    reflexivity.
  - split; [exact Hok | exact Hrest].
Qed.

(** X8. No action of the editor store other than [createDocument] ever
    throws: whatever the world and whatever the database answers, each
    returns normally. *)
Theorem editor_actions_never_throw (w : World) (k ttl : string) (updates : Partial) :
  fst (useEditorStore.saveCurrentDocument w) = Ok tt /\
  fst (useEditorStore.createNewDocument ttl w) = Ok tt /\
  fst (useEditorStore.loadDocument k w) = Ok tt /\
  fst (useEditorStore.deleteDocument k w) = Ok tt /\
  fst (useEditorStore.loadAllDocuments w) = Ok tt /\
  fst (useEditorStore.updateDocument updates w) = Ok tt.
Proof.
  repeat split.
  - open_store. exec.
    destruct (EditorStore.currentDocument (editor w)) as [cur|] eqn:Hcur; exec.
    + destruct (id cur) as [i|] eqn:Hid; exec; try reflexivity.
      all: repeat match goal with
             | |- context [match Table.get ?e ?p ?x ?t with _ => _ end] =>
                 destruct (Table.get e p x t); exec
             end; reflexivity.
    + destruct (uuids w) as [|u us] eqn:Hu; unfold randomUUID; exec;
        unfold Table.add; exec; try reflexivity.
      all: repeat match goal with
             | |- context [match Table.get ?e ?p ?x ?t with _ => _ end] =>
                 destruct (Table.get e p x t); exec
             end; reflexivity.
  - open_store. exec.
    destruct (uuids w) as [|u us] eqn:Hu; unfold randomUUID; exec;
      unfold Table.add; exec; try reflexivity.
    all: repeat match goal with
           | |- context [match Table.get ?e ?p ?x ?t with _ => _ end] =>
               destruct (Table.get e p x t); exec
           end; reflexivity.
  - open_store. exec; try reflexivity.
    all: destruct (Table.get String.eqb DatabaseService.primary_key k _); reflexivity.
  - open_store. exec; try reflexivity.
    all: destruct (useEditorStore.is_current k (editor w)); exec; reflexivity.
  - open_store. exec; reflexivity.
  - open_store. exec.
    destruct (EditorStore.currentDocument (editor w)) as [cur|] eqn:Hcur; exec;
      [|reflexivity].
    destruct (id cur) as [i|] eqn:Hid; exec; try reflexivity.
    all: repeat match goal with
           | |- context [match Table.get ?e ?p ?x ?t with _ => _ end] =>
               destruct (Table.get e p x t); exec
           end; reflexivity.
Qed.


(** X9. When the database rejects the first request, [createDocument] of the
    editor store and the three writing actions of the document store log
    one line and rethrow, and leave tables and store states as they were. *)
Theorem rejected_writes_are_rethrown (w : World) (fs : list bool)
  (docData : MarkdownDocument) (ptTitle ptContent : string) (pnId : N)
  (poUpdates : Partial) :
  faults w = true :: fs ->
  let r1 := useEditorStore.createDocument docData w in
  let r2 := useDocumentStore.createDocument ptTitle ptContent w in
  let r3 := useDocumentStore.updateDocument pnId poUpdates w in
  let r4 := useDocumentStore.deleteDocument pnId w in
  (fst r1 = Throw "DexieError" /\
   console (snd r1) = console w ++ ["Failed to create document:"] /\
   db_documents (snd r1) = db_documents w /\ editor (snd r1) = editor w) /\
  (fst r2 = Throw "DexieError" /\
   console (snd r2) = console w ++ ["Error creating document:"] /\
   db_tMDDocument (snd r2) = db_tMDDocument w /\ docstore (snd r2) = docstore w) /\
  (fst r3 = Throw "DexieError" /\
   console (snd r3) = console w ++ ["Error updating document:"] /\
   db_tMDDocument (snd r3) = db_tMDDocument w /\ docstore (snd r3) = docstore w) /\
  (fst r4 = Throw "DexieError" /\
   console (snd r4) = console w ++ ["Error deleting document:"] /\
   db_tMDDocument (snd r4) = db_tMDDocument w /\ docstore (snd r4) = docstore w).
Proof.
  intros Hf r1 r2 r3 r4. subst r1 r2 r3 r4. repeat split.
  all: open_store.
  all: try (destruct (uuids w) as [|u us] eqn:Hu; unfold randomUUID).
  all: try (destruct (pFTMdcContent poUpdates)).
  all: exec; reflexivity.
Qed.


(** ** The document store *)

Lemma with_clock_same (w : World) : with_clock (clock w) w = w.
Proof. destruct w. reflexivity. Qed.

(** Mapping over the list only reads the clock. *)
Lemma map_refreshed_run (pnId : N) (u : Partial) (docs : list MarkdownDocument)
  (w : World) :
  exists l c,
    useDocumentStore.map_refreshed pnId u docs w = (Ok l, with_clock c w) /\
    Forall2 (refreshed_as pnId u) docs l.
Proof.
  revert w. induction docs as [|doc docs IH]; intros w.
  - exists [], (clock w). rewrite with_clock_same. split; [reflexivity | constructor].
  - cbn [useDocumentStore.map_refreshed]. unfold bind at 1.
    destruct (useDocumentStore.is_doc pnId doc) eqn:Hdoc.
    + unfold useDocumentStore.refreshed, bind at 1. rewrite newDate_eq.
      cbn [ret]. unfold bind.
      destruct (IH (with_clock (tl (clock w)) w)) as (l & c & E & HF).
      rewrite E. eexists; exists c. split; [reflexivity|].
      constructor; [|exact HF]. unfold refreshed_as. rewrite Hdoc.
      eexists. reflexivity.
    + unfold ret at 1. unfold bind.
      destruct (IH w) as (l & c & E & HF). rewrite E.
      eexists; exists c. split; [reflexivity|].
      constructor; [|exact HF]. unfold refreshed_as. rewrite Hdoc. reflexivity.
Qed.

Lemma keys_issued_fresh (w : World) :
  keys_issued w ->
  Table.get N.eqb FNMdcId (db_tMDDocument_seq w + 1)%N (db_tMDDocument w) = None.
Proof.
  intros Hk. destruct (Table.get N.eqb FNMdcId _ _) as [d|] eqn:Hget; [|reflexivity].
  apply (get_some_key N.eqb FNMdcId N_eqb_iff) in Hget as [Hin Hd].
  specialize (Hk d _ Hin Hd). lia.
Qed.

(** X10. The document store creates a consistent document and never hits a
    used key: when every stored key came from the counter, the new document
    gets the next key, [FDMdcModified = FDMdcCreated], no tag, no favourite
    and the length of its content as size; it reads back from the table, is
    put in front of the list and made current, and every stored key again
    comes from the counter. *)
Theorem docstore_create_is_consistent (ptTitle ptContent : string) (w : World) :
  faults w = [] ->
  keys_issued w ->
  let r := useDocumentStore.createDocument ptTitle ptContent w in
  let k := (db_tMDDocument_seq w + 1)%N in
  fst r = Ok tt /\
  keys_issued (snd r) /\
  exists d,
    Table.get N.eqb FNMdcId k (db_tMDDocument (snd r)) = Some d /\
    DocumentStore.currentDocument (docstore (snd r)) = Some d /\
    DocumentStore.documents (docstore (snd r)) =
      d :: DocumentStore.documents (docstore w) /\
    FNMdcId d = Some k /\
    FTMdcTitle d = ptTitle /\ FTMdcContent d = ptContent /\
    FDMdcModified d = FDMdcCreated d /\
    FNMdcSize d = String.length ptContent /\
    FTMdcTags d = Some [] /\ FBMdcFavorite d = false.
Proof.
  intros Hf Hk r k. pose proof (keys_issued_fresh w Hk) as Hnone.
  subst r k. open_store. unfold Table.add. exec.
  rewrite (get_insert N.eqb N.ltb FNMdcId N.eqb_refl) by (reflexivity || assumption).
  exec. split; [reflexivity|]. split.
  - unfold keys_issued. cbn. intros d k Hin Hd.
    apply (Permutation_in _ (insert_perm _ _ _ _ _)) in Hin.
    destruct Hin as [<- | Hin].
    + cbn in Hd. injection Hd as <-. lia.
    + specialize (Hk d k Hin Hd). lia.
  - eexists. split; [|repeat split; reflexivity].
    apply (get_insert N.eqb N.ltb FNMdcId N.eqb_refl); reflexivity || assumption.
Qed.

Lemma find_refreshed (pnId : N) (u : Partial) (docs l : list MarkdownDocument) :
  pFNMdcId u = None ->
  Forall2 (refreshed_as pnId u) docs l ->
  match find (useDocumentStore.is_doc pnId) docs with
  | Some d => exists now,
      find (useDocumentStore.is_doc pnId) l =
      Some (spread d (mMarkdownDB.set_FDMdcModified now u))
  | None => find (useDocumentStore.is_doc pnId) l = None
  end.
Proof.
  intros Hu. induction 1 as [|d d' docs l Hd HF IH]; simpl; [reflexivity|].
  unfold refreshed_as in Hd.
  destruct (useDocumentStore.is_doc pnId d) eqn:Hdoc.
  - destruct Hd as [now ->]. exists now.
    assert (Hsame : useDocumentStore.is_doc pnId
                      (spread d (mMarkdownDB.set_FDMdcModified now u)) = true).
    { unfold useDocumentStore.is_doc in *. cbn. rewrite Hu. exact Hdoc. }
    rewrite Hsame. reflexivity.
  - subst d'. rewrite Hdoc. exact IH.
Qed.

(** The effect of [updateDocument] of the document store when the database
    answers: the record is updated, the list is mapped. *)
Lemma docstore_updateDocument_effect (pnId : N) (poUpdates : Partial) (w : World) :
  faults w = [] ->
  let u := match pFTMdcContent poUpdates with
           | Some c => useDocumentStore.set_FNMdcSize (String.length c) poUpdates
           | None => poUpdates
           end in
  exists l w',
    useDocumentStore.updateDocument pnId poUpdates w = (Ok tt, w') /\
    faults w' = [] /\
    console w' = console w /\
    db_tMDDocument w' =
      Table.update N.eqb FNMdcId pnId
        (mMarkdownDB.set_FDMdcModified (hd 0%Z (clock w)) u) (db_tMDDocument w) /\
    DocumentStore.documents (docstore w') = l /\
    Forall2 (refreshed_as pnId u) (DocumentStore.documents (docstore w)) l.
Proof.
  intros Hf u.
  unfold useDocumentStore.updateDocument. fold u. generalize u. clear u. intros u.
  unfold try_catch, bind at 1.
  unfold mMarkdownDB.FSxMDCUpdateDocument, bind at 1. rewrite newDate_eq.
  rewrite request_answered by exact Hf.
  cbn [fst snd]. unfold bind at 1, useDocumentStore.get at 1. unfold bind at 1.
  match goal with
  | |- context [useDocumentStore.map_refreshed pnId u ?docs ?w1] =>
      destruct (map_refreshed_run pnId u docs w1) as (l & c & E & HF); rewrite E
  end.
  cbn in HF. exists l. unfold bind at 1.
  destruct (DocumentStore.currentDocument _) as [cur|];
    [destruct (useDocumentStore.is_doc pnId cur)|];
    unfold useDocumentStore.refreshed, useDocumentStore.set, bind, ret; exec.
  all: eexists; split; [reflexivity|]; cbn; repeat split; assumption || reflexivity.
Qed.

(** X11. [toggleFavorite] flips the flag of the document of the list with
    that identifier, in the list and in its stored record, and changes no
    other field of it but [FDMdcModified]; for an identifier that is not in
    the list it sends no request and changes nothing. *)
Theorem toggleFavorite_flips_the_flag (pnId : N) (w : World) :
  faults w = [] ->
  let r := useDocumentStore.toggleFavorite pnId w in
  match find (useDocumentStore.is_doc pnId) (DocumentStore.documents (docstore w)) with
  | None => r = (Ok tt, w)
  | Some d =>
      fst r = Ok tt /\
      (exists d',
         find (useDocumentStore.is_doc pnId)
              (DocumentStore.documents (docstore (snd r))) = Some d' /\
         FBMdcFavorite d' = negb (FBMdcFavorite d) /\
         FNMdcId d' = FNMdcId d /\ FTMdcTitle d' = FTMdcTitle d /\
         FTMdcContent d' = FTMdcContent d /\ FNMdcSize d' = FNMdcSize d /\
         FDMdcCreated d' = FDMdcCreated d /\ FTMdcTags d' = FTMdcTags d) /\
      (forall stored,
         Table.get N.eqb FNMdcId pnId (db_tMDDocument w) = Some stored ->
         exists s',
           Table.get N.eqb FNMdcId pnId (db_tMDDocument (snd r)) = Some s' /\
           FBMdcFavorite s' = negb (FBMdcFavorite d) /\
           FTMdcContent s' = FTMdcContent stored /\ FNMdcSize s' = FNMdcSize stored)
  end.
Proof.
  intros Hf r.
  assert (Hr : r =
               match find (useDocumentStore.is_doc pnId)
                          (DocumentStore.documents (docstore w)) with
               | Some d =>
                   match useDocumentStore.updateDocument pnId
                           (mkPartial None None None None None None None
                                      (Some (negb (FBMdcFavorite d)))
                                      None None None None None None None None) w with
                   | (Ok a, w') => (Ok a, w')
                   | (Throw e, w') =>
                       (console_error "Error toggling favorite:" ;; throw e) w'
                   end
               | None => (Ok tt, w)
               end).
  { subst r.
    unfold useDocumentStore.toggleFavorite, try_catch, bind, useDocumentStore.get.
    cbn beta iota.
    destruct (find _ _); reflexivity. }
  clearbody r.
  destruct (find (useDocumentStore.is_doc pnId) (DocumentStore.documents (docstore w)))
    as [d|] eqn:Hfind; [|exact Hr].
  destruct (docstore_updateDocument_effect pnId
              (mkPartial None None None None None None None
                         (Some (negb (FBMdcFavorite d)))
                         None None None None None None None None) w Hf)
    as (l & w' & E & _ & _ & Hdb & Hl & HF).
  rewrite E in Hr. subst r. cbn [fst snd]. cbn in Hdb, HF.
  split; [reflexivity|]. split.
  - pose proof (fun H => find_refreshed pnId _ _ l H HF) as Hfl.
    specialize (Hfl eq_refl). rewrite Hfind in Hfl.
    destruct Hfl as [now Hfl]. rewrite Hl.
    eexists. split; [exact Hfl|]. repeat split; reflexivity.
  - intros stored Hget. rewrite Hdb, get_update by (intros; reflexivity).
    rewrite Hget. eexists. repeat split; reflexivity.
Qed.

(** X12. [loadDocuments] never throws and always ends with [isLoading]
    off.  When the database rejects the request the list is kept and one
    line is logged; when it answers, the list is the stored documents by
    descending [FDMdcModified]. *)
Theorem loadDocuments_always_finishes (w : World) :
  let r := useDocumentStore.loadDocuments w in
  fst r = Ok tt /\
  DocumentStore.isLoading (docstore (snd r)) = false /\
  (forall fs, faults w = true :: fs ->
     DocumentStore.documents (docstore (snd r)) = DocumentStore.documents (docstore w) /\
     console (snd r) = console w ++ ["Error loading documents:"]) /\
  (forall fs, faults w = [] \/ faults w = false :: fs ->
     console (snd r) = console w /\
     DocumentStore.documents (docstore (snd r)) =
       Table.orderBy_reverse mMarkdownDB.modified_index (db_tMDDocument w) /\
     forall A B, before (DocumentStore.documents (docstore (snd r))) A B ->
                 (FDMdcModified A >= FDMdcModified B)%Z).
Proof.
  intros r. subst r. split; [|split; [|split]].
  - open_store. exec; reflexivity.
  - open_store. exec; reflexivity.
  - intros fs Hf. open_store. exec. split; reflexivity.
  - intros fs Hf.
    assert (Hrun : console (snd (useDocumentStore.loadDocuments w)) = console w /\
                   DocumentStore.documents
                     (docstore (snd (useDocumentStore.loadDocuments w))) =
                   Table.orderBy_reverse mMarkdownDB.modified_index (db_tMDDocument w)).
    { destruct Hf as [Hf | Hf]; open_store; exec; split; reflexivity. }
    destruct Hrun as [Hc Hd]. split; [exact Hc|]. split; [exact Hd|].
    rewrite Hd. intros A B Hab.
    apply orderBy_reverse_descending in Hab as (ta & tb & Ha & Hb & Hle).
    unfold mMarkdownDB.modified_index in Ha, Hb. congruence.
Qed.


(** ** More on strings *)

Lemma string_app_assoc (a b c : string) : ((a ++ b) ++ c)%string = (a ++ b ++ c)%string.
Proof. induction a as [|x a IH]; simpl; [reflexivity | rewrite IH; reflexivity]. Qed.

Lemma string_app_length (a b : string) :
  String.length (a ++ b)%string = String.length a + String.length b.
Proof. induction a as [|x a IH]; simpl; [reflexivity | rewrite IH; reflexivity]. Qed.

Lemma substring0_length (n : nat) (s : string) :
  String.length (String.substring 0 n s) = Nat.min n (String.length s).
Proof.
  revert s. induction n as [|n IH]; intros [|c s]; simpl; try reflexivity.
  rewrite IH. reflexivity.
Qed.

Lemma substring0_prefix (n : nat) (s : string) :
  exists rest, s = (String.substring 0 n s ++ rest)%string.
Proof.
  revert s. induction n as [|n IH]; intros [|c s]; simpl.
  - exists "". reflexivity.
  - exists (String c s). reflexivity.
  - exists "". reflexivity.
  - destruct (IH s) as [rest Hr]. exists rest. congruence.
Qed.

Lemma substring_of_refl (s : string) : substring_of s s.
Proof.
  exists "", "". simpl. induction s as [|c s IH]; simpl; [reflexivity | congruence].
Qed.

Lemma substring_of_trans (a b c : string) :
  substring_of a b -> substring_of b c -> substring_of a c.
Proof.
  intros (p & q & ->) (p' & q' & ->).
  exists (p' ++ p)%string, (q ++ q')%string.
  rewrite !string_app_assoc. reflexivity.
Qed.

Lemma toLowerCase_app (a b : string) :
  JS.toLowerCase (a ++ b) = (JS.toLowerCase a ++ JS.toLowerCase b)%string.
Proof. induction a as [|x a IH]; simpl; [reflexivity | rewrite IH; reflexivity]. Qed.

Lemma toLowerCase_join (l : list string) :
  JS.toLowerCase (JS.join_lines l) = JS.join_lines (map JS.toLowerCase l).
Proof.
  unfold JS.join_lines. induction l as [|x [|y l] IH]; [reflexivity | reflexivity |].
  change (String.concat (String JS.LF "") (x :: y :: l))
    with (x ++ String JS.LF "" ++ String.concat (String JS.LF "") (y :: l))%string.
  rewrite !toLowerCase_app, IH. reflexivity.
Qed.

Lemma in_join_lines (x : string) (l : list string) :
  In x l -> substring_of x (JS.join_lines l).
Proof.
  unfold JS.join_lines. induction l as [|y [|z l] IH]; intros Hin.
  - destruct Hin.
  - destruct Hin as [<- | []]. apply substring_of_refl.
  - change (String.concat (String JS.LF "") (y :: z :: l))
      with (y ++ String JS.LF "" ++ String.concat (String JS.LF "") (z :: l))%string.
    destruct Hin as [<- | Hin].
    + exists "", (String JS.LF "" ++ String.concat (String JS.LF "") (z :: l))%string.
      reflexivity.
    + destruct (IH Hin) as (p & q & Hpq).
      exists (y ++ String JS.LF "" ++ p)%string, q.
      rewrite Hpq, !string_app_assoc. reflexivity.
Qed.

(** ** More on search *)

Lemma in_combine_seq {A} (l : list A) (start : nat) (x : A) (i : nat) :
  In (x, i) (combine l (seq start (length l))) ->
  start <= i /\ nth_error l (i - start) = Some x.
Proof.
  revert start. induction l as [|y l IH]; intros start; simpl; [intros []|].
  intros [H | H].
  - injection H as -> ->. rewrite Nat.sub_diag. split; [lia | reflexivity].
  - apply IH in H as [Hle Hn]. split; [lia|].
    replace (i - start) with (S (i - S start)) by lia. exact Hn.
Qed.

Lemma in_slice_around {A} (l : list A) (i : nat) (x : A) :
  nth_error l i = Some x ->
  In x (JS.slice (Nat.max 0 (i - 1)) (Nat.min (length l - 1) (i + 1) + 1) l).
Proof.
  intros Hn.
  assert (Hlt : i < length l) by (apply nth_error_Some; congruence).
  unfold JS.slice. apply (nth_error_In _ (i - Nat.max 0 (i - 1))).
  rewrite nth_error_firstn.
  destruct (Nat.ltb_spec (i - Nat.max 0 (i - 1))
              (Nat.min (length l - 1) (i + 1) + 1 - Nat.max 0 (i - 1))) as [_|Hge]; [|lia].
  rewrite nth_error_skipn. replace (Nat.max 0 (i - 1) + (i - Nat.max 0 (i - 1))) with i by lia.
  exact Hn.
Qed.

Lemma in_fold_push_context (aLines : list string) (lq : string)
  (entries : list (string * nat)) (acc : list string) (h : string) :
  In h (fold_left (sMarkdownService.push_context aLines lq) entries acc) ->
  In h acc \/
  exists line index,
    In (line, index) entries /\
    JS.includes (JS.toLowerCase line) lq = true /\
    h = JS.join_lines (JS.slice (Nat.max 0 (index - 1))
                                (Nat.min (length aLines - 1) (index + 1) + 1) aLines).
Proof.
  revert acc. induction entries as [|[line index] entries IH]; intros acc; simpl.
  - auto.
  - intros Hin. apply IH in Hin as [Hin | (l' & i' & Hin & Hm & Hh)].
    + destruct (JS.includes (JS.toLowerCase line) lq) eqn:Hm; [|left; exact Hin].
      apply in_app_or in Hin as [Hin | [<- | []]]; [left; exact Hin|].
      right. exists line, index. split; [left; reflexivity | split; [exact Hm | reflexivity]].
    + right. exists l', i'. split; [right; exact Hin | split; assumption].
Qed.

(** X13. Every highlight that [FSaMDKSearchInContent] returns contains the
    query, case ignored, and there are no more highlights than lines in the
    content. *)
Theorem highlights_contain_the_query (ptContent ptQuery h : string) :
  In h (sMarkdownService.FSaMDKSearchInContent ptContent ptQuery) ->
  ci_substring_of ptQuery h /\
  length (sMarkdownService.FSaMDKSearchInContent ptContent ptQuery) <=
    length (JS.split_lines ptContent).
Proof.
  unfold sMarkdownService.FSaMDKSearchInContent.
  destruct (negb (JS.truthy (JS.trim ptQuery))); [intros []|].
  intros Hin. split.
  - apply in_fold_push_context in Hin as [[] | (line & index & Hin & Hm & ->)].
    apply in_combine_seq in Hin as [_ Hn]. rewrite Nat.sub_0_r in Hn.
    unfold ci_substring_of. rewrite toLowerCase_join.
    apply (substring_of_trans _ (JS.toLowerCase line)).
    + apply includes_spec. exact Hm.
    + apply in_join_lines. apply in_map. apply in_slice_around. exact Hn.
  - rewrite fold_push_context_length, map_fst_combine_seq. simpl.
    apply filter_length_le.
Qed.

(** X14. Whatever the query, the search returns normally, sends no request
    and touches neither the table nor the document list; it records the
    query, and every result carries the identifier and title of a document
    of the list, at most three highlights and never more than its match
    count, and a content extract of at most 203 characters. *)
Theorem search_results_are_bounded (ptQuery : string) (w : World) :
  let w' := snd (useDocumentStore.searchDocuments ptQuery w) in
  fst (useDocumentStore.searchDocuments ptQuery w) = Ok tt /\
  calls w' = calls w /\ db_tMDDocument w' = db_tMDDocument w /\
  DocumentStore.documents (docstore w') = DocumentStore.documents (docstore w) /\
  DocumentStore.searchQuery (docstore w') = ptQuery /\
  forall r, In r (DocumentStore.searchResults (docstore w')) ->
    length (SearchResult.highlights r) <= 3 /\
    length (SearchResult.highlights r) <= SearchResult.matchCount r /\
    String.length (SearchResult.content r) <= 203 /\
    exists doc,
      In doc (DocumentStore.documents (docstore w)) /\
      SearchResult.documentId r = FNMdcId doc /\
      SearchResult.title r = FTMdcTitle doc.
Proof.
  intros w'. subst w'. destruct (blank ptQuery) eqn:Hq.
  - rewrite (searchDocuments_blank ptQuery w Hq). cbn.
    do 5 (split; [reflexivity|]). intros r [].
  - rewrite (searchDocuments_nonblank ptQuery w Hq). cbn.
    do 5 (split; [reflexivity|]). intros r Hr.
    apply (Permutation_in _ (sort_perm _ _)) in Hr.
    apply in_map_iff in Hr as (doc & <- & Hdoc).
    apply filter_In in Hdoc as [Hdoc _].
    unfold useDocumentStore.search_result.
    cbn [SearchResult.highlights SearchResult.matchCount SearchResult.content
         SearchResult.documentId SearchResult.title].
    unfold JS.slice. cbn [skipn].
    split; [rewrite length_firstn; lia|].
    split; [rewrite length_firstn; lia|].
    split; [rewrite string_app_length, substring0_length;
            change (String.length "...") with 3; lia|].
    exists doc. repeat split. exact Hdoc.
Qed.


(** ** The debounced save of the editor component *)

Lemma tracked_saves_cleared (w : World) (h : nat) :
  save_timer_tracked w ->
  autoSaveTimeoutRef w = Some h ->
  filter is_save_timer
         (filter (fun t => negb (Nat.eqb (handle t) h)) (timers (loop w))) = [].
Proof.
  intros Htr Href. rewrite filter_comm. fold (pending_saves w).
  assert (Hall : forall t, In t (pending_saves w) -> handle t = h).
  { intros t Ht. specialize (Htr t Ht). congruence. }
  induction (pending_saves w) as [|t l IH]; simpl; [reflexivity|].
  rewrite (Hall t (or_introl eq_refl)), Nat.eqb_refl. simpl.
  apply IH. intros t' Ht'. apply Hall. right. exact Ht'.
Qed.

Lemma untracked_no_saves (w : World) :
  save_timer_tracked w -> autoSaveTimeoutRef w = None -> pending_saves w = [].
Proof.
  intros Htr Href. destruct (pending_saves w) as [|t l] eqn:E; [reflexivity|].
  specialize (Htr t). rewrite E in Htr. specialize (Htr (or_introl eq_refl)). congruence.
Qed.

(** One change, with a document open: the draft is replaced, the save timers
    that were pending are cleared and exactly one is pending, due two
    seconds from now and held by the ref. *)
Lemma handleContentChange_rearms (newContent : string) (w : World)
  (cur : MarkdownDocument) :
  save_timer_tracked w ->
  EditorStore.currentDocument (editor w) = Some cur ->
  let w' := snd (OMarkdownEditor.handleContentChange newContent w) in
  EditorStore.content (editor w') = Some newContent /\
  exists h,
    pending_saves w' =
      [mkTimer h (time (loop w) + 2000)%Z SaveCurrentDocumentCallback] /\
    autoSaveTimeoutRef w' = Some h.
Proof.
  intros Htr Hcur w'. subst w'.
  unfold OMarkdownEditor.handleContentChange, useEditorStore.setContent,
    useEditorStore.get, useEditorStore.set, get_world, setTimeout, clearTimeout,
    bind, ret.
  cbn. rewrite Hcur. cbn.
  destruct (AppSettings.autoSave (EditorStore.settings (editor w))); cbn;
    destruct (autoSaveTimeoutRef w) as [h0|] eqn:Href; cbn.
  all: split; [reflexivity|]; eexists; split; [|reflexivity].
  all: unfold pending_saves; cbn; rewrite ?filter_app; cbn.
  - rewrite (tracked_saves_cleared w h0 Htr Href).
    match goal with |- context [if ?b then _ else _] => destruct b end; reflexivity.
  - fold (pending_saves w). rewrite (untracked_no_saves w Htr Href). reflexivity.
  - rewrite (tracked_saves_cleared w h0 Htr Href). reflexivity.
  - fold (pending_saves w). rewrite (untracked_no_saves w Htr Href). reflexivity.
Qed.

Lemma handleContentChange_frame (newContent : string) (w : World) :
  let w' := snd (OMarkdownEditor.handleContentChange newContent w) in
  EditorStore.currentDocument (editor w') = EditorStore.currentDocument (editor w) /\
  time (loop w') = time (loop w) /\
  calls w' = calls w.
Proof.
  unfold OMarkdownEditor.handleContentChange, useEditorStore.setContent,
    useEditorStore.get, useEditorStore.set, get_world, setTimeout, clearTimeout,
    bind, ret.
  cbn. destruct (EditorStore.currentDocument (editor w)) as [cur|] eqn:Hcur; cbn;
    [|rewrite Hcur; repeat split].
  destruct (AppSettings.autoSave (EditorStore.settings (editor w))); cbn;
    destruct (autoSaveTimeoutRef w) as [h0|]; cbn; rewrite ?Hcur; repeat split.
Qed.

(** X15. The save of the editor component is debounced.  From a state where
    the ref holds the pending save timers and at most one is pending, any
    sequence of content changes leaves at most one save timer pending, held
    by the ref, and sends no request; with a document open, after the last
    change exactly one is pending, due two seconds from now, and the draft
    is the last text. *)
Theorem editor_save_is_debounced (texts : list string) (last : string) (w : World) :
  save_timer_tracked w ->
  length (pending_saves w) <= 1 ->
  let play := fold_left (fun w text => snd (OMarkdownEditor.handleContentChange text w)) in
  let w' := play (texts ++ [last]) w in
  save_timer_tracked w' /\ length (pending_saves w') <= 1 /\
  calls w' = calls w /\
  (EditorStore.currentDocument (editor w) <> None ->
   EditorStore.content (editor w') = Some last /\
   exists h,
     pending_saves w' =
       [mkTimer h (time (loop w) + 2000)%Z SaveCurrentDocumentCallback] /\
     autoSaveTimeoutRef w' = Some h).
Proof.
  intros Htr Hone play w'.
  assert (Hinv : forall ts v,
             save_timer_tracked v -> length (pending_saves v) <= 1 ->
             save_timer_tracked (play ts v) /\ length (pending_saves (play ts v)) <= 1 /\
             EditorStore.currentDocument (editor (play ts v)) =
               EditorStore.currentDocument (editor v) /\
             time (loop (play ts v)) = time (loop v) /\
             calls (play ts v) = calls v).
  { induction ts as [|text ts IH]; intros v Hv1 Hv2; simpl.
    - repeat split; assumption.
    - destruct (handleContentChange_frame text v) as (Hc & Ht & Hk).
      rewrite <- Hc, <- Ht, <- Hk. apply IH.
      + destruct (EditorStore.currentDocument (editor v)) as [cur|] eqn:Hcur.
        * destruct (handleContentChange_rearms text v cur Hv1 Hcur) as (_ & h & Hp & Hr).
          intros t Hin. rewrite Hp in Hin. destruct Hin as [<- | []]. exact Hr.
        * unfold OMarkdownEditor.handleContentChange, bind, useEditorStore.get.
          cbn. rewrite Hcur. exact Hv1.
      + destruct (EditorStore.currentDocument (editor v)) as [cur|] eqn:Hcur.
        * destruct (handleContentChange_rearms text v cur Hv1 Hcur) as (_ & h & Hp & _).
          rewrite Hp. simpl. lia.
        * unfold OMarkdownEditor.handleContentChange, bind, useEditorStore.get.
          cbn. rewrite Hcur. exact Hv2. }
  destruct (Hinv (texts ++ [last]) w Htr Hone) as (H1 & H2 & _ & _ & H5).
  fold w' in H1, H2, H5. split; [exact H1|]. split; [exact H2|]. split; [exact H5|].
  intros Hopen. subst w'. unfold play. rewrite fold_left_app. fold (play texts w).
  destruct (Hinv texts w Htr Hone) as (G1 & _ & G3 & G4 & _).
  destruct (EditorStore.currentDocument (editor w)) as [cur|] eqn:Hcur; [|contradiction].
  simpl. rewrite <- G4.
  exact (handleContentChange_rearms last (play texts w) cur G1 G3).
Qed.


(** ** More actions of the editor store *)

(** X16. [updateDocument] of the editor store, when the database answers:
    the stored record of the current document takes the updates and, as
    [updatedAt], what [new Date()] reads when the call starts; it becomes
    the current document, and the draft is replaced by its stored content,
    so that an unsaved draft is lost unless the updates carry it. *)
Theorem editor_update_replaces_draft (w : World) (cur stored : MarkdownDocument)
  (k : string) (updates : Partial) :
  faults w = [] ->
  EditorStore.currentDocument (editor w) = Some cur ->
  id cur = Some k ->
  pid updates = None ->
  Table.get String.eqb DatabaseService.primary_key k (db_documents w) = Some stored ->
  let r := useEditorStore.updateDocument updates w in
  fst r = Ok tt /\
  exists now d,
    fst (newDate w) = Ok now /\
    updatedAt d = Some now /\
    d = spread stored (DatabaseService.set_updatedAt now updates) /\
    Table.get String.eqb DatabaseService.primary_key k (db_documents (snd r)) = Some d /\
    EditorStore.currentDocument (editor (snd r)) = Some d /\
    EditorStore.content (editor (snd r)) = or_keep (pcontent updates) (content stored) /\
    EditorStore.documents (editor (snd r)) =
      Table.orderBy_reverse updatedAt (db_documents (snd r)).
Proof.
  intros Hf Hcur Hid Hpid Hget r. subst r.
  assert (Hkey : forall now d,
             DatabaseService.primary_key
               (spread d (DatabaseService.set_updatedAt now updates)) =
             DatabaseService.primary_key d).
  { intros now d. unfold DatabaseService.primary_key. cbn. rewrite Hpid. reflexivity. }
  open_store. exec.
  repeat (rewrite get_update by (intros; apply Hkey); exec).
  split; [reflexivity|]. exists (hd 0%Z (clock w)). eexists.
  split; [rewrite ?newDate_eq; reflexivity|].
  split; [|split; [reflexivity|]].
  2: { rewrite ?get_update by (intros; apply Hkey). rewrite ?Hget.
       repeat split; reflexivity. }
  reflexivity.
Qed.

(** X17. Deleting the current document, when the database answers, clears
    the current document and empties the draft; the identifier no longer
    reads from the table and no document of the reloaded list has it. *)
Theorem delete_current_clears_editor (w : World) (cur : MarkdownDocument) (k : string) :
  faults w = [] ->
  EditorStore.currentDocument (editor w) = Some cur ->
  id cur = Some k ->
  let w' := snd (useEditorStore.deleteDocument k w) in
  EditorStore.currentDocument (editor w') = None /\
  EditorStore.content (editor w') = Some "" /\
  fst (DatabaseService.getDocument k w') = Ok None /\
  forall d, In d (EditorStore.documents (editor w')) -> id d <> Some k.
Proof.
  intros Hf Hcur Hid w'.
  destruct (editor_delete_run k w Hf) as (_ & Hf' & _ & Hdb & Hed).
  fold w' in Hf', Hdb, Hed.
  assert (Hc : useEditorStore.is_current k (editor w) = true).
  { unfold useEditorStore.is_current. rewrite Hcur, Hid. apply String.eqb_refl. }
  rewrite Hc in Hed. rewrite Hed. cbn.
  split; [reflexivity|]. split; [reflexivity|]. split.
  - rewrite (getDocument_answer k w' Hf'), Hdb.
    rewrite (get_delete_same String.eqb DatabaseService.primary_key). reflexivity.
  - intros d Hin Hd.
    apply (Permutation_in _ (orderBy_reverse_perm _ _)) in Hin.
    apply filter_In in Hin as [Hin _]. unfold Table.delete in Hin.
    apply filter_In in Hin as [_ Hk]. unfold Table.has_key, DatabaseService.primary_key in Hk.
    rewrite Hd, String.eqb_refl in Hk. discriminate.
Qed.

(** X18. [loadDocument] never writes: whatever the database answers, the
    table is unchanged.  When it answers, a stored identifier makes its
    record the current document and its content the draft, and a missing
    identifier changes nothing in the editor. *)
Theorem loadDocument_shows_stored_record (w : World) (k : string) :
  let w' := snd (useEditorStore.loadDocument k w) in
  db_documents w' = db_documents w /\
  (faults w = [] ->
   match Table.get String.eqb DatabaseService.primary_key k (db_documents w) with
   | Some d =>
       EditorStore.currentDocument (editor w') = Some d /\
       EditorStore.content (editor w') = content d /\
       id d = Some k
   | None => editor w' = editor w
   end).
Proof.
  intros w'. subst w'. split.
  - open_store. exec; try reflexivity.
    all: destruct (Table.get String.eqb DatabaseService.primary_key k _); reflexivity.
  - intros Hf. open_store. exec.
    destruct (Table.get String.eqb DatabaseService.primary_key k (db_documents w))
      as [d|] eqn:Hget; cbn; [|reflexivity].
    repeat split.
    apply (get_some_key String.eqb DatabaseService.primary_key string_eqb_iff) in Hget.
    apply Hget.
Qed.

(** ** Truncated texts and previews *)

Lemma substring_head (n : nat) (s : string) :
  JSMore.substring 0 n s = String.substring 0 n s.
Proof. unfold JSMore.substring. rewrite Nat.min_0_l, Nat.max_0_l, Nat.sub_0_r. reflexivity. Qed.

Lemma substring0_all (n : nat) (s : string) :
  String.length s <= n -> String.substring 0 n s = s.
Proof.
  revert s. induction n as [|n IH]; intros [|c s] H; simpl in *; try reflexivity; try lia.
  rewrite IH by lia. reflexivity.
Qed.

Lemma substring0_app (n : nat) (a b : string) :
  n <= String.length a -> String.substring 0 n (a ++ b) = String.substring 0 n a.
Proof.
  revert a. induction n as [|n IH]; intros [|c a] H; simpl in *; try lia.
  - destruct b; reflexivity.
  - reflexivity.
  - rewrite IH by lia. reflexivity.
Qed.

(** X19. [FStTXTTruncateText] returns a text no longer than the limit or
    than the suffix, whichever is larger: a text within the limit is
    returned as it is, a longer one is cut to a head of it followed by the
    suffix; and truncating twice is truncating once. *)
Theorem truncated_text_is_bounded (ptText ptSuffix : string) (pnMaxLength : Z) :
  let r := uTextUtils.FStTXTTruncateText ptText pnMaxLength ptSuffix in
  (Z.of_nat (String.length r) <=
     Z.max pnMaxLength (Z.of_nat (String.length ptSuffix)))%Z /\
  ((Z.of_nat (String.length ptText) <= pnMaxLength)%Z -> r = ptText) /\
  ((pnMaxLength < Z.of_nat (String.length ptText))%Z ->
   exists head rest,
     ptText = (head ++ rest)%string /\ r = (head ++ ptSuffix)%string /\
     Z.of_nat (String.length head) =
       Z.max 0 (pnMaxLength - Z.of_nat (String.length ptSuffix))) /\
  uTextUtils.FStTXTTruncateText r pnMaxLength ptSuffix = r.
Proof.
  intros r. subst r. unfold uTextUtils.FStTXTTruncateText.
  rewrite !substring_head.
  set (n := Z.to_nat (pnMaxLength - Z.of_nat (String.length ptSuffix))).
  destruct (Z.leb_spec (Z.of_nat (String.length ptText)) pnMaxLength) as [Hle|Hgt].
  - split; [lia|]. split; [reflexivity|]. split; [lia|].
    destruct (Z.leb_spec (Z.of_nat (String.length ptText)) pnMaxLength); [reflexivity | lia].
  - assert (Hlen : String.length (String.substring 0 n ptText) = n).
    { rewrite substring0_length. subst n. lia. }
    split; [rewrite string_app_length, Hlen; subst n; lia|].
    split; [lia|]. split.
    + intros _. destruct (substring0_prefix n ptText) as [rest Hrest].
      exists (String.substring 0 n ptText), rest.
      split; [exact Hrest|]. split; [reflexivity|]. rewrite Hlen. subst n. lia.
    + rewrite string_app_length, Hlen.
      destruct (Z.leb_spec (Z.of_nat (n + String.length ptSuffix)) pnMaxLength)
        as [Hfit|Hover]; [reflexivity|].
      rewrite substring0_app by (rewrite Hlen; lia).
      rewrite (substring0_all n) by (rewrite Hlen; lia).
      reflexivity.
Qed.

(** The preview of the file manager is the content when it has at
    most 100 characters, and otherwise its first 100 characters and an
    ellipsis; it is never longer than 103 characters, and the preview of a
    preview is that preview. *)
Theorem preview_is_bounded (content : string) :
  let p := OFileManager.getDocumentPreview content in
  String.length p <= 103 /\
  (String.length content <= 100 -> p = content) /\
  (100 < String.length content ->
   exists rest, content = (String.substring 0 100 content ++ rest)%string /\
                p = (String.substring 0 100 content ++ "...")%string /\
                String.length p = 103) /\
  OFileManager.getDocumentPreview p = p.
Proof.
  intros p. subst p. unfold OFileManager.getDocumentPreview.
  rewrite !substring_head.
  destruct (Nat.ltb_spec 100 (String.length content)) as [Hlong|Hshort].
  - assert (Hlen : String.length (String.substring 0 100 content) = 100).
    { rewrite substring0_length. lia. }
    assert (Hp : String.length (String.substring 0 100 content ++ "...") = 103).
    { rewrite string_app_length, Hlen. reflexivity. }
    split; [lia|]. split; [lia|]. split.
    + intros _. destruct (substring0_prefix 100 content) as [rest Hrest].
      exists rest. repeat split; assumption.
    + rewrite Hp. change (100 <? 103)%nat with true. cbv iota.
      rewrite substring0_app by lia.
      rewrite (substring0_all 100) by lia. reflexivity.
  - split; [lia|]. split; [reflexivity|]. split; [lia|].
    destruct (Nat.ltb_spec 100 (String.length content)); [lia | reflexivity].
Qed.

(** ** Sorting and filtering documents *)

Section SortMore.
Context {A : Type} (cmp : A -> A -> Z) (k : A -> Z).
Hypothesis cmp_key : forall x y, (cmp x y >? 0)%Z = (k y <? k x)%Z.

(** A list whose keys are all the same is left as it is. *)
Lemma sort_same_key (c : Z) (l : list A) :
  Forall (fun x => k x = c) l -> JS.sort cmp l = l.
Proof.
  induction 1 as [|x l Hx Hl IH]; simpl; [reflexivity|].
  rewrite IH. apply (sort_insert_least cmp k cmp_key).
  eapply Forall_impl; [|exact Hl]. simpl. intros z Hz. lia.
Qed.

(** The sort is stable: the elements of one key keep their order. *)
Lemma sort_stable (c : Z) (l : list A) :
  filter (fun x => (k x =? c)%Z) (JS.sort cmp l) = filter (fun x => (k x =? c)%Z) l.
Proof.
  rewrite (filter_sort cmp k cmp_key).
  apply (sort_same_key c). apply Forall_forall. intros x Hx.
  apply filter_In in Hx as [_ Hx]. apply Z.eqb_eq. exact Hx.
Qed.

End SortMore.

Lemma compare_key (localeCompare : string -> string -> Z)
  (ptSortBy : uDocumentUtils.SortBy.t) (ptOrder : uDocumentUtils.Order.t) :
  ptSortBy <> uDocumentUtils.SortBy.title ->
  let sign := match ptOrder with
              | uDocumentUtils.Order.asc => 1%Z
              | uDocumentUtils.Order.desc => (-1)%Z
              end in
  forall x y,
    (uDocumentUtils.compare localeCompare ptSortBy ptOrder x y >? 0)%Z =
    (sign * sort_key ptSortBy y <? sign * sort_key ptSortBy x)%Z.
Proof.
  intros Hby sign x y. subst sign.
  rewrite Z.gtb_ltb.
  destruct ptSortBy; [contradiction| | |]; destruct ptOrder;
    unfold uDocumentUtils.compare, sort_key;
    match goal with
    | |- (?a <? ?b)%Z = (?c <? ?d)%Z =>
        destruct (Z.ltb_spec a b), (Z.ltb_spec c d); (reflexivity || lia)
    end.
Qed.

(** X20. [FSaDocSortDocuments] returns the documents it was given, each as
    often as it was given, whatever [localeCompare] is.  For the criteria
    [created], [modified] and [size] the result is in the order asked for,
    and it is stable: the documents of one key keep the order they had. *)
Theorem sorted_documents_are_ordered (localeCompare : string -> string -> Z)
  (paDocuments : list MarkdownDocument)
  (ptSortBy : uDocumentUtils.SortBy.t) (ptOrder : uDocumentUtils.Order.t) :
  let r := uDocumentUtils.FSaDocSortDocuments localeCompare paDocuments ptSortBy ptOrder in
  Permutation r paDocuments /\
  (ptSortBy <> uDocumentUtils.SortBy.title ->
   StronglySorted
     (fun a b => in_order ptOrder (sort_key ptSortBy a) (sort_key ptSortBy b)) r /\
   forall key,
     filter (fun d => (sort_key ptSortBy d =? key)%Z) r =
     filter (fun d => (sort_key ptSortBy d =? key)%Z) paDocuments).
Proof.
  intros r. subst r. unfold uDocumentUtils.FSaDocSortDocuments.
  split; [apply sort_perm|].
  intros Hby. pose proof (compare_key localeCompare ptSortBy ptOrder Hby) as Hkey.
  cbv zeta in Hkey. split.
  - eapply StronglySorted_weaken; [|exact (sort_sorted _ _ Hkey paDocuments)].
    intros a b Hab. unfold in_order. destruct ptOrder; lia.
  - intros key.
    destruct ptOrder.
    + pose proof (sort_stable _ _ Hkey (1 * key)%Z paDocuments) as Hst.
      erewrite (filter_ext _ (fun d => (1 * sort_key ptSortBy d =? 1 * key)%Z)),
        (filter_ext (fun d => (sort_key ptSortBy d =? key)%Z)
                    (fun d => (1 * sort_key ptSortBy d =? 1 * key)%Z));
        [exact Hst | |];
        intros d; destruct (Z.eqb_spec (sort_key ptSortBy d) key),
                    (Z.eqb_spec (1 * sort_key ptSortBy d) (1 * key)); reflexivity || lia.
    + pose proof (sort_stable _ _ Hkey (-1 * key)%Z paDocuments) as Hst.
      erewrite (filter_ext _ (fun d => (-1 * sort_key ptSortBy d =? -1 * key)%Z)),
        (filter_ext (fun d => (sort_key ptSortBy d =? key)%Z)
                    (fun d => (-1 * sort_key ptSortBy d =? -1 * key)%Z));
        [exact Hst | |];
        intros d; destruct (Z.eqb_spec (sort_key ptSortBy d) key),
                    (Z.eqb_spec (-1 * sort_key ptSortBy d) (-1 * key)); reflexivity || lia.
Qed.

Lemma filter_split {A} (p : A -> bool) (l l1 l2 : list A) (x : A) :
  filter p l = l1 ++ x :: l2 ->
  exists m1 m2, l = m1 ++ x :: m2 /\ filter p m1 = l1 /\ filter p m2 = l2.
Proof.
  revert l1. induction l as [|y l IH]; intros l1 H; simpl in H.
  - destruct l1; discriminate.
  - destruct (p y) eqn:Hy.
    + destruct l1 as [|z l1]; simpl in H.
      * injection H as -> H. exists [], l. simpl. auto.
      * injection H as -> H. destruct (IH l1 H) as (m1 & m2 & -> & H1 & H2).
        exists (z :: m1), m2. simpl. rewrite Hy, H1. auto.
    + destruct (IH l1 H) as (m1 & m2 & -> & H1 & H2).
      exists (y :: m1), m2. simpl. rewrite Hy. auto.
Qed.

(** Filtering keeps the order. *)
Lemma before_filter {A} (p : A -> bool) (l : list A) (a b : A) :
  before (filter p l) a b -> before l a b.
Proof.
  intros (l1 & l2 & l3 & H).
  apply filter_split in H as (m1 & m & -> & _ & H).
  apply filter_split in H as (m2 & m3 & -> & _ & _).
  exists m1, m2, m3. reflexivity.
Qed.

Lemma array_includes_spec (a : list string) (x : string) :
  JSMore.array_includes a x = true <-> In x a.
Proof.
  unfold JSMore.array_includes. rewrite existsb_exists. split.
  - intros (y & Hin & Heq). apply String.eqb_eq in Heq. subst y. exact Hin.
  - intros Hin. exists x. split; [exact Hin | apply String.eqb_refl].
Qed.

(** With a search text and no other filter, [FSaDocFilterDocuments] makes
    the test of [searchDocuments]. *)
Lemma keeps_search (q : string) (doc : MarkdownDocument) :
  q <> "" ->
  uDocumentUtils.keeps (uDocumentUtils.Filters.mk (Some q) None None None) doc =
  doc_matchesb q doc.
Proof.
  intros Hq. unfold uDocumentUtils.keeps, doc_matchesb, useDocumentStore.bTitleMatch,
    useDocumentStore.bContentMatch, useDocumentStore.bTagsMatch.
  cbn [uDocumentUtils.Filters.search uDocumentUtils.Filters.tags
       uDocumentUtils.Filters.favorites uDocumentUtils.Filters.dateRange].
  unfold JS.truthy. destruct (String.eqb_spec q ""); [contradiction|].
  cbn [negb andb].
  destruct (JS.includes (JS.toLowerCase (FTMdcTitle doc)) (JS.toLowerCase q)),
    (JS.includes (JS.toLowerCase (FTMdcContent doc)) (JS.toLowerCase q)),
    (match FTMdcTags doc with
     | Some ts => JS.some (fun tag => JS.includes (JS.toLowerCase tag) (JS.toLowerCase q)) ts
     | None => false
     end); reflexivity.
Qed.

Lemma keeps_spec (f : uDocumentUtils.Filters.t) (doc : MarkdownDocument) :
  uDocumentUtils.keeps f doc = true <-> passes f doc.
Proof.
  destruct f as [s t fav dr]. unfold passes.
  cbn [uDocumentUtils.Filters.search uDocumentUtils.Filters.tags
       uDocumentUtils.Filters.favorites uDocumentUtils.Filters.dateRange].
  assert (Hs : uDocumentUtils.keeps (uDocumentUtils.Filters.mk s None None None) doc = true
               <-> (forall q, s = Some q -> q <> "" -> doc_matches q doc)).
  { destruct s as [q|].
    - destruct (String.eqb_spec q "") as [->|Hq].
      + split; [intros _ q Hq Hne; injection Hq as <-; contradiction | reflexivity].
      + rewrite (keeps_search q doc Hq), doc_matchesb_spec. split.
        * intros H q' Hq' _. injection Hq' as <-. exact H.
        * intros H. exact (H q eq_refl Hq).
    - split; [intros _ q Hq; discriminate | reflexivity]. }
  assert (Ht : uDocumentUtils.keeps (uDocumentUtils.Filters.mk None t None None) doc = true
               <-> (forall ts, t = Some ts -> ts <> [] ->
                               exists tag dts, In tag ts /\ FTMdcTags doc = Some dts /\
                                               In tag dts)).
  { unfold uDocumentUtils.keeps.
    cbn [uDocumentUtils.Filters.search uDocumentUtils.Filters.tags
         uDocumentUtils.Filters.favorites uDocumentUtils.Filters.dateRange].
    destruct t as [[|tag0 ts]|]; cbn [length Nat.ltb Nat.leb andb].
    - split; [intros _ ts Hts Hne; injection Hts as <-; contradiction | reflexivity].
    - match goal with
      | |- (if negb ?b then _ else _) = _ <-> _ => destruct b eqn:Hsome
      end; cbn [negb]; unfold JS.some in Hsome.
      + split; [|reflexivity]. intros _ ts' Hts _. injection Hts as <-.
        apply existsb_exists in Hsome as (tag & Hin & Hinc).
        apply array_includes_spec in Hinc.
        destruct (FTMdcTags doc) as [dts|]; [|destruct Hinc].
        exists tag, dts. auto.
      + split; [discriminate|]. intros H.
        destruct (H (tag0 :: ts) eq_refl ltac:(discriminate)) as (tag & dts & Hin & Hd & Hin').
        assert (Hex : existsb (fun tag => JSMore.array_includes
                                            (or_else (FTMdcTags doc) []) tag)
                              (tag0 :: ts) = true).
        { apply existsb_exists. exists tag. split; [exact Hin|].
          apply array_includes_spec. rewrite Hd. exact Hin'. }
        congruence.
    - split; [intros _ ts Hts; discriminate | reflexivity]. }
  assert (Hf : (match fav with
                | Some favorites => negb (Bool.eqb (FBMdcFavorite doc) favorites)
                | None => false
                end = false) <-> (forall b, fav = Some b -> FBMdcFavorite doc = b)).
  { destruct fav as [b|].
    - destruct (FBMdcFavorite doc), b; cbn; split; intros H; try reflexivity;
        try discriminate; try (intros b' Hb'; injection Hb' as <-; reflexivity);
        specialize (H _ eq_refl); discriminate.
    - split; [intros _ b Hb; discriminate | reflexivity]. }
  assert (Hd : (match dr with
                | Some (dStart, dEnd) =>
                    (FDMdcModified doc <? dStart)%Z || (FDMdcModified doc >? dEnd)%Z
                | None => false
                end = false) <->
               (forall s e, dr = Some (s, e) -> (s <= FDMdcModified doc <= e)%Z)).
  { destruct dr as [[ds de]|].
    - rewrite orb_false_iff, Z.ltb_ge, Z.gtb_ltb, Z.ltb_ge. split.
      + intros H s' e' He. injection He as <- <-. exact H.
      + intros H. exact (H ds de eq_refl).
    - split; [intros _ s' e' He; discriminate | tauto]. }
  rewrite <- Hs, <- Ht, <- Hf, <- Hd. clear Hs Ht Hf Hd.
  unfold uDocumentUtils.keeps.
  cbn [uDocumentUtils.Filters.search uDocumentUtils.Filters.tags
       uDocumentUtils.Filters.favorites uDocumentUtils.Filters.dateRange].
  repeat match goal with
         | |- context [if ?b then false else _] =>
             lazymatch b with
             | false => fail
             | true => fail
             | _ => destruct b
             end
         end; intuition congruence.
Qed.

(** X21. [FSaDocFilterDocuments] keeps exactly the documents that pass every
    filter that is set, in the order they had: the search text, unless
    empty, occurs in title, content or a tag, case ignored; one of the tags
    asked for, if any, is a tag of the document; the favourite flag is the
    one asked for; and [FDMdcModified] lies in the date range, bounds
    included.  With no filter set every document is kept. *)
Theorem filtered_documents_pass_the_filters (paDocuments : list MarkdownDocument)
  (poFilters : uDocumentUtils.Filters.t) :
  let r := uDocumentUtils.FSaDocFilterDocuments paDocuments poFilters in
  (forall doc, In doc r <-> In doc paDocuments /\ passes poFilters doc) /\
  (forall a b, before r a b -> before paDocuments a b) /\
  uDocumentUtils.FSaDocFilterDocuments r poFilters = r /\
  uDocumentUtils.FSaDocFilterDocuments paDocuments
    (uDocumentUtils.Filters.mk None None None None) = paDocuments.
Proof.
  intros r. subst r. unfold uDocumentUtils.FSaDocFilterDocuments.
  split; [|split; [|split]].
  - intros doc. rewrite filter_In, keeps_spec. reflexivity.
  - intros a b. apply before_filter.
  - apply filter_idempotent.
  - induction paDocuments as [|d l IH]; [reflexivity|].
    simpl. f_equal. exact IH.
Qed.

(** X22. The filter of the utilities and the search of the document store
    agree on a query that is not blank: the documents found are those that
    [FSaDocFilterDocuments] keeps for this search text.  They disagree on
    the empty query, for which the filter keeps every document and the
    store finds none. *)
Theorem filter_and_search_agree (ptQuery : string) (w : World) :
  let found :=
    DocumentStore.searchResults
      (docstore (snd (useDocumentStore.searchDocuments ptQuery w))) in
  let kept q :=
    uDocumentUtils.FSaDocFilterDocuments (DocumentStore.documents (docstore w))
      (uDocumentUtils.Filters.mk (Some q) None None None) in
  (blank ptQuery = false ->
   Permutation (map SearchResult.documentId found) (map FNMdcId (kept ptQuery))) /\
  (ptQuery = "" -> found = [] /\ kept ptQuery = DocumentStore.documents (docstore w)).
Proof.
  intros found kept. subst found kept. split.
  - intros Hq. rewrite (searchDocuments_nonblank ptQuery w Hq). cbn.
    assert (Hne : ptQuery <> "") by (intros ->; discriminate).
    unfold uDocumentUtils.FSaDocFilterDocuments.
    rewrite (filter_ext _ _ (fun d => keeps_search ptQuery d Hne)).
    etransitivity.
    + apply Permutation_map. apply sort_perm.
    + rewrite map_map. cbn. reflexivity.
  - intros ->. rewrite (searchDocuments_blank "" w eq_refl). cbn.
    split; [reflexivity|].
    unfold uDocumentUtils.FSaDocFilterDocuments.
    induction (DocumentStore.documents (docstore w)) as [|d l IH]; [reflexivity|].
    simpl. f_equal. exact IH.
Qed.

(** ** Search on the legacy properties *)

Lemma legacy_match_total (q : string) (doc : MarkdownDocument) :
  has_text doc -> legacy_match q doc = Ok (legacy_matchb q doc).
Proof.
  intros [Ht Hc]. unfold legacy_matchb, legacy_match.
  destruct (title doc) as [t|]; [|contradiction].
  destruct (JS.includes (JS.toLowerCase t) (JS.toLowerCase q)); [reflexivity|].
  destruct (content doc) as [c|]; [|contradiction].
  destruct (JS.includes (JS.toLowerCase c) (JS.toLowerCase q)); [reflexivity|].
  destruct (tags doc); reflexivity.
Qed.

Lemma legacy_matchb_spec (q : string) (doc : MarkdownDocument) :
  has_text doc -> (legacy_matchb q doc = true <-> legacy_matches q doc).
Proof.
  intros [Ht Hc]. unfold legacy_matchb, legacy_match, legacy_matches, ci_substring_of.
  destruct (title doc) as [t|]; [|contradiction].
  destruct (content doc) as [c|]; [|contradiction].
  destruct (JS.includes (JS.toLowerCase t) (JS.toLowerCase q)) eqn:Et.
  { split; [|reflexivity]. intros _. left. exists t. split; [reflexivity|].
    apply includes_spec. exact Et. }
  destruct (JS.includes (JS.toLowerCase c) (JS.toLowerCase q)) eqn:Ec.
  { split; [|reflexivity]. intros _. right. left. exists c. split; [reflexivity|].
    apply includes_spec. exact Ec. }
  assert (Hnt : ~ exists t', Some t = Some t' /\
                             substring_of (JS.toLowerCase q) (JS.toLowerCase t')).
  { intros (t' & Heq & Hsub). injection Heq as <-. apply includes_spec in Hsub. congruence. }
  assert (Hnc : ~ exists c', Some c = Some c' /\
                             substring_of (JS.toLowerCase q) (JS.toLowerCase c')).
  { intros (c' & Heq & Hsub). injection Heq as <-. apply includes_spec in Hsub. congruence. }
  destruct (tags doc) as [ts|].
  - unfold JS.some. rewrite existsb_exists. split.
    + intros (tag & Hin & Hinc). right. right. exists ts, tag.
      split; [reflexivity|]. split; [exact Hin | apply includes_spec; exact Hinc].
    + intros [H | [H | (ts' & tag & Heq & Hin & Hsub)]]; [contradiction | contradiction |].
      injection Heq as <-. exists tag. split; [exact Hin | apply includes_spec; exact Hsub].
  - split; [discriminate|].
    intros [H | [H | (ts' & tag & Heq & _)]]; [contradiction | contradiction | discriminate].
Qed.

Lemma filter_throwing_total (q : string) (docs : list MarkdownDocument) :
  Forall has_text docs ->
  filter_throwing (legacy_match q) docs = Ok (filter (legacy_matchb q) docs).
Proof.
  induction 1 as [|d docs Hd Hdocs IH]; simpl; [reflexivity|].
  rewrite (legacy_match_total q d Hd), IH. reflexivity.
Qed.

Lemma filter_throwing_throws (q : string) (docs : list MarkdownDocument)
  (d : MarkdownDocument) :
  In d docs -> title d = None ->
  exists e, filter_throwing (legacy_match q) docs = Throw e.
Proof.
  intros Hin Ht. induction docs as [|x docs IH]; [destruct Hin|]. simpl.
  destruct (legacy_match q x) as [b|e] eqn:Ex; [|exists e; reflexivity].
  destruct Hin as [-> | Hin].
  - unfold legacy_match in Ex. rewrite Ht in Ex. discriminate.
  - destruct (IH Hin) as [e He]. rewrite He. exists e. reflexivity.
Qed.

Lemma only_TypeError (q : string) (docs : list MarkdownDocument) (e : string) :
  filter_throwing (legacy_match q) docs = Throw e -> e = "TypeError".
Proof.
  induction docs as [|x docs IH]; simpl; [discriminate|].
  destruct (legacy_match q x) as [b|e'] eqn:Ex.
  - destruct (filter_throwing (legacy_match q) docs) as [l|e'']; [discriminate|].
    intros H. injection H as <-. apply IH. reflexivity.
  - intros H. injection H as <-. unfold legacy_match in Ex.
    destruct (title x); [|congruence].
    destruct (JS.includes _ _); [discriminate|].
    destruct (content x); [|congruence].
    destruct (JS.includes _ _); [discriminate|].
    destruct (tags x); discriminate.
Qed.

Lemma includes_empty (s : string) : JS.includes s "" = true.
Proof. apply includes_spec. exists "", s. reflexivity. Qed.

(** X23. [DatabaseService.searchDocuments], when the database answers and
    every record has the legacy title and content: it returns, in table
    order, exactly the records that have the query in title, content or a
    tag, case ignored, and changes no table; the empty query returns the
    whole table; and the file manager, filtering the same list by the same
    term, shows the same documents. *)
Theorem legacy_search_finds_matches (query : string) (w : World)
  (s : OFileManager.state) :
  faults w = [] ->
  Forall has_text (db_documents w) ->
  OFileManager.searchTerm s = query ->
  exists l,
    DatabaseService_search.searchDocuments query w =
      (Ok l, with_calls (calls w ++ [DocsToArray]) w) /\
    (forall d, In d l <-> In d (db_documents w) /\ legacy_matches query d) /\
    (forall a b, before l a b -> before (db_documents w) a b) /\
    (query = "" -> l = db_documents w) /\
    OFileManager.filteredDocuments (db_documents w) s = Ok l.
Proof.
  intros Hf Hall Hs. exists (filter (legacy_matchb query) (db_documents w)).
  split; [|split; [|split; [|split]]].
  - unfold DatabaseService_search.searchDocuments.
    rewrite request_answered by exact Hf.
    unfold bind, get_world. cbn [db_documents with_calls].
    rewrite (filter_throwing_total query _ Hall). reflexivity.
  - intros d. rewrite filter_In. split.
    + intros [Hin Hm]. split; [exact Hin|].
      apply legacy_matchb_spec; [|exact Hm].
      rewrite Forall_forall in Hall. exact (Hall d Hin).
    + intros [Hin Hm]. split; [exact Hin|].
      apply legacy_matchb_spec; [|exact Hm].
      rewrite Forall_forall in Hall. exact (Hall d Hin).
  - intros a b. apply before_filter.
  - intros ->. clear Hs. induction Hall as [|d docs [Ht _] _ IH]; [reflexivity|].
    simpl. rewrite IH. unfold legacy_matchb, legacy_match.
    destruct (title d) as [t|]; [|contradiction].
    change (JS.toLowerCase "") with "". rewrite includes_empty. reflexivity.
  - unfold OFileManager.filteredDocuments. rewrite Hs.
    apply filter_throwing_total. exact Hall.
Qed.

(** X24. One record without the legacy title makes every search fail: the
    promise of [DatabaseService.searchDocuments] is rejected with a
    [TypeError] whatever the query, and the file manager throws the same
    error when it renders the list. *)
Theorem search_fails_on_untitled_record (query : string) (w : World)
  (s : OFileManager.state) (d : MarkdownDocument) :
  faults w = [] ->
  In d (db_documents w) ->
  title d = None ->
  fst (DatabaseService_search.searchDocuments query w) = Throw "TypeError" /\
  db_documents (snd (DatabaseService_search.searchDocuments query w)) = db_documents w /\
  OFileManager.filteredDocuments (db_documents w) s = Throw "TypeError".
Proof.
  intros Hf Hin Ht.
  destruct (filter_throwing_throws query _ d Hin Ht) as [e He].
  pose proof (only_TypeError _ _ _ He) as ->.
  destruct (filter_throwing_throws (OFileManager.searchTerm s) _ d Hin Ht) as [e' He'].
  pose proof (only_TypeError _ _ _ He') as ->.
  unfold DatabaseService_search.searchDocuments.
  rewrite request_answered by exact Hf.
  unfold bind, get_world. cbn [db_documents with_calls].
  rewrite He. cbn. split; [reflexivity|]. split; [reflexivity|].
  exact He'.
Qed.

(** ** The file manager and the import button *)

Ltac open_manager :=
  unfold OFileManager.handleCreateDocument, OFileManager.handleDeleteDocument,
    OFileManager.onload, OToolbar_import.handleImport.

(** X25. Creating a document from the file manager.  A blank title does
    nothing.  Otherwise, when the database answers, the form is reset and
    the new record has the trimmed title, an empty content and size 0, and
    is the current document, without any alert; when the database rejects
    the request, one alert is shown, the form is left as it was and no
    record is stored. *)
Theorem file_manager_creates_empty_document (s : OFileManager.state) (w : World) :
  let r := OFileManager.handleCreateDocument s w in
  let ttl := JS.trim (OFileManager.newDocTitle s) in
  (blank (OFileManager.newDocTitle s) = true -> r = (Ok s, w)) /\
  (blank (OFileManager.newDocTitle s) = false ->
   (forall u us,
      faults w = [] -> uuids w = u :: us ->
      Table.get String.eqb DatabaseService.primary_key u (db_documents w) = None ->
      fst r = Ok (OFileManager.with_isCreating false
                    (OFileManager.with_newDocTitle "" s)) /\
      alerts (snd r) = alerts w /\
      exists d,
        Table.get String.eqb DatabaseService.primary_key u (db_documents (snd r)) =
          Some d /\
        EditorStore.currentDocument (editor (snd r)) = Some d /\
        title d = Some ttl /\ FTMdcTitle d = ttl /\ ttl <> "" /\
        content d = Some "" /\ FTMdcContent d = "" /\ FNMdcSize d = 0) /\
   (forall fs,
      faults w = true :: fs ->
      fst r = Ok s /\
      alerts (snd r) = alerts w ++ ["Failed to create document"] /\
      db_documents (snd r) = db_documents w /\ editor (snd r) = editor w)).
Proof.
  intros r ttl. subst r ttl. unfold OFileManager.handleCreateDocument.
  rewrite trim_falsy.
  destruct (blank (OFileManager.newDocTitle s)) eqn:Hb.
  - split; [reflexivity | discriminate].
  - split; [discriminate|]. intros _. split.
    + intros u us Hf Hu Hnone. open_store. unfold Table.add. exec.
      rewrite (get_insert String.eqb String.ltb DatabaseService.primary_key
                 string_eqb_refl) by (reflexivity || assumption).
      exec. split; [reflexivity|]. split; [reflexivity|]. eexists.
      rewrite (get_insert String.eqb String.ltb DatabaseService.primary_key
                 string_eqb_refl) by (reflexivity || assumption).
      repeat (split; [reflexivity|]).
      split; [|repeat split; reflexivity].
      intros He. pose proof (trim_falsy (OFileManager.newDocTitle s)) as Ht.
      rewrite Hb, He in Ht. discriminate.
    + intros fs Hf. open_store.
      destruct (uuids w) as [|u us] eqn:Hu; unfold randomUUID; exec;
        repeat split; reflexivity.
Qed.

(** [deleteDocument] of the editor store never alerts and never throws. *)
Lemma editor_delete_is_quiet (k : string) (w : World) :
  fst (useEditorStore.deleteDocument k w) = Ok tt /\
  alerts (snd (useEditorStore.deleteDocument k w)) = alerts w.
Proof.
  open_store. exec; try (split; reflexivity).
  all: destruct (useEditorStore.is_current k (editor w)); exec; split; reflexivity.
Qed.

(** X26. Deleting from the file manager never shows an alert.  Declined,
    it changes nothing; confirmed, it returns with the selection cleared
    whatever the database answers, so that a rejected deletion leaves the
    record in place and is only logged by the store. *)
Theorem file_manager_delete_never_alerts (confirmed : bool) (docId : string)
  (s : OFileManager.state) (w : World) :
  let r := OFileManager.handleDeleteDocument confirmed docId s w in
  alerts (snd r) = alerts w /\
  (confirmed = false -> r = (Ok s, w)) /\
  (confirmed = true ->
   fst r = Ok (OFileManager.with_selectedDocId None s) /\
   forall fs, faults w = true :: fs ->
     db_documents (snd r) = db_documents w /\
     console (snd r) = console w ++ ["Failed to delete document:"]).
Proof.
  intros r. subst r. unfold OFileManager.handleDeleteDocument.
  destruct confirmed.
  - destruct (editor_delete_is_quiet docId w) as [Hok Hal].
    unfold try_catch, bind.
    destruct (useEditorStore.deleteDocument docId w) as [[[]|e] w'] eqn:E;
      cbn in Hok, Hal; [|discriminate].
    cbn. split; [exact Hal|]. split; [discriminate|]. intros _.
    split; [reflexivity|]. intros fs Hf.
    assert (Hrun : useEditorStore.deleteDocument docId w =
                   (Ok tt, with_console (console w ++ ["Failed to delete document:"])
                             (with_faults fs (with_calls (calls w ++ [DocsDelete docId]) w)))).
    { open_store. exec. reflexivity. }
    rewrite Hrun in E. injection E as <-. split; reflexivity.
  - cbn. split; [reflexivity|]. split; [reflexivity | discriminate].
Qed.

Lemma endsWith_app (a q : string) : JSMore.endsWith (a ++ q) q = true.
Proof.
  unfold JSMore.endsWith. rewrite string_app_length.
  replace (String.length a + String.length q - String.length q) with (String.length a) by lia.
  apply andb_true_intro. split; [apply Nat.leb_le; lia|].
  apply String.eqb_eq.
  induction a as [|c a IH]; simpl.
  - apply substring0_all. lia.
  - exact IH.
Qed.

Lemma substring0_app_exact (a b : string) :
  String.substring 0 (String.length a) (a ++ b) = a.
Proof.
  rewrite substring0_app by lia. apply substring0_all. lia.
Qed.

(** X27. A file that is read becomes a document with the text of the file,
    unchanged, as content and its length as size; a name that ends in
    [.md] gives the title without it.  When the database rejects the
    request the user is told which file failed and nothing is stored. *)
Theorem uploaded_file_becomes_document (file : OFileManager.File) (w : World) :
  let r := OFileManager.onload file w in
  fst r = Ok tt /\
  (forall base, OFileManager.name file = (base ++ ".md")%string ->
                OFileManager.fileName file = base) /\
  (forall u us,
     faults w = [] -> uuids w = u :: us ->
     Table.get String.eqb DatabaseService.primary_key u (db_documents w) = None ->
     alerts (snd r) = alerts w /\
     exists d,
       Table.get String.eqb DatabaseService.primary_key u (db_documents (snd r)) =
         Some d /\
       EditorStore.currentDocument (editor (snd r)) = Some d /\
       title d = Some (OFileManager.fileName file) /\
       content d = Some (OFileManager.text file) /\
       FTMdcContent d = OFileManager.text file /\
       FNMdcSize d = String.length (OFileManager.text file)) /\
  (forall fs,
     faults w = true :: fs ->
     alerts (snd r) = alerts w ++ ["Failed to upload " ++ OFileManager.name file]%string /\
     db_documents (snd r) = db_documents w).
Proof.
  intros r. subst r. split; [|split; [|split]].
  - unfold OFileManager.onload. open_store.
    destruct (uuids w) as [|u us] eqn:Hu; unfold randomUUID; exec;
      unfold Table.add; exec; try reflexivity.
    all: repeat match goal with
           | |- context [match Table.get ?e ?p ?x ?t with _ => _ end] =>
               destruct (Table.get e p x t); exec
           end; reflexivity.
  - intros base Hname. unfold OFileManager.fileName. rewrite Hname.
    rewrite endsWith_app, substring_head, string_app_length.
    change (String.length ".md") with 3.
    replace (String.length base + 3 - 3) with (String.length base) by lia.
    apply substring0_app_exact.
  - intros u us Hf Hu Hnone. unfold OFileManager.onload. open_store.
    unfold Table.add. exec.
    rewrite (get_insert String.eqb String.ltb DatabaseService.primary_key
               string_eqb_refl) by (reflexivity || assumption).
    exec. split; [reflexivity|]. eexists.
    rewrite (get_insert String.eqb String.ltb DatabaseService.primary_key
               string_eqb_refl) by (reflexivity || assumption).
    repeat split; reflexivity.
  - intros fs Hf. unfold OFileManager.onload. open_store.
    destruct (uuids w) as [|u us] eqn:Hu; unfold randomUUID; exec;
      split; reflexivity.
Qed.

Lemma handleFileUpload_each_run (files : list OFileManager.File) (w : World) :
  OFileManager.handleFileUpload_each files w =
  (Ok (filter OFileManager.is_markdown files),
   with_alerts
     (alerts w ++
      map (fun file => (OFileManager.name file ++
                        " is not a markdown file. Please upload .md files only.")%string)
          (filter (fun file => negb (OFileManager.is_markdown file)) files)) w).
Proof.
  revert w. induction files as [|file files IH]; intros w.
  - cbn. rewrite app_nil_r. destruct w; reflexivity.
  - cbn [OFileManager.handleFileUpload_each filter].
    destruct (OFileManager.is_markdown file); cbn [negb].
    + unfold bind. rewrite IH. reflexivity.
    + unfold bind, alert. rewrite IH. cbn. rewrite <- app_assoc. reflexivity.
Qed.

(** Choosing files in the file manager: a reader is started for each
    markdown file (by type or by a name in [.md]), in the order given, and
    one alert is shown for each other file; nothing else changes, and no
    request is sent before a file has been read. *)
Theorem upload_refuses_other_files (files : list OFileManager.File) (w : World) :
  let r := OFileManager.handleFileUpload (Some files) w in
  fst r = Ok (filter OFileManager.is_markdown files) /\
  length (alerts (snd r)) =
    length (alerts w) +
    length (filter (fun file => negb (OFileManager.is_markdown file)) files) /\
  calls (snd r) = calls w /\ db_documents (snd r) = db_documents w /\
  editor (snd r) = editor w /\
  (Forall (fun file => OFileManager.is_markdown file = true) files -> snd r = w) /\
  OFileManager.handleFileUpload None w = (Ok [], w).
Proof.
  intros r. subst r. cbn [OFileManager.handleFileUpload].
  rewrite handleFileUpload_each_run. cbn.
  split; [reflexivity|]. split; [rewrite length_app, length_map; reflexivity|].
  do 3 (split; [reflexivity|]). split; [|reflexivity].
  intros Hall.
  assert (Hnone : filter (fun file => negb (OFileManager.is_markdown file)) files = []).
  { induction Hall as [|f fs Hf _ IH]; [reflexivity|]. simpl. rewrite Hf. exact IH. }
  rewrite Hnone. cbn. rewrite app_nil_r. destruct w; reflexivity.
Qed.

(** X28. The import button.  The chosen file becomes a document tagged
    [imported] whose size is the length of its content and whose title is
    the file name, or [Imported Document] when the name is empty.  An alert
    is shown when the database rejects the request or the file cannot be
    read, and none when no file was chosen. *)
Theorem import_reports_failures (picked : Res (string * string)) (w : World) :
  let r := OToolbar_import.handleImport picked w in
  fst r = Ok tt /\
  (picked = Throw "No file selected" -> alerts (snd r) = alerts w /\ calls (snd r) = calls w) /\
  (forall message, picked = Throw message -> message <> "No file selected" ->
     alerts (snd r) = alerts w ++ ["Failed to import file"] /\ calls (snd r) = calls w) /\
  (forall body filename,
     picked = Ok (body, filename) ->
     (forall fs, faults w = true :: fs ->
        alerts (snd r) = alerts w ++ ["Failed to import file"] /\
        db_documents (snd r) = db_documents w) /\
     (forall u us,
        faults w = [] -> uuids w = u :: us ->
        Table.get String.eqb DatabaseService.primary_key u (db_documents w) = None ->
        alerts (snd r) = alerts w /\
        exists d,
          Table.get String.eqb DatabaseService.primary_key u (db_documents (snd r)) =
            Some d /\
          title d = Some (if filename =? "" then "Imported Document" else filename) /\
          content d = Some body /\ FTMdcContent d = body /\
          FNMdcSize d = String.length body /\
          tags d = Some ["imported"])).
Proof.
  intros r. subst r. split; [|split; [|split]].
  - unfold OToolbar_import.handleImport. destruct picked as [[body filename]|message].
    + open_store.
      destruct (uuids w) as [|u us] eqn:Hu; unfold randomUUID; exec;
        unfold Table.add; exec; try reflexivity.
      all: repeat match goal with
             | |- context [match Table.get ?e ?p ?x ?t with _ => _ end] =>
                 destruct (Table.get e p x t); exec
             end; reflexivity.
    + open_store. cbn. destruct (message =? "No file selected"); reflexivity.
  - intros ->. unfold OToolbar_import.handleImport. open_store. cbn.
    split; reflexivity.
  - intros message -> Hne. unfold OToolbar_import.handleImport. open_store. cbn.
    destruct (String.eqb_spec message "No file selected"); [contradiction|].
    cbn. split; reflexivity.
  - intros body filename ->. split.
    + intros fs Hf. unfold OToolbar_import.handleImport. open_store.
      destruct (uuids w) as [|u us] eqn:Hu; unfold randomUUID; exec;
        split; reflexivity.
    + intros u us Hf Hu Hnone. unfold OToolbar_import.handleImport, JS.truthy.
      destruct (filename =? ""); open_store; unfold Table.add; exec.
      all: rewrite (get_insert String.eqb String.ltb DatabaseService.primary_key
                      string_eqb_refl) by (reflexivity || assumption).
      all: exec; split; [reflexivity|]; eexists.
      all: rewrite (get_insert String.eqb String.ltb DatabaseService.primary_key
                      string_eqb_refl) by (reflexivity || assumption).
      all: repeat split; reflexivity.
Qed.

(** ** Formatting the selection *)

Lemma string_app_nil_r (s : string) : (s ++ "")%string = s.
Proof. induction s as [|c s IH]; simpl; [reflexivity | rewrite IH; reflexivity]. Qed.

Lemma string_length_zero (s : string) : String.length s = 0 -> s = "".
Proof. destruct s; [reflexivity | discriminate]. Qed.

(** A text is what is before a selection, the selection, and what is after
    it. *)
Lemma selection_split (v : string) (i j : nat) :
  i <= j <= String.length v ->
  v = (JSMore.substring 0 i v ++ JSMore.substring i j v ++ JSMore.substring_from j v)%string /\
  String.length (JSMore.substring 0 i v) = i /\
  String.length (JSMore.substring i j v) = j - i.
Proof.
  unfold JSMore.substring, JSMore.substring_from.
  rewrite Nat.min_0_l, Nat.max_0_l, Nat.sub_0_r.
  intros [Hij Hj]. rewrite Nat.min_l, Nat.max_r by exact Hij.
  revert i j Hij Hj. induction v as [|c v IH]; intros i j Hij Hj; simpl in Hj.
  - assert (j = 0) by lia. assert (i = 0) by lia. subst. simpl. auto.
  - destruct i as [|i].
    + destruct j as [|j].
      * simpl. rewrite substring0_all by lia. auto.
      * specialize (IH 0 j ltac:(lia) ltac:(lia)).
        rewrite Nat.sub_0_r in *. destruct IH as (IH1 & _ & IH3).
        cbn [String.substring String.length Nat.sub append].
        assert (H0 : String.substring 0 0 v = "") by (destruct v; reflexivity).
        rewrite H0 in IH1. cbn [append] in IH1.
        split; [f_equal; exact IH1|]. split; [reflexivity|].
        rewrite IH3. reflexivity.
    + destruct j as [|j]; [lia|].
      specialize (IH i j ltac:(lia) ltac:(lia)). destruct IH as (IH1 & IH2 & IH3).
      cbn [String.substring String.length Nat.sub append].
      split; [f_equal; exact IH1|]. split; [rewrite IH2; reflexivity | exact IH3].
Qed.

(** Every known format puts an opening and a closing marker around the
    selection; the cursor goes behind the opening marker when nothing is
    selected, behind the closing one otherwise. *)
Lemma formatted_wraps (format : string) (value : Home_format.Value) (start : nat)
  (sel newText : string) (pos : nat) :
  Home_format.formatted format value start sel = Some (newText, pos) ->
  exists opening closing,
    newText = (opening ++ sel ++ closing)%string /\
    0 < String.length opening /\
    pos = if sel =? "" then start + String.length opening
          else start + String.length newText.
Proof.
  unfold Home_format.formatted, JS.truthy.
  repeat match goal with
         | |- context [if format =? ?s then _ else _] => destruct (format =? s)
         end; intros H; try discriminate; injection H as <- <-.
  1: exists "**", "**".
  2: exists "*", "*".
  3: exists "<u>", "</u>".
  4: exists "~~", "~~".
  5: exists (JSMore.repeat "#" (Home_format.level_of value) ++ " ")%string, "".
  6: exists "- ", "".
  7: exists "`", "`".
  8: exists ("```" ++ Home_format.NL)%string, (Home_format.NL ++ "```")%string.
  all: rewrite ?string_app_nil_r, ?string_app_assoc.
  all: split; [reflexivity|].
  all: split; [rewrite ?string_app_length; cbn; lia|].
  all: destruct (String.eqb_spec sel "") as [->|Hne]; cbn [negb];
    repeat (progress (rewrite ?string_app_length; cbn)); try reflexivity; try lia.
Qed.

(** X29. Formatting with a document open only puts markers around the
    selection: the text before and after it is kept, the selection stays
    between an opening marker, never empty, and a closing one, the draft of
    the store is that text, and the cursor goes behind the opening marker
    when nothing is selected and behind the closing one otherwise.  A
    format that is not known changes nothing. *)
Theorem formatting_wraps_the_selection (format : string) (value : Home_format.Value)
  (ta : Textarea.t) (cur : MarkdownDocument) (w : World) :
  EditorStore.currentDocument (editor w) = Some cur ->
  Textarea.selectionStart ta <= Textarea.selectionEnd ta <=
    String.length (Textarea.value ta) ->
  let r := Home_format.handleFormatText format value (Some ta) w in
  match fst r with
  | Ok (Some pos) =>
      exists head sel rest opening closing,
        Textarea.value ta = (head ++ sel ++ rest)%string /\
        String.length head = Textarea.selectionStart ta /\
        String.length sel = Textarea.selectionEnd ta - Textarea.selectionStart ta /\
        EditorStore.content (editor (snd r)) =
          Some (head ++ opening ++ sel ++ closing ++ rest)%string /\
        0 < String.length opening /\
        pos = String.length head + String.length opening +
              (if sel =? "" then 0 else String.length sel + String.length closing) /\
        calls (snd r) = calls w
  | Ok None => snd r = w
  | Throw _ => False
  end.
Proof.
  intros Hcur Hsel r. subst r.
  unfold Home_format.handleFormatText, bind, useEditorStore.get. cbn [fst snd].
  rewrite Hcur.
  destruct (selection_split (Textarea.value ta) _ _ Hsel) as (Hv & Hh & Hs).
  set (head := JSMore.substring 0 (Textarea.selectionStart ta) (Textarea.value ta)) in *.
  set (sel := JSMore.substring (Textarea.selectionStart ta) (Textarea.selectionEnd ta)
                               (Textarea.value ta)) in *.
  set (rest := JSMore.substring_from (Textarea.selectionEnd ta) (Textarea.value ta)) in *.
  destruct (Home_format.formatted format value (Textarea.selectionStart ta) sel)
    as [[newText pos]|] eqn:Hfmt; [|reflexivity].
  destruct (formatted_wraps _ _ _ _ _ _ Hfmt) as (opening & closing & -> & Hopen & ->).
  unfold useEditorStore.setContent, useEditorStore.set, useEditorStore.get, setTimeout,
    bind, ret.
  cbn. destruct (AppSettings.autoSave (EditorStore.settings (editor w))); cbn.
  all: exists head, sel, rest, opening, closing.
  all: rewrite !string_app_assoc.
  all: repeat (split; [assumption || reflexivity|]).
  all: split; [|reflexivity].
  all: rewrite Hh; destruct (sel =? ""); rewrite ?string_app_length; lia.
Qed.

(** X30. Two buttons of the toolbar do nothing: [Home] handles the formats
    [list] and [codeblock], but the toolbar sends [orderedList],
    [unorderedList] and [codeBlock], which [handleFormatText] does not
    know, so that the world is left as it was.  The other six buttons, and
    the two formats when sent under the names the handler knows, do change
    the draft when a document is open and the textarea is found. *)
Theorem list_and_codeblock_buttons_do_nothing (textarea : option Textarea.t)
  (ordered : bool) (level : nat) (w : World) :
  let onFormatText format value := Home_format.handleFormatText format value textarea in
  OToolbar_format.handleList onFormatText ordered w = (Ok None, w) /\
  OToolbar_format.handleCodeBlock onFormatText w = (Ok None, w) /\
  (EditorStore.currentDocument (editor w) <> None -> textarea <> None ->
   Forall (fun button : M (option nat) => exists pos, fst (button w) = Ok (Some pos))
          [OToolbar_format.handleBold onFormatText;
           OToolbar_format.handleItalic onFormatText;
           OToolbar_format.handleUnderline onFormatText;
           OToolbar_format.handleStrikethrough onFormatText;
           OToolbar_format.handleHeading onFormatText level;
           OToolbar_format.handleCode onFormatText;
           onFormatText "list" Home_format.undefined;
           onFormatText "codeblock" Home_format.undefined]).
Proof.
  intros onFormatText. subst onFormatText.
  unfold OToolbar_format.handleList, OToolbar_format.handleCodeBlock,
    OToolbar_format.handleBold, OToolbar_format.handleItalic,
    OToolbar_format.handleUnderline, OToolbar_format.handleStrikethrough,
    OToolbar_format.handleHeading, OToolbar_format.handleCode,
    Home_format.handleFormatText, bind, useEditorStore.get.
  cbn [fst snd].
  destruct (EditorStore.currentDocument (editor w)) as [cur|] eqn:Hcur;
    [|repeat split; try reflexivity; intros H; contradiction].
  destruct textarea as [ta|];
    [|repeat split; try reflexivity; intros _ H; contradiction].
  split; [destruct ordered; reflexivity|]. split; [reflexivity|].
  intros _ _.
  unfold useEditorStore.setContent, useEditorStore.set, useEditorStore.get, setTimeout,
    bind, ret.
  repeat (apply Forall_cons;
          [cbn; rewrite Hcur; cbn;
           destruct (AppSettings.autoSave (EditorStore.settings (editor w))); cbn;
           eexists; reflexivity|]).
  apply Forall_nil.
Qed.

(** ** The further properties at the sample worlds *)

Lemma created_document_reads_back_witness :
  faults Sample.editing = [] /\
  uuids Sample.editing = ["u1"; "u2"] /\
  fst (useEditorStore.createDocument Scenario.upload Sample.editing) = Ok "u1".
Proof.
  split; [reflexivity|]. split; [reflexivity|].
  exact (proj1 (created_document_reads_back Scenario.upload Sample.editing "u1" ["u2"]
                  eq_refl eq_refl eq_refl)).
Defined.

Lemma update_of_missing_id_is_silent_witness :
  faults Sample.editing = [] /\
  db_documents (snd (DatabaseService.updateDocument "d9" Scenario.retitle Sample.editing)) =
    db_documents Sample.editing.
Proof.
  split; [reflexivity|].
  exact (proj2 (proj1 (update_of_missing_id_is_silent "d9" 9 Scenario.retitle
                         Sample.editing eq_refl eq_refl eq_refl))).
Defined.

Lemma deleted_document_is_gone_witness :
  faults Sample.editing = [] /\
  fst (DatabaseService.getDocument "d1"
         (snd (DatabaseService.deleteDocument "d1" Sample.editing))) = Ok None.
Proof.
  split; [reflexivity|].
  exact (proj1 (proj2 (deleted_document_is_gone "d1" Sample.editing eq_refl))).
Defined.

Lemma save_brings_editor_in_step_witness :
  faults Sample.editing = [] /\
  EditorStore.content (editor Sample.editing) = Some "abc" /\
  EditorStore.content
    (editor (snd (useEditorStore.saveCurrentDocument Sample.editing))) = Some "abc".
Proof.
  split; [reflexivity|]. split; [reflexivity|].
  exact (proj1 (proj2 (proj2 (save_brings_editor_in_step Sample.editing Sample.note
                                Sample.note "d1" "abc"
                                eq_refl eq_refl eq_refl eq_refl eq_refl)))).
Defined.

Lemma save_without_document_creates_one_witness :
  faults Sample.first_run = [] /\
  EditorStore.currentDocument (editor Sample.first_run) = None /\
  fst (useEditorStore.saveCurrentDocument Sample.first_run) = Ok tt.
Proof.
  split; [reflexivity|]. split; [reflexivity|].
  exact (proj1 (save_without_document_creates_one Sample.first_run "u1" ["u2"]
                  eq_refl eq_refl eq_refl eq_refl)).
Defined.

Lemma commit_touches_one_record_witness :
  "d2" <> "d1" /\
  Table.get String.eqb DatabaseService.primary_key "d2"
            (db_documents (snd (useEditorStore.autoSave Sample.editing))) =
    Table.get String.eqb DatabaseService.primary_key "d2" (db_documents Sample.editing).
Proof.
  assert (Hne : "d2" <> "d1") by discriminate.
  split; [exact Hne|].
  exact (proj2 (commit_touches_one_record Sample.editing Sample.note "d1" "d2"
                  eq_refl eq_refl Hne)).
Defined.

Lemma autoSave_is_safe_witness :
  autoSave_blocked (editor Sample.first_run) /\
  snd (useEditorStore.autoSave Sample.first_run) = Sample.first_run.
Proof.
  assert (Hb : autoSave_blocked (editor Sample.first_run)).
  { right. right. reflexivity. }
  split; [exact Hb|].
  exact (proj2 (proj2 (autoSave_is_safe Sample.first_run)) Hb).
Defined.

Lemma rejected_writes_are_rethrown_witness :
  faults Sample.failing = [true] /\
  fst (useDocumentStore.deleteDocument 1%N Sample.failing) = Throw "DexieError".
Proof.
  split; [reflexivity|].
  pose proof (rejected_writes_are_rethrown Sample.failing [] Scenario.upload
                "t" "c" 1%N Scenario.rewrite_content eq_refl) as (_ & _ & _ & H & _).
  exact H.
Defined.

Lemma docstore_create_is_consistent_witness :
  faults Sample.editing = [] /\
  keys_issued Sample.editing /\
  fst (useDocumentStore.createDocument "Title" "text" Sample.editing) = Ok tt.
Proof.
  assert (Hk : keys_issued Sample.editing).
  { intros d k [<- | [<- | [<- | []]]] Hd; injection Hd as <-; vm_compute; discriminate. }
  split; [reflexivity|]. split; [exact Hk|].
  exact (proj1 (docstore_create_is_consistent "Title" "text" Sample.editing eq_refl Hk)).
Defined.

Lemma toggleFavorite_flips_the_flag_witness :
  faults Sample.editing = [] /\
  fst (useDocumentStore.toggleFavorite 1%N Sample.editing) = Ok tt.
Proof.
  split; [reflexivity|].
  exact (proj1 (toggleFavorite_flips_the_flag 1%N Sample.editing eq_refl)).
Defined.

Lemma loadDocuments_always_finishes_witness :
  faults Sample.failing = [true] /\
  console (snd (useDocumentStore.loadDocuments Sample.failing)) =
    console Sample.failing ++ ["Error loading documents:"].
Proof.
  split; [reflexivity|].
  exact (proj2 (proj1 (proj2 (proj2 (loadDocuments_always_finishes Sample.failing)))
                  [] eq_refl)).
Defined.

Lemma highlights_contain_the_query_witness :
  In "# Hello" (sMarkdownService.FSaMDKSearchInContent "# Hello" "hello") /\
  ci_substring_of "hello" "# Hello".
Proof.
  assert (Hin : In "# Hello" (sMarkdownService.FSaMDKSearchInContent "# Hello" "hello")).
  { left. reflexivity. }
  split; [exact Hin|].
  exact (proj1 (highlights_contain_the_query "# Hello" "hello" "# Hello" Hin)).
Defined.

Lemma search_results_are_bounded_witness :
  fst (useDocumentStore.searchDocuments "hello" Sample.editing) = Ok tt /\
  calls (snd (useDocumentStore.searchDocuments "hello" Sample.editing)) =
    calls Sample.editing.
Proof.
  pose proof (search_results_are_bounded "hello" Sample.editing) as (Hok & Hcalls & _).
  split; [exact Hok | exact Hcalls].
Defined.

Lemma editor_save_is_debounced_witness :
  save_timer_tracked Sample.editing /\
  length (pending_saves Sample.editing) <= 1 /\
  length (pending_saves
            (fold_left (fun w text => snd (OMarkdownEditor.handleContentChange text w))
                       (["ab"; "abc"] ++ ["abcd"]) Sample.editing)) <= 1.
Proof.
  assert (Htr : save_timer_tracked Sample.editing) by (intros t []).
  assert (Hone : length (pending_saves Sample.editing) <= 1) by (simpl; lia).
  split; [exact Htr|]. split; [exact Hone|].
  exact (proj1 (proj2 (editor_save_is_debounced ["ab"; "abc"] "abcd" Sample.editing
                         Htr Hone))).
Defined.

Lemma editor_update_replaces_draft_witness :
  faults Sample.editing = [] /\
  pid Scenario.retitle = None /\
  fst (useEditorStore.updateDocument Scenario.retitle Sample.editing) = Ok tt.
Proof.
  split; [reflexivity|]. split; [reflexivity|].
  exact (proj1 (editor_update_replaces_draft Sample.editing Sample.note Sample.note
                  "d1" Scenario.retitle eq_refl eq_refl eq_refl eq_refl eq_refl)).
Defined.

Lemma delete_current_clears_editor_witness :
  faults Sample.editing = [] /\
  EditorStore.currentDocument (editor Sample.editing) = Some Sample.note /\
  EditorStore.currentDocument
    (editor (snd (useEditorStore.deleteDocument "d1" Sample.editing))) = None.
Proof.
  split; [reflexivity|]. split; [reflexivity|].
  exact (proj1 (delete_current_clears_editor Sample.editing Sample.note "d1"
                  eq_refl eq_refl eq_refl)).
Defined.

Lemma loadDocument_shows_stored_record_witness :
  faults Sample.editing = [] /\
  EditorStore.currentDocument
    (editor (snd (useEditorStore.loadDocument "d2" Sample.editing))) = Some Sample.todo.
Proof.
  split; [reflexivity|].
  exact (proj1 (proj2 (loadDocument_shows_stored_record Sample.editing "d2") eq_refl)).
Defined.


Lemma truncated_text_is_bounded_witness :
  (Z.of_nat (String.length "hello world") <= 20)%Z /\
  uTextUtils.FStTXTTruncateText "hello world" 20 "..." = "hello world".
Proof.
  assert (H : (Z.of_nat (String.length "hello world") <= 20)%Z) by (vm_compute; discriminate).
  split; [exact H|].
  exact (proj1 (proj2 (truncated_text_is_bounded "hello world" "..." 20)) H).
Defined.

Lemma sorted_documents_are_ordered_witness :
  uDocumentUtils.SortBy.modified <> uDocumentUtils.SortBy.title /\
  StronglySorted
    (fun a b => in_order uDocumentUtils.Order.desc
                         (sort_key uDocumentUtils.SortBy.modified a)
                         (sort_key uDocumentUtils.SortBy.modified b))
    (uDocumentUtils.FSaDocSortDocuments Scenario.by_length
       [Sample.hello; Sample.spaced; Sample.tagged]
       uDocumentUtils.SortBy.modified uDocumentUtils.Order.desc).
Proof.
  assert (H : uDocumentUtils.SortBy.modified <> uDocumentUtils.SortBy.title)
    by discriminate.
  split; [exact H|].
  exact (proj1 (proj2 (sorted_documents_are_ordered Scenario.by_length
                         [Sample.hello; Sample.spaced; Sample.tagged]
                         uDocumentUtils.SortBy.modified uDocumentUtils.Order.desc) H)).
Defined.

Lemma filtered_documents_pass_the_filters_witness :
  uDocumentUtils.FSaDocFilterDocuments [Sample.hello; Sample.spaced; Sample.tagged]
    (uDocumentUtils.Filters.mk None None None None) =
  [Sample.hello; Sample.spaced; Sample.tagged].
Proof.
  exact (proj2 (proj2 (proj2 (filtered_documents_pass_the_filters
                                [Sample.hello; Sample.spaced; Sample.tagged]
                                (uDocumentUtils.Filters.mk (Some "hello") None None None))))).
Defined.

Lemma filter_and_search_agree_witness :
  blank "hello" = false /\
  Permutation
    (map SearchResult.documentId
       (DocumentStore.searchResults
          (docstore (snd (useDocumentStore.searchDocuments "hello" Sample.editing)))))
    (map FNMdcId
       (uDocumentUtils.FSaDocFilterDocuments
          (DocumentStore.documents (docstore Sample.editing))
          (uDocumentUtils.Filters.mk (Some "hello") None None None))).
Proof.
  split; [reflexivity|].
  exact (proj1 (filter_and_search_agree "hello" Sample.editing) eq_refl).
Defined.

Lemma legacy_search_finds_matches_witness :
  faults Sample.editing = [] /\
  Forall has_text (db_documents Sample.editing) /\
  exists l, OFileManager.filteredDocuments (db_documents Sample.editing)
              Scenario.searching = Ok l.
Proof.
  assert (Hall : Forall has_text (db_documents Sample.editing)).
  { repeat constructor; discriminate. }
  split; [reflexivity|]. split; [exact Hall|].
  destruct (legacy_search_finds_matches "todo" Sample.editing Scenario.searching
              eq_refl Hall eq_refl) as (l & _ & _ & _ & _ & H).
  exists l. exact H.
Defined.

Lemma search_fails_on_untitled_record_witness :
  faults Scenario.mixed = [] /\
  In Sample.hello (db_documents Scenario.mixed) /\
  title Sample.hello = None /\
  fst (DatabaseService_search.searchDocuments "a" Scenario.mixed) = Throw "TypeError".
Proof.
  assert (Hin : In Sample.hello (db_documents Scenario.mixed)).
  { right. left. reflexivity. }
  split; [reflexivity|]. split; [exact Hin|]. split; [reflexivity|].
  exact (proj1 (search_fails_on_untitled_record "a" Scenario.mixed Scenario.searching
                  Sample.hello eq_refl Hin eq_refl)).
Defined.

Lemma file_manager_creates_empty_document_witness :
  blank (OFileManager.newDocTitle Scenario.form) = false /\
  faults Sample.editing = [] /\
  alerts (snd (OFileManager.handleCreateDocument Scenario.form Sample.editing)) =
    alerts Sample.editing.
Proof.
  split; [reflexivity|]. split; [reflexivity|].
  exact (proj1 (proj2 (proj1 (proj2 (file_manager_creates_empty_document
                                       Scenario.form Sample.editing) eq_refl)
                               "u1" ["u2"] eq_refl eq_refl eq_refl))).
Defined.

Lemma file_manager_delete_never_alerts_witness :
  faults Sample.failing = [true] /\
  fst (OFileManager.handleDeleteDocument true "d1" Scenario.form Sample.failing) =
    Ok (OFileManager.with_selectedDocId None Scenario.form).
Proof.
  split; [reflexivity|].
  exact (proj1 (proj2 (proj2 (file_manager_delete_never_alerts true "d1" Scenario.form
                                Sample.failing)) eq_refl)).
Defined.

Lemma uploaded_file_becomes_document_witness :
  OFileManager.name Scenario.notes_md = ("notes" ++ ".md")%string /\
  OFileManager.fileName Scenario.notes_md = "notes".
Proof.
  split; [reflexivity|].
  exact (proj1 (proj2 (uploaded_file_becomes_document Scenario.notes_md Sample.editing))
           "notes" eq_refl).
Defined.

Lemma import_reports_failures_witness :
  alerts (snd (OToolbar_import.handleImport (Throw "No file selected") Sample.editing)) =
    alerts Sample.editing.
Proof.
  exact (proj1 (proj1 (proj2 (import_reports_failures (Throw "No file selected")
                                Sample.editing)) eq_refl)).
Defined.

Lemma formatting_wraps_the_selection_witness :
  EditorStore.currentDocument (editor Sample.editing) = Some Sample.note /\
  Textarea.selectionStart Scenario.selection <= Textarea.selectionEnd Scenario.selection
    <= String.length (Textarea.value Scenario.selection) /\
  EditorStore.content
    (editor (snd (Home_format.handleFormatText "bold" Home_format.undefined
                    (Some Scenario.selection) Sample.editing))) =
    Some "**hello** world".
Proof.
  assert (Hsel : Textarea.selectionStart Scenario.selection <=
                 Textarea.selectionEnd Scenario.selection <=
                 String.length (Textarea.value Scenario.selection)).
  { cbn. lia. }
  split; [reflexivity|]. split; [exact Hsel|].
  pose proof (formatting_wraps_the_selection "bold" Home_format.undefined
                Scenario.selection Sample.note Sample.editing eq_refl Hsel) as H.
  cbn in H. destruct H as (head & sel & rest & opening & closing & _). reflexivity.
Defined.

Lemma list_and_codeblock_buttons_do_nothing_witness :
  OToolbar_format.handleList
    (fun format value =>
       Home_format.handleFormatText format value (Some Scenario.selection))
    true Sample.editing = (Ok None, Sample.editing).
Proof.
  exact (proj1 (list_and_codeblock_buttons_do_nothing (Some Scenario.selection) true 1
                  Sample.editing)).
Defined.
